(** * dgm-pipeline: models.py

    A shallow embedding of the orchestration code of [models.py]
    (GenerativeModel, GAN, VAE and the loss library) together with the
    properties of its specification.

    Conventions.
    - A Python [dict] (the model specification, an object's attribute
      dictionary, the file system seen through [os.path.exists] /
      [os.remove]) is a [gmap string _].
    - A Python exception is a constructor of [exn]; code that may raise
      returns a [result].
    - Tensor entries are exact rationals ([Q]); the functions that need
      logarithms are stated over the reals ([R]).  Rounding of the
      floating-point backend is outside the model.  Where infinities and
      NaN matter (the masked log-probability) the entries are the values
      [fval], and arrays carry their shape and broadcast as TensorFlow's
      do. *)

From Stdlib Require Import ZArith QArith Qabs Reals Lra Lia List.
From Stdlib Require Lqa.
From Stdlib Require Qcanon.
From stdpp Require Import gmap strings list fin_maps.

Set Warnings "-register-all".
Local Open Scope Z_scope.

(** ** Python values, exceptions, results *)

Inductive exn : Type :=
  | TypeError
  | ValueError
  | KeyError (key : string)
  | IndexError
  | ZeroDivisionError
  | NotImplementedError
  | UnboundLocalError
  | StopIteration
  | InvalidArgumentError.

Inductive result (A : Type) : Type :=
  | Ok (a : A)
  | Raise (e : exn).
Arguments Ok {A} a.
Arguments Raise {A} e.

#[global] Instance result_ret : MRet result := fun A a => Ok a.
#[global] Instance result_bind : MBind result := fun A B k r =>
  match r with
  | Ok a => k a
  | Raise e => Raise e
  end.

Definition returns {A} (r : result A) : Prop := exists a, r = Ok a.

(** The values a JSON model specification and an attribute dictionary
    hold.  [VObj] stands for an opaque framework object (a Keras network,
    an optimizer, a dataset) identified by a label. *)
Inductive pyval : Type :=
  | VNone
  | VBool (b : bool)
  | VInt (z : Z)
  | VNum (q : Q)
  | VStr (s : string)
  | VList (l : list pyval)
  | VDict (d : gmap string pyval)
  | VObj (label : string).

(** [d[k]] on a value: [KeyError] on a missing key, [TypeError] on a value
    that is not a mapping. *)
Definition getitem (d : pyval) (k : string) : result pyval :=
  match d with
  | VDict m => match m !! k with
               | Some v => Ok v
               | None => Raise (KeyError k)
               end
  | _ => Raise TypeError
  end.

(** [o is None] *)
Definition is_none {A} (o : option A) : bool :=
  match o with None => true | Some _ => false end.

(** [k in d.keys()] *)
Definition has_key (d : gmap string pyval) (k : string) : bool :=
  bool_decide (is_Some (d !! k)).

Definition as_int (v : pyval) : result Z :=
  match v with
  | VInt z => Ok z
  | VBool b => Ok (if b then 1 else 0)
  | _ => Raise TypeError
  end.

Definition as_num (v : pyval) : result Q :=
  match v with
  | VInt z => Ok (inject_Z z)
  | VBool b => Ok (if b then 1%Q else 0%Q)
  | VNum q => Ok q
  | _ => Raise TypeError
  end.

(** [int(n / d)] on integers: true division, then truncation towards
    zero. *)
Definition int_div (n d : Z) : result Z :=
  if d =? 0 then Raise ZeroDivisionError else Ok (Z.quot n d).

(** [needle in hay] on strings. *)
Fixpoint contains (needle hay : string) : bool :=
  String.prefix needle hay ||
  match hay with
  | EmptyString => false
  | String _ rest => contains needle rest
  end.

(** ** Objects

    An instance is its attribute dictionary; [hasattr(self, a)] is a
    lookup. *)
Definition hasattr (self : gmap string pyval) (a : string) : bool :=
  bool_decide (is_Some (self !! a)).

(** A statement that runs on an object: the object afterwards and how the
    statement ended. *)
Definition stmt : Type := gmap string pyval -> gmap string pyval * result unit.

Definition andthen (s1 s2 : stmt) : stmt :=
  fun self =>
    match s1 self with
    | (self', Ok _) => s2 self'
    | (self', Raise e) => (self', Raise e)
    end.

Definition setattr (a : string) (v : pyval) : stmt :=
  fun self => (<[a := v]> self, Ok tt).

Definition setattr_from (a : string) (r : result pyval) : stmt :=
  fun self =>
    match r with
    | Ok v => (<[a := v]> self, Ok tt)
    | Raise e => (self, Raise e)
    end.

(** ** GenerativeModel.__init__ and GAN.__init__ *)

Module Construction.

(** [def __init__(self, spec, dataset)]: two required positional
    parameters after [self]; any other number of positional arguments is a
    [TypeError] raised when the call is bound, before the body runs. *)
Definition GenerativeModel_init (args : list pyval) : stmt :=
  match args with
  | [spec; dataset] =>
      andthen (setattr "spec" spec)
     (andthen (setattr "dataset" dataset)
     (andthen (setattr_from "latent_dim" (getitem spec "latent_dim"))
          (setattr_from "image_dims" (getitem spec "image_dims"))))
  | _ => fun self => (self, Raise TypeError)
  end.

Section GAN.
(** What follows [super().__init__(spec)] in [GAN.__init__]: building
    the two networks, the prior, the losses and the two optimizers.  It
    is kept abstract, the statements below hold whatever it does. *)
Variable GAN_init_rest : pyval -> stmt.

(** [def __init__(self, spec): super().__init__(spec); ...] *)
Definition GAN_init (args : list pyval) : stmt :=
  match args with
  | [spec] => andthen (GenerativeModel_init [spec]) (GAN_init_rest spec)
  | _ => fun self => (self, Raise TypeError)
  end.

(** Instantiating the class: [__init__] runs on a fresh, empty instance. *)
Definition GAN_new (args : list pyval) : gmap string pyval * result unit :=
  GAN_init args ∅.
End GAN.

Section VAE.
Variable VAE_init_rest : pyval -> stmt.

(** [def __init__(self, spec, dataset): super().__init__(spec, dataset); ...] *)
Definition VAE_init (args : list pyval) : stmt :=
  match args with
  | [spec; dataset] =>
      andthen (GenerativeModel_init [spec; dataset]) (VAE_init_rest spec)
  | _ => fun self => (self, Raise TypeError)
  end.
End VAE.

End Construction.

(** ** Resolution of [epochs] in [GAN.train] and [VAE.train] *)

Module Epochs.

(** [[
      if epochs is None and 'epochs' in self.spec.keys():
          epochs = self.spec['epochs']
      else:
          raise ValueError('Provide a number of epochs ...')
    ]]
    The same four lines open [GAN.train] and [VAE.train]. *)
Definition resolve_epochs (epochs : option pyval) (spec : gmap string pyval)
  : result pyval :=
  if is_none epochs && has_key spec "epochs"
  then getitem (VDict spec) "epochs"
  else Raise ValueError.

(** Resolvable, in the words of the specification: given explicitly or
    present in the specification under [epochs]. *)
Definition resolvable (epochs : option pyval) (spec : gmap string pyval) : Prop :=
  is_Some epochs \/ is_Some (spec !! "epochs").

End Epochs.

(** ** GenerativeModel.sample_training *)

Module Sampling.

Section SampleTraining.
(** One training example (a row of a minibatch). *)
Context {A : Type}.

(** A dataset is a finite, restartable sequence of minibatches together
    with the batch dimension its element specification declares
    ([dataset.element_spec.shape[0]], [None] when it is not static). *)
Record dataset : Type := Dataset {
  element_batch_size : option Z;
  batches : list (list A)
}.

(** [dataset.as_numpy_iterator()]: a fresh iterator, positioned at the
    first minibatch; the dataset itself is left as it is. *)
Definition as_numpy_iterator (d : dataset) : list (list A) := batches d.

(** [gen.next()] *)
Definition next (gen : list (list A)) : result (list A) * list (list A) :=
  match gen with
  | [] => (Raise StopIteration, [])
  | b :: rest => (Ok b, rest)
  end.

(** [[gen.next() for i in range(k)]] *)
Fixpoint pull (k : nat) (gen : list (list A)) : result (list (list A)) :=
  match k with
  | O => Ok []
  | S k' =>
      match next gen with
      | (Ok b, gen') => bs ← pull k' gen'; Ok (b :: bs)
      | (Raise e, _) => Raise e
      end
  end.

(** [np.vstack]: refuses an empty sequence of arrays. *)
Definition vstack (arrays : list (list A)) : result (list A) :=
  match arrays with
  | [] => Raise ValueError
  | _ => Ok (concat arrays)
  end.

(** [a[0:n]] with Python's reading of a negative bound. *)
Definition slice_to (n : Z) (a : list A) : list A :=
  if 0 <=? n then take (Z.to_nat n) a
  else take (Z.to_nat (Z.of_nat (length a) + n)) a.

(** [[
      gen = self.dataset.as_numpy_iterator()
      batch_size = self.dataset.element_spec.shape[0]
      n_batches = int(n/batch_size)+1
      return np.vstack([gen.next() for i in range(n_batches)])[0:n]
    ]] *)
Definition sample_training (d : dataset) (n : Z) : result (list A) :=
  let gen := as_numpy_iterator d in
  match element_batch_size d with
  | None => Raise TypeError
  | Some batch_size =>
      q ← int_div n batch_size;
      let n_batches := q + 1 in
      pulled ← pull (Z.to_nat n_batches) gen;
      stacked ← vstack pulled;
      Ok (slice_to n stacked)
  end.
End SampleTraining.

Arguments dataset A : clear implicits.

End Sampling.

(** ** GenerativeModel.save *)

Module Persistence.

(** What [save] does to the file system, in order. *)
Inductive fs_op : Type :=
  | Remove (path : string)
  | Write (path : string) (content : pyval).

(** Files by path, and the log of operations performed so far. *)
Record world : Type := World {
  files : gmap string pyval;
  trace : list fs_op
}.

(** [os.path.exists] *)
Definition exists_ (w : world) (path : string) : bool :=
  bool_decide (is_Some (files w !! path)).

(** [os.remove] *)
Definition remove (path : string) (w : world) : world :=
  World (delete path (files w)) (trace w ++ [Remove path]).

Section Save.
(** Keras asks the user before it overwrites an existing file when
    [overwrite] is false; the answer is the user's. *)
Variable ask_to_proceed_with_overwrite : string -> bool.

(** [net.save(path, overwrite=overwrite)] *)
Definition keras_save (net : pyval) (path : string) (overwrite : bool)
    (w : world) : world :=
  if exists_ w path && negb overwrite
     && negb (ask_to_proceed_with_overwrite path)
  then w
  else World (<[path := net]> (files w)) (trace w ++ [Write path net]).

Definition inference_path (prefix : string) : string :=
  prefix +:+ "_inference_net.h5".
Definition generative_path (prefix : string) : string :=
  prefix +:+ "_generative_net.h5".

(** One of the two [if has_...:] blocks of [save]. *)
Definition save_net (net : option pyval) (path : string) (overwrite : bool)
    (w : world) : world :=
  match net with
  | Some v =>
      let w1 := if exists_ w path then remove path w else w in
      keras_save v path overwrite w1
  | None => w
  end.

(** [[
      has_generator = hasattr(self, 'generative_net')
      has_inference = hasattr(self, 'inference_net')
      if has_inference: ...
      if has_generator: ...
      if not (has_generator or has_inference):
          raise ValueError('No model object found for saving.')
    ]] *)
Definition save (self : gmap string pyval) (prefix : string)
    (overwrite : bool) (w : world) : world * result unit :=
  let has_generator := hasattr self "generative_net" in
  let has_inference := hasattr self "inference_net" in
  let w1 := if has_inference
            then save_net (self !! "inference_net") (inference_path prefix)
                          overwrite w
            else w in
  let w2 := if has_generator
            then save_net (self !! "generative_net") (generative_path prefix)
                          overwrite w1
            else w1 in
  if negb (has_generator || has_inference)
  then (w2, Raise ValueError)
  else (w2, Ok tt).
End Save.


End Persistence.

(** ** The loop of GAN.train *)

Module GANTrain.

(** The part of the trainer the loop's control flow depends on: the
    iteration counters of the two optimizers (each [apply_gradients] adds
    one), whether the local [G_loss_dict] has been assigned, the number
    of records in the loss history, and the number of entries of the
    attribute [sample_history], [None] while the attribute does not
    exist. *)
Record state : Type := State {
  D_iterations : Z;
  G_iterations : Z;
  G_loss_dict_bound : bool;
  loss_records : nat;
  sample_history : option nat
}.

Definition train_discriminator (st : state) : state :=
  State (D_iterations st + 1) (G_iterations st)
        (G_loss_dict_bound st) (loss_records st) (sample_history st).

Definition train_generator (st : state) : state :=
  State (D_iterations st) (G_iterations st + 1) true (loss_records st)
        (sample_history st).

Definition record_losses (st : state) : state :=
  State (D_iterations st) (G_iterations st)
        (G_loss_dict_bound st) (S (loss_records st)) (sample_history st).

(** [%] on a NumPy integer: the sign follows the divisor, and a zero
    divisor gives 0 (with a warning) instead of raising. *)
Definition np_mod (a b : Z) : Z := if b =? 0 then 0 else a mod b.

(** [%] on Python integers. *)
Definition py_mod (a b : Z) : result Z :=
  if b =? 0 then Raise ZeroDivisionError else Ok (a mod b).

(** Lines 281-284: the discriminator update and the generator update
    that may follow it, for a value [gen_train_steps] of the entry of
    the specification. *)
Definition update (gen_train_steps : Z) (st : state) : state :=
  let st1 := train_discriminator st in
  if np_mod (D_iterations st1) gen_train_steps =? 0
  then train_generator st1
  else st1.

Section Loop.
Context {X : Type}.
(** [self.spec['gen_train_steps']], looked up each time the loop body
    runs, and only then. *)
Variable gen_train_steps : result Z.
Variable loss_update : Z.
Variable plot_after_epoch : bool.
(** [self.plot_sample()]: it draws from the generator and from the
    dataset and builds a figure; it may raise. *)
Variable plot_sample : state -> result unit.
(** [self.sample(n=36, apply_sigmoid=False)]; it may raise. *)
Variable sample : state -> result unit.

(** The body of [for j, x_real in t].  The progress record reads the
    local [G_loss_dict], which is unbound until the generator has been
    trained once in this call. *)
Definition minibatch (j : Z) (x_real : X) (st : state) : result state :=
  g ← gen_train_steps;
  let st1 := update g st in
  r ← py_mod j loss_update;
  if (r =? 0) && (g <? j)
  then if G_loss_dict_bound st1 then Ok (record_losses st1)
       else Raise UnboundLocalError
  else Ok st1.

(** [for j, x_real in enumerate(self.dataset)], from index [j]. *)
Fixpoint epoch_from (j : Z) (data : list X) (st : state) : result state :=
  match data with
  | [] => Ok st
  | x_real :: rest =>
      st1 ← minibatch j x_real st; epoch_from (j + 1) rest st1
  end.

Definition epoch (data : list X) (st : state) : result state :=
  epoch_from 0 data st.

(** [add_to_sample_history()]: the attribute is created if it is not
    there, then one sample is drawn and appended. *)
Definition add_to_sample_history (st : state) : result state :=
  let st1 := State (D_iterations st) (G_iterations st)
                   (G_loss_dict_bound st) (loss_records st)
                   (Some (default 0%nat (sample_history st))) in
  _ ← sample st1;
  Ok (State (D_iterations st) (G_iterations st)
            (G_loss_dict_bound st) (loss_records st)
            (Some (S (default 0%nat (sample_history st))))).

(** Lines 293-295, at the end of each epoch. *)
Definition end_of_epoch (st : state) : result state :=
  _ ← (if plot_after_epoch then plot_sample st else Ok tt);
  add_to_sample_history st.

(** [for e in range(epochs)]. *)
Fixpoint epochs_loop (epochs : nat) (data : list X) (st : state)
  : result state :=
  match epochs with
  | O => Ok st
  | S e =>
      st1 ← epoch data st;
      st2 ← end_of_epoch st1;
      epochs_loop e data st2
  end.

Definition train_loop (epochs : Z) (data : list X) (st : state)
  : result state :=
  epochs_loop (Z.to_nat epochs) data st.
End Loop.

(** How often the generator was trained between two states. *)
Definition generator_steps (st0 st1 : state) : Z :=
  G_iterations st1 - G_iterations st0.

(** [N] discriminator updates in a row, each followed by the generator
    update it may trigger. *)
Definition updates (gen_train_steps : Z) (N : nat) (st : state) : state :=
  Nat.iter N (update gen_train_steps) st.

(** Two states that agree on the optimizers and on [G_loss_dict]. *)
Definition same_optimizers (s t : state) : Prop :=
  D_iterations s = D_iterations t /\ G_iterations s = G_iterations t /\
  G_loss_dict_bound s = G_loss_dict_bound t.

(** Once the counter has reached [g], [G_loss_dict] is bound. *)
Definition bound_after (g : Z) (s : state) : Prop :=
  g <= D_iterations s -> G_loss_dict_bound s = true.

(** Plotting, where it is asked for, and sampling return on every
    state. *)
Definition end_of_epoch_returns (plot_after_epoch : bool)
    (plot_sample sample : state -> result unit) : Prop :=
  (plot_after_epoch = true -> forall s, plot_sample s = Ok tt) /\
  (forall s, sample s = Ok tt).

(** [GAN.train(loss_update, epochs, plot_after_epoch)]: the loss history
    is emptied, [epochs] is resolved, then the loop runs. *)
Definition train {X} (spec : gmap string pyval) (loss_update : Z)
    (epochs : option pyval) (plot_after_epoch : bool)
    (plot_sample sample : state -> result unit)
    (data : list X) (st : state) : result state :=
  let st0 := State (D_iterations st) (G_iterations st) false 0
                   (sample_history st) in
  e ← Epochs.resolve_epochs epochs spec;
  n ← as_int e;
  train_loop (v ← getitem (VDict spec) "gen_train_steps"; as_int v)
             loss_update plot_after_epoch plot_sample sample n data st0.

End GANTrain.

(** ** VAE.set_beta_schedule *)

Module Beta.

(** [np.linspace(start, stop, num)]: [num] evenly spaced samples, the last
    one set to [stop]; a negative [num] is refused. *)
Definition linspace (start stop : Q) (num : Z) : result (list Q) :=
  if num <? 0 then Raise ValueError
  else
    let n := Z.to_nat num in
    let step := ((stop - start) / inject_Z (num - 1))%Q in
    let y := map (fun i => (start + inject_Z (Z.of_nat i) * step)%Q)
                 (seq 0 n) in
    Ok (if 1 <? num then take (n - 1)%nat y ++ [stop] else y).

(** [np.ones(n)] *)
Definition ones (n : Z) : result (list Q) :=
  if n <? 0 then Raise ValueError else Ok (replicate (Z.to_nat n) 1%Q).

(** [np.tile(a, reps)] *)
Definition tile (a : list Q) (reps : Z) : list Q :=
  concat (replicate (Z.to_nat reps) a).

(** [a * c] on an array *)
Definition scale (a : list Q) (c : Q) : list Q := map (fun x => (x * c)%Q) a.

Definition is_str (s : string) (v : pyval) : bool :=
  match v with
  | VStr t => String.eqb s t
  | _ => false
  end.

(** ['cyclic' in schedule] *)
Definition has_cyclic (schedule : pyval) : result bool :=
  match schedule with
  | VStr s => Ok (contains "cyclic" s)
  | VList l => Ok (existsb (is_str "cyclic") l)
  | VDict d => Ok (has_key d "cyclic")
  | _ => Raise TypeError
  end.

Definition cycle_length_of (spec : gmap string pyval)
    (default_cycle_length : Z) : result pyval :=
  if has_key spec "beta_cycle_length"
  then getitem (VDict spec) "beta_cycle_length"
  else Ok (VInt default_cycle_length).

(** [set_beta_schedule(beta_max, default_cycle_length)]: the value given
    to the attribute [beta_schedule], [None] when the attribute is left
    unset. *)
Definition set_beta_schedule (spec : gmap string pyval) (beta_max : Q)
    (default_cycle_length : Z) : result (option (list Q)) :=
  n_epochs ← getitem (VDict spec) "epochs";
  cycle_length ← cycle_length_of spec default_cycle_length;
  if has_key spec "beta_schedule" then
    schedule ← getitem (VDict spec) "beta_schedule";
    if is_str "linear" schedule then
      n ← as_int n_epochs;
      l ← linspace 0 beta_max n;
      Ok (Some l)
    else
      cyc ← has_cyclic schedule;
      if (cyc : bool) then
        n ← as_int n_epochs;
        c ← as_int cycle_length;
        q ← int_div n c;
        let ncycles := Z.max q 1 in
        base ← linspace 0 1 c;
        Ok (Some (scale (tile base ncycles) beta_max))
      else if is_str "constant" schedule then
        n ← as_int n_epochs;
        l ← ones n;
        Ok (Some (scale l beta_max))
      else Ok None
  else Ok None.

(** [self.beta] as [VAE.__init__] sets it: the entry [vae_beta], else 1. *)
Definition vae_beta (spec : gmap string pyval) : result Q :=
  if has_key spec "vae_beta"
  then v ← getitem (VDict spec) "vae_beta"; as_num v
  else Ok 1%Q.

(** The call [self.set_beta_schedule(beta_max=self.beta)] of the
    constructor. *)
Definition VAE_beta_schedule (spec : gmap string pyval)
  : result (option (list Q)) :=
  b ← vae_beta spec; set_beta_schedule spec b 5.

(** [self.beta_schedule[current_epoch]] in [VAE.train], for an epoch
    number of [range(epochs)]. *)
Definition schedule_at (schedule : list Q) (current_epoch : nat) : result Q :=
  match schedule !! current_epoch with
  | Some b => Ok b
  | None => Raise IndexError
  end.

(** A value between 0 and [beta_max]. *)
Definition in_range (beta_max x : Q) : Prop := (0 <= x /\ x <= beta_max)%Q.

End Beta.

(** ** The loss library: square_loss *)

Module Loss.

(** A batch of images: batch, height, width, channel. *)
Definition tensor4 : Type := list (list (list (list Q))).

Definition map4 (f : Q -> Q) (a : tensor4) : tensor4 :=
  map (map (map (map f))) a.

(** Element-wise operation on two tensors of one shape. *)
Definition map2_4 (f : Q -> Q -> Q) (a b : tensor4) : tensor4 :=
  zip_with (zip_with (zip_with (zip_with f))) a b.

Definition sum_list (l : list Q) : Q := foldr Qplus 0%Q l.

(** [tf.reduce_sum(t, axis=[1,2,3])]: one sum per example. *)
Definition reduce_sum_123 (t : tensor4) : list Q :=
  map (fun ex => sum_list (map (fun row => sum_list (map sum_list row)) ex)) t.

(** [(x_pred-x_true)**2 / (2*sd**2)] *)
Definition square_loss_elem (x_pred x_true : tensor4) (sd : Q) : tensor4 :=
  map2_4 (fun p t => ((p - t) ^ 2 / (2 * sd ^ 2))%Q) x_pred x_true.

(** [[
      error = square_loss_elem(x_pred,x_true,sd=1)
      return -tf.reduce_sum(error,axis=axis)
    ]] *)
Definition square_loss (x_pred x_true : tensor4) (sd : Q) : list Q :=
  let error := square_loss_elem x_pred x_true 1 in
  map Qopp (reduce_sum_123 error).

(** The loss as the specification words it: the squared error scaled by
    the standard deviation that is passed in. *)
Definition square_loss_scaled (x_pred x_true : tensor4) (sd : Q) : list Q :=
  map Qopp (reduce_sum_123
    (map2_4 (fun p t => ((p - t) ^ 2 / (2 * sd ^ 2))%Q) x_pred x_true)).

(** Point-wise equality of two vectors of rationals. *)
Definition vec_eq (a b : list Q) : Prop := Forall2 Qeq a b.

End Loss.

(** ** GenerativeModel.create_masked_logp *)

Module MaskedLogp.
Import Qcanon.

(** A [float32] value: a finite number, an infinity, or NaN.  Finite
    values are exact rationals; rounding and the sign of zero are not
    modelled, the special values and their arithmetic are. *)
Inductive fval : Type :=
  | Fin (q : Qc)
  | PInf
  | NInf
  | NaN.

Definition is_finite (x : fval) : bool :=
  match x with
  | Fin _ => true
  | _ => false
  end.

(** [tf.cast(n, 'float32')] of an integer. *)
Definition cast (n : Z) : fval := Fin (Q2Qc (inject_Z n)).

Definition fneg (x : fval) : fval :=
  match x with
  | Fin q => Fin (- q)
  | PInf => NInf
  | NInf => PInf
  | NaN => NaN
  end.

(** The infinity of a given sign; the product of an infinity and zero is
    NaN. *)
Definition inf_of_sign (c : comparison) : fval :=
  match c with
  | Gt => PInf
  | Lt => NInf
  | Eq => NaN
  end.

Definition fmul (x y : fval) : fval :=
  match x, y with
  | NaN, _ | _, NaN => NaN
  | Fin a, Fin b => Fin (a * b)
  | Fin a, PInf | PInf, Fin a => inf_of_sign (a ?= Q2Qc 0)
  | Fin a, NInf | NInf, Fin a => inf_of_sign (CompOpp (a ?= Q2Qc 0))
  | PInf, PInf | NInf, NInf => PInf
  | PInf, NInf | NInf, PInf => NInf
  end.

Definition fadd (x y : fval) : fval :=
  match x, y with
  | NaN, _ | _, NaN => NaN
  | Fin a, Fin b => Fin (a + b)
  | PInf, NInf | NInf, PInf => NaN
  | PInf, _ | _, PInf => PInf
  | NInf, _ | _, NInf => NInf
  end.

(** An array of rank 4 (batch, height, width, channel): the length of
    each axis, and the entry at each index within them. *)
Record tensor (A : Type) : Type := Tensor {
  dim0 : nat;
  dim1 : nat;
  dim2 : nat;
  dim3 : nat;
  entry : nat -> nat -> nat -> nat -> A
}.
Arguments Tensor {A} dim0 dim1 dim2 dim3 entry.
Arguments dim0 {A} t.
Arguments dim1 {A} t.
Arguments dim2 {A} t.
Arguments dim3 {A} t.
Arguments entry {A} t i j k l.

(** Broadcasting of one axis: equal lengths stay, a length of 1 is
    stretched to the other length, anything else is refused. *)
Definition broadcast_dim (a b : nat) : option nat :=
  if (a =? b)%nat then Some a
  else if (a =? 1)%nat then Some b
  else if (b =? 1)%nat then Some a
  else None.

(** The index read on an axis of length [d] for the index [i] of the
    result. *)
Definition bidx (d i : nat) : nat := if (d =? 1)%nat then 0%nat else i.

(** An entry-wise operation on two arrays of rank 4, with broadcasting. *)
Definition broadcast2 {A B C} (f : A -> B -> C) (a : tensor A) (b : tensor B)
  : result (tensor C) :=
  match broadcast_dim (dim0 a) (dim0 b), broadcast_dim (dim1 a) (dim1 b),
        broadcast_dim (dim2 a) (dim2 b), broadcast_dim (dim3 a) (dim3 b) with
  | Some d0, Some d1, Some d2, Some d3 =>
      Ok (Tensor d0 d1 d2 d3 (fun i j k l =>
            f (entry a (bidx (dim0 a) i) (bidx (dim1 a) j)
                       (bidx (dim2 a) k) (bidx (dim3 a) l))
              (entry b (bidx (dim0 b) i) (bidx (dim1 b) j)
                       (bidx (dim2 b) k) (bidx (dim3 b) l))))
  | _, _, _, _ => Raise InvalidArgumentError
  end.

(** An entry-wise operation with a scalar. *)
Definition map_tensor {A B} (f : A -> B) (a : tensor A) : tensor B :=
  Tensor (dim0 a) (dim1 a) (dim2 a) (dim3 a)
         (fun i j k l => f (entry a i j k l)).

Definition fsum (l : list fval) : fval := foldr fadd (Fin (Q2Qc 0)) l.

(** The sum of [f 0], ..., [f (n - 1)]. *)
Definition sum_axis (n : nat) (f : nat -> fval) : fval :=
  fsum (map f (seq 0 n)).

(** [tf.reduce_sum(t, axis=[1,2,3])]: one sum per example. *)
Definition reduce_sum_123 (t : tensor fval) : list fval :=
  map (fun i =>
         sum_axis (dim1 t) (fun j =>
           sum_axis (dim2 t) (fun k =>
             sum_axis (dim3 t) (fun l => entry t i j k l))))
      (seq 0 (dim0 t)).

(** [a + b] on two vectors, with broadcasting. *)
Definition add_vectors (a b : list fval) : result (list fval) :=
  if (length a =? length b)%nat then Ok (zip_with fadd a b)
  else match a, b with
       | [x], _ => Ok (map (fadd x) b)
       | _, [y] => Ok (map (fun x => fadd x y) a)
       | _, _ => Raise InvalidArgumentError
       end.

(** The batch handed to [create_masked_logp]: a plain array, or a NumPy
    masked array.  The mask of a masked array is [nomask] (the scalar
    [False], here [None]) or an array of the shape of the data that is
    true where an entry is masked out. *)
Inductive batch : Type :=
  | Plain (data : tensor fval)
  | MaskedArray (data : tensor fval)
                (mask : option (nat -> nat -> nat -> nat -> bool)).

(** [is_used]: the scalar [1.], or [1 - is_masked] as a scalar or an
    array. *)
Inductive keep : Type :=
  | KeepScalar (c : fval)
  | KeepTensor (t : tensor fval).

Definition is_used (b : batch) : keep :=
  match b with
  | MaskedArray data (Some mask) =>
      KeepTensor (Tensor (dim0 data) (dim1 data) (dim2 data) (dim3 data)
                    (fun i j k l => cast (1 - Z.b2z (mask i j k l))))
  | MaskedArray data None => KeepScalar (cast (1 - Z.b2z false))
  | Plain _ => KeepScalar (Fin 1)
  end.

Definition raw_data (b : batch) : tensor fval :=
  match b with
  | MaskedArray data _ => data
  | Plain data => data
  end.

(** [loss_elemwise * is_used] *)
Definition times_keep (t : tensor fval) (k : keep) : result (tensor fval) :=
  match k with
  | KeepScalar c => Ok (map_tensor (fun x => fmul x c) t)
  | KeepTensor m => broadcast2 fmul t m
  end.

Section Closure.
(** The latent batch. *)
Context {L : Type}.
(** [self.generative_net], and [self.log_prior_fn], which returns one
    value for each latent. *)
Variable generative_net : L -> tensor fval.
Variable log_prior_fn : L -> list fval.

(** The closure [logp] that [create_masked_logp] returns. *)
Definition create_masked_logp (b : batch)
    (loss_elemwise_fn : tensor fval -> tensor fval -> result (tensor fval))
    (final_activation_fn : option (tensor fval -> tensor fval))
    (temperature : fval) : L -> result (list fval) :=
  let is_used := is_used b in
  let raw_data := raw_data b in
  fun z =>
    let x := generative_net z in
    let x := match final_activation_fn with
             | Some f => f x
             | None => x
             end in
    loss_elemwise ← loss_elemwise_fn raw_data x;
    kept ← times_keep loss_elemwise is_used;
    let loglike := map fneg (reduce_sum_123 kept) in
    add_vectors (map (fmul temperature) loglike) (log_prior_fn z).
End Closure.

(** A loss that is computed entry by entry, as [square_loss_elem] is. *)
Definition elementwise (f : fval -> fval -> fval)
  : tensor fval -> tensor fval -> result (tensor fval) :=
  broadcast2 f.

(** The indices of an array. *)
Definition in_range {A} (t : tensor A) (i j k l : nat) : Prop :=
  (i < dim0 t)%nat /\ (j < dim1 t)%nat /\ (k < dim2 t)%nat /\ (l < dim3 t)%nat.

(** A mask over [data] with every entry equal to [v]. *)
Definition mask_all (v : bool) (data : tensor fval)
    (mask : nat -> nat -> nat -> nat -> bool) : Prop :=
  forall i j k l, in_range data i j k l -> mask i j k l = v.

(** Every axis of [a] has the length of the same axis of [t], or length
    1: broadcasting [a] against [t] gives the shape of [t]. *)
Definition fits {A B} (a : tensor A) (t : tensor B) : Prop :=
  (dim0 a = dim0 t \/ dim0 a = 1%nat) /\ (dim1 a = dim1 t \/ dim1 a = 1%nat) /\
  (dim2 a = dim2 t \/ dim2 a = 1%nat) /\ (dim3 a = dim3 t \/ dim3 a = 1%nat).

(** An array of one entry. *)
Definition single (x : fval) : tensor fval := Tensor 1 1 1 1 (fun _ _ _ _ => x).

End MaskedLogp.

(** ** The loss library: log_cb_constant *)

Module ContinuousBernoulli.
Local Open Scope R_scope.

(** [tf.clip_by_value(x, lo, hi)] *)
Definition clip_by_value (x lo hi : R) : R := Rmin (Rmax x lo) hi.

(** [tf.math.greater_equal(tf.math.abs(x - 0.5), eps)] *)
Definition far_mask (eps x : R) : bool :=
  if Rge_dec (Rabs (x - / 2)) eps then true else false.

Definition far_value (x : R) : R :=
  ln ((ln (1 - x) - ln x) / (1 - 2 * x)).

Definition close_value (x : R) : R :=
  ln 2 + ln (1 + (1 - 2 * x) ^ 2 / 3).

Definition sum_R (l : list R) : R := fold_right Rplus 0 l.

(** [log_cb_constant(x, eps)] on the entries of [x]. *)
Definition log_cb_constant (x : list R) (eps : R) : R :=
  let x := map (fun v => clip_by_value v eps (1 - eps)) x in
  let far := List.filter (far_mask eps) x in
  let close := List.filter (fun v => negb (far_mask eps v)) x in
  let far_values := map far_value far in
  let close_values := map close_value close in
  sum_R far_values + sum_R close_values.

(** The far formula stays finite at [x]: both inner logarithms have a
    positive argument, the divisor is not zero and the outer logarithm has
    a positive argument. *)
Definition far_finite (x : R) : Prop :=
  0 < 1 - x /\ 0 < x /\ 1 - 2 * x <> 0 /\
  0 < (ln (1 - x) - ln x) / (1 - 2 * x).

End ContinuousBernoulli.

From Stdlib Require Qpower.

(** ** Outcomes with the exceptions that [exn] does not list *)

Inductive failure : Type :=
  | Base (e : exn)
  | OSError (path : string)
  | NameError (name : string)
  | AttributeError (attribute : string).

Inductive outcome (A : Type) : Type :=
  | Done (a : A)
  | Failed (f : failure).
Arguments Done {A} a.
Arguments Failed {A} f.

(** [needle in v] for the values a specification holds. *)
Definition py_in (needle : string) (v : pyval) : result bool :=
  match v with
  | VStr s => Ok (contains needle s)
  | VList l => Ok (existsb (Beta.is_str needle) l)
  | VDict d => Ok (has_key d needle)
  | _ => Raise TypeError
  end.

(** The truth value of a Python value. *)
Definition truthy (v : pyval) : bool :=
  match v with
  | VNone => false
  | VBool b => b
  | VInt z => negb (z =? 0)
  | VNum q => negb (Qeq_bool q 0)
  | VStr s => negb (String.eqb s "")
  | VList l => negb (bool_decide (l = []))
  | VDict d => negb (bool_decide (d = ∅))
  | VObj _ => true
  end.

(** ** GenerativeModel.test_batch *)

Module Batches.

Section TestBatch.
Context {A : Type}.

(** [[
      if hasattr(self,'dataset'):
          iterator = self.dataset.as_numpy_iterator()
          return next(iterator)
      else:
          raise ValueError('Dataset has not been set for this model yet.')
    ]]
    The argument is the attribute [dataset], when the model has it. *)
Definition test_batch (dataset : option (Sampling.dataset A)) : result (list A) :=
  match dataset with
  | Some d => fst (Sampling.next (Sampling.as_numpy_iterator d))
  | None => Raise ValueError
  end.
End TestBatch.

End Batches.

(** ** GenerativeModel.load_pretrained *)

Module Pretrained.
Import Persistence.

(** [tf.keras.models.load_model(path)]: the network stored in the file,
    an [OSError] when there is no such file. *)
Definition load_model (w : world) (path : string) : outcome pyval :=
  match files w !! path with
  | Some net => Done net
  | None => Failed (OSError path)
  end.

(** [[
      if gen_path is not None:
          self.generative_net = tf.keras.models.load_model(gen_path)
      if inf_path is not None:
          self.inference_net = tf.keras.models.load_model(inf_path)
    ]] *)
Definition load_pretrained (self : gmap string pyval)
    (gen_path inf_path : option string) (w : world)
  : gmap string pyval * outcome unit :=
  let after_gen :=
    match gen_path with
    | Some p =>
        match load_model w p with
        | Done net => (<["generative_net" := net]> self, Done tt)
        | Failed f => (self, Failed f)
        end
    | None => (self, Done tt)
    end in
  match after_gen with
  | (self1, Done _) =>
      match inf_path with
      | Some p =>
          match load_model w p with
          | Done net => (<["inference_net" := net]> self1, Done tt)
          | Failed f => (self1, Failed f)
          end
      | None => (self1, Done tt)
      end
  | (self1, Failed f) => (self1, Failed f)
  end.

End Pretrained.

(** ** GAN.train: the loss records and later calls *)

Module GANLog.
Import GANTrain.

(** The test that guards a loss record at minibatch [j]:
    [j % loss_update == 0 and j > self.spec['gen_train_steps']]. *)
Definition logs_at (g loss_update j : Z) : bool :=
  (j mod loss_update =? 0) && (g <? j).

(** Number of minibatch indices among [j, j+1, ..., j+n-1] that pass the
    test. *)
Fixpoint records_from (g loss_update j : Z) (n : nat) : nat :=
  match n with
  | O => O
  | S n' => ((if logs_at g loss_update j then 1 else 0)
             + records_from g loss_update (j + 1) n')%nat
  end.

(** In a call that started with the discriminator counter at [d0]: once
    the counter has passed a multiple of [g], [G_loss_dict] is bound. *)
Definition bound_since (g d0 : Z) (s : state) : Prop :=
  d0 / g < D_iterations s / g -> G_loss_dict_bound s = true.

End GANLog.

(** ** VAE.train and VAE.train_single_epoch *)

Module VAETrain.

(** [np.zeros(n)] *)
Definition zeros (n : Z) : result (list Q) :=
  if n <? 0 then Raise ValueError else Ok (replicate (Z.to_nat n) 0%Q).

(** [a[i] = v] for an index [i >= 0] *)
Definition setitem (a : list Q) (i : nat) (v : Q) : result (list Q) :=
  if (i <? length a)%nat then Ok (<[i := v]> a) else Raise IndexError.

(** [a[-1]] *)
Definition last_item (a : list Q) : result Q :=
  match last a with
  | Some v => Ok v
  | None => Raise IndexError
  end.

Definition SAVED_MODELS_DIR : string := "../data/saved_models/".

Section Train.
(** [M]: the trainable parameters of both networks with the state of the
    optimizer; [X]: a minibatch; [S]: a batch of samples. *)
Context {M X S : Type}.

(** One gradient step under a weight [beta]: the updated model and the
    loss. *)
Variable compute_apply_gradients : M -> X -> Q -> M * Q.
(** [self.sample(n=36, apply_sigmoid=...)] *)
Variable sample : M -> bool -> S.
(** [self.plot_sample(apply_sigmoid=...)], which may raise. *)
Variable plot_sample : M -> bool -> result unit.

(** The attributes that [train] reads and writes. *)
Record state : Type := State {
  net : M;
  beta_current : option Q;
  loss_history : list Q;
  sample_history : option (list S);
  checkpoints : list (string * M)
}.

(** The attributes that [train] only reads. *)
Variable spec : gmap string pyval.
Variable dataset : list X.
Variable beta : Q.
Variable beta_schedule : option (list Q).
Variable n_batches : Z.

(** [for i, minibatch in enumerate(self.dataset)], from index [i]:
    a gradient step, then [loss_history[i] = loss]. *)
Fixpoint epoch_steps (i : nat) (data : list X) (b : Q) (m : M) (a : list Q)
  : M * result (list Q) :=
  match data with
  | [] => (m, Ok a)
  | minibatch :: rest =>
      let (m1, loss) := compute_apply_gradients m minibatch b in
      match setitem a i loss with
      | Ok a1 => epoch_steps (Datatypes.S i) rest b m1 a1
      | Raise e => (m1, Raise e)
      end
  end.

(** [train_single_epoch], under the current weight [b]. *)
Definition train_single_epoch (b : Q) (m : M) : M * result (list Q) :=
  match zeros n_batches with
  | Ok a => epoch_steps 0 dataset b m a
  | Raise e => (m, Raise e)
  end.

(** [self.save(SAVED_MODELS_DIR+self.spec['name'])] on a model that has
    both networks: the networks are written under that prefix. *)
Definition checkpoint (st : state) : state * result unit :=
  match getitem (VDict spec) "name" with
  | Ok (VStr name) =>
      (State (net st) (beta_current st) (loss_history st) (sample_history st)
             (checkpoints st ++ [(SAVED_MODELS_DIR +:+ name, net st)]),
       Ok tt)
  | Ok _ => (st, Raise TypeError)
  | Raise e => (st, Raise e)
  end.

(** [add_to_sample_history(apply_sigmoid=...)] *)
Definition add_to_sample_history (apply_sigmoid : bool) (st : state) : state :=
  State (net st) (beta_current st) (loss_history st)
        (Some (default [] (sample_history st) ++ [sample (net st) apply_sigmoid]))
        (checkpoints st).

(** The body of [for current_epoch in t]. *)
Definition run_epoch (plot_after_epoch : bool) (save_interval : Z)
    (current_epoch : nat) (st : state) : state * result unit :=
  match (match beta_schedule with
         | Some l => Beta.schedule_at l current_epoch
         | None => Ok beta
         end) with
  | Raise e => (st, Raise e)
  | Ok b =>
    let st1 := State (net st) (Some b) (loss_history st) (sample_history st)
                     (checkpoints st) in
    match train_single_epoch b (net st1) with
    | (m, Raise e) =>
        (State m (Some b) (loss_history st) (sample_history st)
               (checkpoints st), Raise e)
    | (m, Ok epoch_loss) =>
      let st2 := State m (Some b) (loss_history st) (sample_history st)
                       (checkpoints st) in
      match last_item epoch_loss with
      | Raise e => (st2, Raise e)
      | Ok final_loss =>
        let st3 := State m (Some b) (loss_history st ++ epoch_loss)
                         (sample_history st) (checkpoints st) in
        match (v ← getitem (VDict spec) "likelihood"; py_in "bernoulli" v) with
        | Raise e => (st3, Raise e)
        | Ok apply_sigmoid =>
          match (if plot_after_epoch then plot_sample m apply_sigmoid
                 else Ok tt) with
          | Raise e => (st3, Raise e)
          | Ok _ =>
            match GANTrain.py_mod (Z.of_nat current_epoch) save_interval with
            | Raise e => (st3, Raise e)
            | Ok r =>
              match (if r =? 0 then checkpoint st3 else (st3, Ok tt)) with
              | (st4, Raise e) => (st4, Raise e)
              | (st4, Ok _) => (add_to_sample_history apply_sigmoid st4, Ok tt)
              end
            end
          end
        end
      end
    end
  end.

(** [for current_epoch in trange(epochs)], from [current_epoch] on. *)
Fixpoint run_epochs (plot_after_epoch : bool) (save_interval : Z)
    (current_epoch remaining : nat) (st : state) : state * result unit :=
  match remaining with
  | O => (st, Ok tt)
  | Datatypes.S r =>
      match run_epoch plot_after_epoch save_interval current_epoch st with
      | (st1, Ok _) =>
          run_epochs plot_after_epoch save_interval
                     (Datatypes.S current_epoch) r st1
      | (st1, Raise e) => (st1, Raise e)
      end
  end.

(** [VAE.train(epochs, plot_after_epoch, save_interval)] *)
Definition train (epochs : option pyval) (plot_after_epoch : bool)
    (save_interval : Z) (st : state) : state * result unit :=
  match (v ← Epochs.resolve_epochs epochs spec; as_int v) with
  | Ok e => run_epochs plot_after_epoch save_interval 0 (Z.to_nat e) st
  | Raise e => (st, Raise e)
  end.

(** Number of entries of the sample history, 0 before the first one. *)
Definition samples_kept (st : state) : nat :=
  length (default [] (sample_history st)).

End Train.

(** The epoch numbers below [epochs] at which a checkpoint is written. *)
Definition checkpoint_epochs (save_interval : Z) (epochs : nat) : list nat :=
  List.filter (fun k => Z.of_nat k mod save_interval =? 0) (seq 0 epochs).

End VAETrain.

(** ** Masked arrays: the data under the mask *)

Module MaskedData.
Import MaskedLogp.

(** The array [data] with every masked-out entry replaced by [c] (what
    [numpy.ma.filled(c)] returns for a masked array). *)
Definition filled (c : fval) (data : tensor fval)
    (mask : nat -> nat -> nat -> nat -> bool) : tensor fval :=
  Tensor (dim0 data) (dim1 data) (dim2 data) (dim3 data)
         (fun i j k l => if mask i j k l then c else entry data i j k l).

(** The entries of the loss that lie under the mask are finite. *)
Definition finite_under_mask (mask : nat -> nat -> nat -> nat -> bool)
    (data loss : tensor fval) : Prop :=
  forall i j k l, in_range loss i j k l ->
    mask (bidx (dim0 data) i) (bidx (dim1 data) j)
         (bidx (dim2 data) k) (bidx (dim3 data) l) = true ->
    is_finite (entry loss i j k l) = true.

(** Every entry of the array is finite. *)
Definition all_finite (t : tensor fval) : Prop :=
  forall i j k l, in_range t i j k l -> is_finite (entry t i j k l) = true.

End MaskedData.

(** ** The loss library: cb_loss *)

Module CBLoss.
Import ContinuousBernoulli.
Local Open Scope R_scope.

(** A batch of images over the reals: batch, height, width, channel. *)
Definition tensor4R : Type := list (list (list (list R))).

Definition map4R (f : R -> R) (t : tensor4R) : tensor4R :=
  map (map (map (map f))) t.

(** The entries of a tensor in row-major order, as boolean indexing
    returns them. *)
Definition flatten (t : tensor4R) : list R :=
  concat (map (fun ex => concat (map (@concat R) ex)) t).

(** [tf.reduce_sum(t, axis=[1,2,3])] *)
Definition reduce_sum_123R (t : tensor4R) : list R :=
  map (fun ex => sum_R (map (fun row => sum_R (map sum_R row)) ex)) t.

(** [tf.math.sigmoid] *)
Definition sigmoid (x : R) : R := / (1 + exp (- x)).

(** [tf.nn.sigmoid_cross_entropy_with_logits(labels=z, logits=x)], which
    TensorFlow computes as [max(x, 0) - x * z + log(1 + exp(-abs(x)))]. *)
Definition sigmoid_cross_entropy_with_logits (z x : R) : R :=
  Rmax x 0 - x * z + ln (1 + exp (- Rabs x)).

(** [wrapped_cross_ent(true, pred)] *)
Definition wrapped_cross_ent (true pred : tensor4R) : tensor4R :=
  zip_with (zip_with (zip_with (zip_with
    (fun x z => sigmoid_cross_entropy_with_logits z x)))) pred true.

(** The default [eps=1e-5] of [log_cb_constant]. *)
Definition default_eps : R := / 100000.

(** [[
      bce = wrapped_cross_ent(x_true, x_logit)
      x_sigmoid = tf.math.sigmoid(x_logit)
      logc = log_cb_constant(x_sigmoid)
      loss = -tf.reduce_sum(bce, axis=axis) - logc
    ]] *)
Definition cb_loss (x_logit x_true : tensor4R) : list R :=
  let bce := wrapped_cross_ent x_true x_logit in
  let x_sigmoid := map4R sigmoid x_logit in
  let logc := log_cb_constant (flatten x_sigmoid) default_eps in
  map (fun s => - s - logc) (reduce_sum_123R bce).

(** The contribution of one entry to [log_cb_constant]. *)
Definition entry_constant (eps x : R) : R :=
  let c := clip_by_value x eps (1 - eps) in
  if far_mask eps c then far_value c else close_value c.

End CBLoss.

(** ** GenerativeModel.decode, sample and inception_score *)

Module Scores.

Section Model.
(** [self.generative_net(z)] for the network found in the attribute, the
    prior [prior(shape=(n, latent_dim))] and [tf.sigmoid]; the network may
    reject its input. *)
Variable call_net : pyval -> pyval -> outcome pyval.
Variable prior : pyval -> pyval -> pyval.
Variable sigmoid : pyval -> pyval.

(** [self.a], an [AttributeError] when the attribute is missing. *)
Definition getattr (self : gmap string pyval) (a : string) : outcome pyval :=
  match self !! a with
  | Some v => Done v
  | None => Failed (AttributeError a)
  end.

(** [[
      raw = self.generative_net(z)
      if apply_sigmoid:
          probs = tf.sigmoid(raw)
          return probs
      return raw
    ]] *)
Definition decode (self : gmap string pyval) (z : pyval)
    (apply_sigmoid : bool) : outcome pyval :=
  match getattr self "generative_net" with
  | Failed f => Failed f
  | Done net =>
      match call_net net z with
      | Failed f => Failed f
      | Done raw => Done (if apply_sigmoid then sigmoid raw else raw)
      end
  end.

(** [sample(self, z=None, n=100, prior=tf.random.normal,
    apply_sigmoid=False)]: the argument [z] is [VNone] when omitted. *)
Definition sample (self : gmap string pyval) (z n : pyval)
    (apply_sigmoid : bool) : outcome pyval :=
  match (match z with
         | VNone =>
             match getattr self "latent_dim" with
             | Done d => Done (prior n d)
             | Failed f => Failed f
             end
         | _ => Done z
         end) with
  | Failed f => Failed f
  | Done z1 => decode self z1 apply_sigmoid
  end.

(** [[
      if not hasattr(self,'scores'):
          self.scores = {}
      xs = self.sample(n)
      iscore = qq.inception_score(classifier_path, xs)
      self.scores['inception_score'] = iscore
      return iscore
    ]]
    [self.sample(n)] binds [n] to the first parameter of [sample], which
    is [z]; the module [quality] is imported under the name [q], and no
    name [qq] exists. *)
Definition inception_score (self : gmap string pyval)
    (classifier_path : pyval) (n : pyval)
  : gmap string pyval * outcome pyval :=
  let self1 := if hasattr self "scores" then self
               else <["scores" := VDict ∅]> self in
  match sample self1 n (VInt 100) false with
  | Failed f => (self1, Failed f)
  | Done xs => (self1, Failed (NameError "qq"))
  end.
End Model.

End Scores.

(** ** VAE.__init__ *)

Module VAEInit.

(** A statement on an instance that may end in any failure. *)
Definition action : Type :=
  gmap string pyval -> gmap string pyval * outcome unit.

Definition lift_result {A} (r : result A) : outcome A :=
  match r with
  | Ok a => Done a
  | Raise e => Failed (Base e)
  end.

Definition lift (s : stmt) : action :=
  fun self =>
    match s self with
    | (self', r) => (self', lift_result r)
    end.

Definition then_ (a b : action) : action :=
  fun self =>
    match a self with
    | (self1, Done _) => b self1
    | (self1, Failed f) => (self1, Failed f)
    end.

(** Evaluate an expression, then go on with its value. *)
Definition with_value {A} (o : outcome A) (k : A -> action) : action :=
  fun self =>
    match o with
    | Done a => k a self
    | Failed f => (self, Failed f)
    end.

Definition set (a : string) (v : pyval) : action :=
  fun self => (<[a := v]> self, Done tt).

Definition fail (f : failure) : action := fun self => (self, Failed f).

(** [v * 2] *)
Definition times_two (v : pyval) : result pyval :=
  match v with
  | VInt n => Ok (VInt (n * 2))
  | VBool b => Ok (VInt ((if b then 1 else 0) * 2))
  | VNum q => Ok (VNum (q * 2))
  | VStr s => Ok (VStr (s +:+ s))
  | VList l => Ok (VList (l ++ l))
  | _ => Raise TypeError
  end.

Section Init.
(** The two network constructors of the base class, the optimizer
    [tf.keras.optimizers.Adam] applied to the settings and
    [tf.data.experimental.cardinality(dataset).numpy()]. *)
Variable create_generator : action.
Variable create_inference : pyval -> action.
Variable Adam : pyval -> outcome pyval.
Variable cardinality : pyval -> outcome pyval.

(** Lines 323-326: [self.beta]. *)
Definition set_beta (d : gmap string pyval) : action :=
  if has_key d "vae_beta"
  then with_value (lift_result (getitem (VDict d) "vae_beta")) (set "beta")
  else set "beta" (VNum 1).

(** Lines 328-347: the choice of the likelihood. *)
Definition set_loglike (d : gmap string pyval) : action :=
  with_value (lift_result (getitem (VDict d) "likelihood")) (fun loglike_type =>
    if Beta.is_str "bernoulli" loglike_type then
      set "loglike" (VObj "cross_ent_loss")
    else if Beta.is_str "continuous_bernoulli" loglike_type then
      set "loglike" (VObj "cb_loss")
    else if Beta.is_str "normal" loglike_type then
      with_value (lift_result (getitem (VDict d) "error_trainable"))
        (fun error_trainable =>
           then_ (set "error_sd" (if truthy error_trainable
                                  then VObj "tf.Variable(0.1)"
                                  else VNum (1 # 10)))
                 (set "loglike" (VObj "partial(square_loss, sd=self.error_sd)")))
    else fail (Base ValueError)).

(** [self.set_beta_schedule(beta_max=self.beta)].  A [beta] that is not a
    number only matters when a schedule is computed from it. *)
Definition set_schedule (d : gmap string pyval) : action :=
  fun self =>
    match self !! "beta" with
    | None => (self, Failed (AttributeError "beta"))
    | Some b =>
        let r := match as_num b with
                 | Ok q => Beta.set_beta_schedule d q 5
                 | Raise _ =>
                     match Beta.set_beta_schedule d 0 5 with
                     | Ok (Some _) => Raise TypeError
                     | other => other
                     end
                 end in
        match r with
        | Ok (Some l) => (<["beta_schedule" := VList (map VNum l)]> self, Done tt)
        | Ok None => (self, Done tt)
        | Raise e => (self, Failed (Base e))
        end
    end.

(** The body of [VAE.__init__] after [super().__init__(spec, dataset)]. *)
Definition VAE_init_body (d : gmap string pyval) (dataset : pyval) : action :=
  then_ create_generator
 (then_ (fun self =>
           match self !! "latent_dim" with
           | None => (self, Failed (AttributeError "latent_dim"))
           | Some ld => with_value (lift_result (times_two ld))
                          create_inference self
           end)
 (then_ (set "log_prior_fn" (VObj "log_prior_fn"))
 (with_value (lift_result (getitem (VDict d) "opt_kwargs")) (fun settings =>
  with_value (lift_result (getitem (VDict d) "optimizer")) (fun optimizer =>
  then_ (if Beta.is_str "adam" optimizer
         then with_value (Adam settings) (set "optimizer")
         else fail (Base NotImplementedError))
 (then_ (set_beta d)
 (then_ (set_loglike d)
 (then_ (set "loss_fn" (VObj "partial(vae_loss, loglike=self.loglike)"))
 (then_ (set_schedule d)
 (then_ (set "loss_history" (VList []))
        (with_value (cardinality dataset) (set "n_batches")))))))))))).

(** [VAE(spec, dataset)] on a fresh instance. *)
Definition VAE_new (args : list pyval) : gmap string pyval * outcome unit :=
  match args with
  | [spec; dataset] =>
      then_ (lift (Construction.GenerativeModel_init [spec; dataset]))
            (match spec with
             | VDict d => VAE_init_body d dataset
             | _ => fail (Base TypeError)
             end) ∅
  | _ => (∅, Failed (Base TypeError))
  end.
End Init.

End VAEInit.

(** ** GenerativeModel.create_generator *)

Module Networks.
Import VAEInit.

Definition SPECS_DIR : string := "../model_specs/network_specs/".

(** The keys of [builder_mapping]. *)
Definition builder_names : list string :=
  ["conv_decoder"; "conv_encoder"; "test_decoder"; "test_encoder";
   "resnet_decoder"; "resnet_encoder"].

Definition obind {A B} (o : outcome A) (k : A -> outcome B) : outcome B :=
  match o with
  | Done a => k a
  | Failed f => Failed f
  end.

Section Builders.
(** The functions of the module [builders], by name, applied to a size,
    the image dimensions and the keyword arguments; the files under
    [SPECS_DIR]; [utils.fix_batch_shape] and
    [tf.keras.models.model_from_json]. *)
Variable bld : string -> pyval -> pyval -> gmap string pyval -> outcome pyval.
Variable files : gmap string string.
Variable fix_batch_shape : string -> pyval -> outcome string.
Variable model_from_json : string -> outcome pyval.

Definition builder_mapping
  : gmap string (pyval -> pyval -> gmap string pyval -> outcome pyval) :=
  list_to_map (map (fun name => (name, bld name)) builder_names).

(** [open(path).read()] *)
Definition read_file (path : string) : outcome string :=
  match files !! path with
  | Some contents => Done contents
  | None => Failed (OSError path)
  end.

(** The network that [create_generator] builds. *)
Definition new_generator (self : gmap string pyval) : outcome pyval :=
  obind (Scores.getattr self "spec") (fun spec =>
  obind (lift_result (getitem spec "generative_net")) (fun name =>
  obind (lift_result (py_in "json" name)) (fun is_json =>
  if (is_json : bool) then
    match name with
    | VStr s =>
        obind (read_file (SPECS_DIR +:+ s)) (fun gen_spec =>
        obind (Scores.getattr self "latent_dim") (fun latent_dim =>
        obind (fix_batch_shape gen_spec (VList [VNone; latent_dim]))
              model_from_json))
    | _ => Failed (Base TypeError)
    end
  else
    match name with
    | VStr s =>
        match builder_mapping !! s with
        | None => Failed (Base (KeyError s))
        | Some network_builder =>
            obind (lift_result (getitem spec "generative_net_kwargs")) (fun kw =>
            obind (Scores.getattr self "latent_dim") (fun latent_dim =>
            obind (Scores.getattr self "image_dims") (fun image_dims =>
            match kw with
            | VDict k => network_builder latent_dim image_dims k
            | _ => Failed (Base TypeError)
            end)))
        end
    | _ => Failed (Base TypeError)
    end))).

(** [create_generator]: the attribute is assigned when the network was
    built. *)
Definition create_generator : action :=
  fun self =>
    match new_generator self with
    | Done net => (<["generative_net" := net]> self, Done tt)
    | Failed f => (self, Failed f)
    end.
End Builders.

End Networks.

(** * Properties *)

(** ** Results and lookups *)

Lemma has_key_true (d : gmap string pyval) k :
  has_key d k = true <-> is_Some (d !! k).
Proof. unfold has_key. apply bool_decide_eq_true. Qed.

Lemma has_key_false (d : gmap string pyval) k :
  has_key d k = false <-> d !! k = None.
Proof.
  unfold has_key. rewrite bool_decide_eq_false.
  rewrite eq_None_not_Some. reflexivity.
Qed.

Lemma has_key_lookup (d : gmap string pyval) k v :
  d !! k = Some v -> has_key d k = true.
Proof. intros H. apply has_key_true. eauto. Qed.

Lemma getitem_lookup (d : gmap string pyval) k v :
  d !! k = Some v -> getitem (VDict d) k = Ok v.
Proof. intros H. simpl. rewrite H. reflexivity. Qed.

Lemma hasattr_true (self : gmap string pyval) a :
  hasattr self a = true <-> is_Some (self !! a).
Proof. unfold hasattr. apply bool_decide_eq_true. Qed.

Lemma hasattr_false (self : gmap string pyval) a :
  hasattr self a = false <-> self !! a = None.
Proof.
  unfold hasattr. rewrite bool_decide_eq_false.
  rewrite eq_None_not_Some. reflexivity.
Qed.

(** ** Resolution of epochs *)

Section EpochsFacts.
Import Epochs.

(** The check lets a call through exactly when no explicit value is given
  and the specification has the key. *)
Lemma resolve_epochs_returns epochs spec :
returns (resolve_epochs epochs spec) <->
epochs = None /\ is_Some (spec !! "epochs").
Proof.
unfold resolve_epochs, returns. split.
- intros [v Hv]. destruct epochs as [x|]; simpl in Hv; [discriminate|].
  split; [reflexivity|].
  destruct (has_key spec "epochs") eqn:Hk; [|discriminate].
  apply has_key_true. exact Hk.
- intros [-> [v Hv]]. simpl.
  rewrite (has_key_lookup _ _ _ Hv), Hv. eauto.
Qed.

Lemma resolve_epochs_explicit v spec :
resolve_epochs (Some v) spec = Raise ValueError.
Proof. reflexivity. Qed.

(** C1, at the failing input: [train(epochs=5)] on a specification that has
  no entry [epochs] is resolvable, and both trainers
  raise at the check; the GAN loop is never entered. *)
Theorem train_explicit_epochs_raises :
resolvable (Some (VInt 5)) ∅ /\
resolve_epochs (Some (VInt 5)) ∅ = Raise ValueError /\
forall plot_after_epoch plot_sample sample sample_history,
  GANTrain.train (X:=unit) ∅ 100 (Some (VInt 5))
    plot_after_epoch plot_sample sample [tt]
    (GANTrain.State 0 0 false 0 sample_history) = Raise ValueError.
Proof.
split; [left; eauto|]. split; [reflexivity|]. intros. reflexivity.
Qed.

End EpochsFacts.

(** ** Construction *)

Section ConstructionFacts.
Import Construction.

Lemma GenerativeModel_init_one_argument spec self :
GenerativeModel_init [spec] self = (self, Raise TypeError).
Proof. reflexivity. Qed.

(** C2: whatever the arguments and whatever the rest of the constructor
  does, instantiating [GAN] ends in a [TypeError] and leaves the instance
  without any attribute. *)
Theorem GAN_new_raises_TypeError (rest : pyval -> stmt) (args : list pyval) :
GAN_new rest args = (∅, Raise TypeError).
Proof.
unfold GAN_new, GAN_init.
destruct args as [|spec [|dataset more]]; try reflexivity.
Qed.

(** The sibling class passes both arguments and reaches its body. *)
Lemma VAE_init_reaches_body rest spec dataset d ld im :
spec = VDict d -> d !! "latent_dim" = Some ld -> d !! "image_dims" = Some im ->
VAE_init rest [spec; dataset] ∅ =
rest spec (<["image_dims" := im]> (<["latent_dim" := ld]>
          (<["dataset" := dataset]> (<["spec" := spec]> ∅)))).
Proof.
intros -> Hl Hi. unfold VAE_init, GenerativeModel_init, andthen, setattr,
  setattr_from. simpl. rewrite Hl, Hi. reflexivity.
Qed.

End ConstructionFacts.

(** ** save *)

Section PersistenceFacts.
Import Persistence.
Variable ask : string -> bool.

Lemma paths_differ prefix : inference_path prefix <> generative_path prefix.
Proof.
unfold inference_path, generative_path. intros H.
apply (inj (String.app prefix)) in H. discriminate.
Qed.

Lemma exists_remove w path : exists_ (remove path w) path = false.
Proof.
unfold exists_, remove. simpl. apply bool_decide_eq_false.
rewrite lookup_delete_eq. intros [x Hx]. discriminate.
Qed.

(** A present network is always written: the file that could make Keras
  ask has been removed. *)
Lemma save_net_present v path overwrite w :
save_net ask (Some v) path overwrite w =
World (<[path := v]> (files w))
      (trace w ++ (if exists_ w path then [Remove path] else [])
               ++ [Write path v]).
Proof.
unfold save_net, keras_save.
destruct (exists_ w path) eqn:He.
- rewrite exists_remove. simpl.
  rewrite insert_delete_eq, <- app_assoc. reflexivity.
- rewrite He. simpl. reflexivity.
Qed.



End PersistenceFacts.

(** ** sample_training *)

Section SamplingFacts.
Import Sampling.
Context {A : Type}.

(** Pulling [k] minibatches from an iterator that still has [k] of them
  gives the first [k]. *)
Lemma pull_take (k : nat) (gen : list (list A)) :
(k <= length gen)%nat -> pull k gen = Ok (take k gen).
Proof.
revert gen. induction k as [|k IH]; intros gen Hk.
- reflexivity.
- destruct gen as [|b rest]; simpl in Hk; [lia|].
  simpl. rewrite IH by lia. reflexivity.
Qed.

(** An iterator that runs dry raises. *)
Lemma pull_short (k : nat) (gen : list (list A)) :
(length gen < k)%nat -> pull k gen = Raise StopIteration.
Proof.
revert gen. induction k as [|k IH]; intros gen Hk; [lia|].
destruct gen as [|b rest]; simpl in *; [reflexivity|].
rewrite IH by lia. reflexivity.
Qed.

Lemma length_concat_fixed (bs : nat) (l : list (list A)) :
Forall (fun b => length b = bs) l ->
length (concat l) = (length l * bs)%nat.
Proof.
induction 1 as [|b l Hb Hl IH]; simpl; [reflexivity|].
rewrite length_app, IH, Hb. reflexivity.
Qed.

(** C8 as amended: on a dataset of minibatches of a fixed size [bs],
  [sample_training n] returns when the dataset has at least [n / bs + 1]
  minibatches, and raises [StopIteration] when it has fewer.  When it
  returns, its result is the first [n] examples of the first
  [n / bs + 1] minibatches of a fresh pass over the dataset (one
  minibatch more than [n] examples need when [bs] divides [n]), these
  minibatches hold at least [n] examples, and the result has exactly
  [n] of them, whether or not [bs] divides [n]. *)
Theorem sample_training_exactly_n (d : dataset A) (n bs : Z) :
1 <= n -> 1 <= bs ->
element_batch_size d = Some bs ->
Forall (fun b => Z.of_nat (length b) = bs) (batches d) ->
(n / bs + 1 <= Z.of_nat (length (batches d)) ->
 let pulled := take (Z.to_nat (n / bs + 1)) (batches d) in
 n <= Z.of_nat (length (concat pulled)) /\
 exists xs,
   sample_training d n = Ok xs /\
   xs = take (Z.to_nat n) (concat pulled) /\
   Z.of_nat (length xs) = n) /\
(Z.of_nat (length (batches d)) < n / bs + 1 ->
 sample_training d n = Raise StopIteration).
Proof.
intros Hn Hbs Hsz Hall.
assert (Hq : Z.quot n bs = n / bs) by (apply Z.quot_div_nonneg; lia).
assert (Hq0 : 0 <= n / bs) by (apply Z.div_pos; lia).
split.
- intros Hlen pulled.
  assert (Hp : length pulled = Z.to_nat (n / bs + 1)).
  { unfold pulled. rewrite length_take. lia. }
  assert (Hcat : Z.of_nat (length (concat pulled)) = (n / bs + 1) * bs).
  { rewrite (length_concat_fixed (Z.to_nat bs)).
    - rewrite Hp. lia.
    - unfold pulled. apply Forall_take.
      eapply Forall_impl; [exact Hall|]. simpl. intros b Hb. lia. }
  assert (Hge : n <= (n / bs + 1) * bs).
  { pose proof (Z.mod_pos_bound n bs ltac:(lia)).
    pose proof (Z.div_mod n bs ltac:(lia)). nia. }
  split; [lia|].
  exists (take (Z.to_nat n) (concat pulled)).
  split; [|split; [reflexivity|]].
  + unfold sample_training, as_numpy_iterator, int_div. rewrite Hsz.
    replace (bs =? 0) with false by (symmetry; apply Z.eqb_neq; lia).
    simpl. rewrite Hq, pull_take by lia. fold pulled. simpl.
    unfold vstack. destruct pulled as [|b0 rest] eqn:Hpulled.
    * simpl in Hp. lia.
    * simpl. unfold slice_to.
      replace (0 <=? n) with true by (symmetry; apply Z.leb_le; lia).
      reflexivity.
  + rewrite length_take. lia.
- intros Hlen.
  unfold sample_training, as_numpy_iterator, int_div. rewrite Hsz.
  replace (bs =? 0) with false by (symmetry; apply Z.eqb_neq; lia).
  simpl. rewrite Hq, pull_short by lia. reflexivity.
Qed.

End SamplingFacts.

(** Minibatches of 2 examples, 3 examples asked. *)
Lemma sample_training_exactly_n_witness :
  exists xs,
    Sampling.sample_training (Sampling.Dataset (Some 2) [[1; 2]; [3; 4]; [5; 6]]%nat) 3 = Ok xs /\
    Z.of_nat (length xs) = 3.
Proof.
  destruct (sample_training_exactly_n
              (Sampling.Dataset (Some 2) [[1; 2]; [3; 4]; [5; 6]]%nat) 3 2)
    as [H _].
  - lia.
  - lia.
  - reflexivity.
  - repeat constructor.
  - destruct H as [_ [xs [H1 [_ H3]]]].
    + vm_compute. discriminate.
    + exists xs. split; assumption.
Defined.

(** C8 as stated fails: two minibatches of 2 examples hold the 4 examples
    that are asked for, so pulling until the count reaches 4 would succeed;
    the code asks for a third minibatch and raises. *)
Lemma sample_training_exact_fit_raises :
  Forall (fun b : list nat => length b = 2%nat) [[1; 2]; [3; 4]]%nat /\
  (4 <= length (concat [[1; 2]; [3; 4]]%nat))%nat /\
  Sampling.sample_training (Sampling.Dataset (Some 2) [[1; 2]; [3; 4]]%nat) 4
  = Raise StopIteration.
Proof.
  split; [repeat constructor|]. split; [simpl; lia | reflexivity].
Qed.

(** With minibatches of 2 and 4 examples asked, the two minibatches that
    hold them are not enough: a third one is pulled. *)
Example sample_training_pulls_one_more :
  Sampling.sample_training (Sampling.Dataset (Some 2) [[1; 2]; [3; 4]]%nat) 4
  = Raise StopIteration.
Proof. reflexivity. Qed.

(** ** The loop of GAN.train *)

Section GANTrainFacts.
Import GANTrain.

Lemma div_succ (d g : Z) :
1 <= g -> (d + 1) / g = d / g + (if (d + 1) mod g =? 0 then 1 else 0).
Proof.
intros Hg.
pose proof (Z.div_mod d g ltac:(lia)) as Hd.
pose proof (Z.mod_pos_bound d g ltac:(lia)) as Hr.
pose proof (Z.div_mod (d + 1) g ltac:(lia)) as Hd1.
pose proof (Z.mod_pos_bound (d + 1) g ltac:(lia)) as Hr1.
destruct ((d + 1) mod g =? 0) eqn:E.
- apply Z.eqb_eq in E. nia.
- apply Z.eqb_neq in E. nia.
Qed.

Lemma np_mod_pos a g : 1 <= g -> np_mod a g = a mod g.
Proof.
intros Hg. unfold np_mod.
replace (g =? 0) with false by (symmetry; apply Z.eqb_neq; lia).
reflexivity.
Qed.

Lemma update_cases g s :
1 <= g ->
update g s = if (D_iterations s + 1) mod g =? 0
             then train_generator (train_discriminator s)
             else train_discriminator s.
Proof. intros Hg. unfold update. rewrite np_mod_pos by exact Hg. reflexivity. Qed.

Lemma update_D g s : D_iterations (update g s) = D_iterations s + 1.
Proof. unfold update. destruct (_ =? 0); reflexivity. Qed.

Lemma update_G g s :
1 <= g ->
G_iterations (update g s) =
G_iterations s + (if (D_iterations s + 1) mod g =? 0 then 1 else 0).
Proof.
intros Hg. rewrite update_cases by exact Hg.
destruct (_ =? 0); simpl; lia.
Qed.

Lemma updates_D g N s :
D_iterations (updates g N s) = D_iterations s + Z.of_nat N.
Proof.
unfold updates. induction N as [|N IH].
- simpl. lia.
- rewrite Nat.iter_succ, update_D, IH. lia.
Qed.

(** From any value of the counter: the generator is trained once for each
  multiple of [g] the counter passes. *)
Lemma updates_G g N s :
1 <= g ->
G_iterations (updates g N s) =
G_iterations s + (D_iterations s + Z.of_nat N) / g - D_iterations s / g.
Proof.
intros Hg. induction N as [|N IH].
- unfold updates. simpl. rewrite Z.add_0_r. lia.
- unfold updates in *. rewrite Nat.iter_succ. fold (updates g N s).
  rewrite update_G by exact Hg.
  change (Nat.iter N (update g) s) with (updates g N s) in IH.
  rewrite IH, updates_D.
  replace (D_iterations s + Z.of_nat (S N))
    with (D_iterations s + Z.of_nat N + 1) by lia.
  rewrite (div_succ (D_iterations s + Z.of_nat N) g Hg). lia.
Qed.

Lemma update_same g s t :
same_optimizers s t -> same_optimizers (update g s) (update g t).
Proof.
intros (HD & HG & HB). unfold update, train_generator, train_discriminator,
  same_optimizers. simpl. rewrite HD.
destruct (_ =? 0); simpl; repeat split; congruence.
Qed.

Lemma updates_same g N s t :
same_optimizers s t -> same_optimizers (updates g N s) (updates g N t).
Proof.
intros H. unfold updates. induction N as [|N IH]; [exact H|].
rewrite !Nat.iter_succ. apply update_same. exact IH.
Qed.

Lemma update_bound_after g s :
1 <= g -> bound_after g s -> bound_after g (update g s).
Proof.
intros Hg Hs. unfold bound_after. rewrite update_D.
rewrite update_cases by exact Hg.
destruct ((D_iterations s + 1) mod g =? 0) eqn:E; simpl; [reflexivity|].
intros Hle. apply Hs. apply Z.eqb_neq in E.
assert (D_iterations s + 1 <> g)
  by (intros E'; rewrite E', Z.mod_same in E; lia).
lia.
Qed.

Section Loop.
Context {X : Type}.
Variables (g loss_update : Z).
Variable plot_after_epoch : bool.
Variables plot_sample sample : state -> result unit.
Hypothesis Hg : 1 <= g.
Hypothesis Hlu : loss_update <> 0.
Hypothesis Hend : end_of_epoch_returns plot_after_epoch plot_sample sample.

Lemma minibatch_returns j (x : X) s :
j <= D_iterations s -> bound_after g s ->
exists s', minibatch (Ok g) loss_update j x s = Ok s' /\
           same_optimizers s' (update g s) /\ bound_after g s'.
Proof.
intros Hj Hb. unfold minibatch, py_mod.
replace (loss_update =? 0) with false by (symmetry; apply Z.eqb_neq; lia).
simpl.
pose proof (update_bound_after g s Hg Hb) as Hb'.
destruct ((j mod loss_update =? 0) && (g <? j)) eqn:E.
- apply andb_true_iff in E. destruct E as [_ E]. apply Z.ltb_lt in E.
  rewrite Hb' by (rewrite update_D; lia).
  eexists. split; [reflexivity|]. split.
  + repeat split.
  + exact Hb'.
- eexists. split; [reflexivity|]. split; [repeat split | exact Hb'].
Qed.

Lemma bound_after_same s t :
same_optimizers s t -> bound_after g s -> bound_after g t.
Proof.
intros (HD & _ & HB) H. unfold bound_after in *. rewrite <- HD, <- HB. exact H.
Qed.

Lemma epoch_from_returns (data : list X) : forall j s,
j <= D_iterations s -> bound_after g s ->
exists s', epoch_from (Ok g) loss_update j data s = Ok s' /\
           same_optimizers s' (updates g (length data) s) /\
           bound_after g s'.
Proof.
induction data as [|x rest IH]; intros j s Hj Hb.
- exists s. repeat split. exact Hb.
- destruct (minibatch_returns j x s Hj Hb) as (s1 & E1 & S1 & B1).
  destruct (IH (j + 1) s1) as (s2 & E2 & S2 & B2).
  + destruct S1 as (HD & _). rewrite HD, update_D. lia.
  + exact B1.
  + exists s2. split; [|split; [|exact B2]].
    * cbn [epoch_from]. rewrite E1. cbn [mbind result_bind]. exact E2.
    * simpl length. unfold updates. rewrite Nat.iter_succ_r.
      destruct S2 as (a & b & c).
      destruct (updates_same g (length rest) _ _ S1) as (a' & b' & c').
      unfold updates in *. repeat split; congruence.
Qed.

(** The end of an epoch, when plotting and sampling return: one entry
    more in the sample history, and nothing else changes. *)
Lemma end_of_epoch_returns_state s :
exists s', end_of_epoch plot_after_epoch plot_sample sample s = Ok s' /\
           same_optimizers s' s /\ loss_records s' = loss_records s /\
           sample_history s' = Some (S (default 0%nat (sample_history s))).
Proof.
destruct Hend as [Hplot Hsample].
unfold end_of_epoch, add_to_sample_history.
assert (Hp : (if plot_after_epoch then plot_sample s else Ok tt) = Ok tt).
{ destruct plot_after_epoch; [apply Hplot|]; reflexivity. }
rewrite Hp. cbn [mbind result_bind]. rewrite Hsample. cbn [mbind result_bind].
eexists. split; [reflexivity|]. repeat split.
Qed.

Lemma epochs_loop_returns (data : list X) (e : nat) : forall s,
0 <= D_iterations s -> bound_after g s ->
exists s', epochs_loop (Ok g) loss_update plot_after_epoch plot_sample
             sample e data s = Ok s' /\
           same_optimizers s' (updates g (e * length data) s).
Proof.
induction e as [|e IH]; intros s Hs Hb.
- exists s. repeat split.
- destruct (epoch_from_returns data 0 s Hs Hb) as (s1 & E1 & S1 & B1).
  destruct (end_of_epoch_returns_state s1) as (s1' & E1' & S1' & _).
  assert (S1'' : same_optimizers s1' (updates g (length data) s)).
  { destruct S1 as (a & b & c), S1' as (a' & b' & c').
    repeat split; congruence. }
  destruct (IH s1') as (s2 & E2 & S2).
  + destruct S1'' as (HD & _). rewrite HD, updates_D. lia.
  + apply (bound_after_same s1); [|exact B1].
    destruct S1' as (a' & b' & c'). repeat split; congruence.
  + exists s2. split.
    * simpl. unfold epoch. rewrite E1. cbn [mbind result_bind].
      rewrite E1'. cbn [mbind result_bind]. exact E2.
    * simpl Nat.mul. unfold updates. rewrite Nat.add_comm, Nat.iter_add.
      destruct S2 as (a & b & c).
      destruct (updates_same g (e * length data) _ _ S1'') as (a' & b' & c').
      unfold updates in *. repeat split; congruence.
Qed.

End Loop.

(** C7: with [gen_train_steps >= 1] and a discriminator optimizer that
  starts at iteration 0, each discriminator update is followed by a
  generator update exactly when the new iteration count is a multiple of
  [gen_train_steps]; after [N] updates the generator has been trained
  [N / gen_train_steps] times; and the loop of [train], when the plot
  and the sample drawn at the end of each epoch return, performs
  [epochs * len(dataset)] such updates and returns. *)
Theorem generator_step_frequency {X} (g loss_update epochs : Z)
  (plot_after_epoch : bool) (plot_sample sample : state -> result unit)
  (data : list X) (N : nat) (st : state) :
1 <= g -> loss_update <> 0 -> D_iterations st = 0 ->
(forall s, update g s =
           if (D_iterations s + 1) mod g =? 0
           then train_generator (train_discriminator s)
           else train_discriminator s) /\
D_iterations (updates g N st) = Z.of_nat N /\
generator_steps st (updates g N st) = Z.of_nat N / g /\
(end_of_epoch_returns plot_after_epoch plot_sample sample ->
 exists st',
   train_loop (Ok g) loss_update plot_after_epoch plot_sample sample
     epochs data st = Ok st' /\
   D_iterations st' = Z.of_nat (Z.to_nat epochs * length data) /\
   generator_steps st st' = Z.of_nat (Z.to_nat epochs * length data) / g).
Proof.
intros Hg Hlu H0.
split; [intros s; apply update_cases; exact Hg|].
split; [rewrite updates_D; lia|].
split.
- unfold generator_steps. rewrite updates_G by exact Hg.
  rewrite H0, Z.add_0_l. change (0 / g) with 0. lia.
- intros Hend.
  destruct (epochs_loop_returns g loss_update plot_after_epoch plot_sample
              sample Hg Hlu Hend data (Z.to_nat epochs) st)
    as (st' & E & HD & HG & _).
  + lia.
  + unfold bound_after. lia.
  + exists st'. split; [exact E|]. split.
    * rewrite HD, updates_D. lia.
    * unfold generator_steps. rewrite HG, updates_G by exact Hg.
      rewrite H0, Z.add_0_l. change (0 / g) with 0. lia.
Qed.

End GANTrainFacts.

(** Three epochs over four minibatches with [gen_train_steps = 5] and a
    plot and a sample that return: twelve discriminator updates, two
    generator updates. *)
Lemma generator_step_frequency_witness :
  exists st',
    GANTrain.train_loop (Ok 5) 100 true (fun _ => Ok tt) (fun _ => Ok tt) 3
      [tt; tt; tt; tt] (GANTrain.State 0 0 false 0 None) = Ok st' /\
    GANTrain.generator_steps (GANTrain.State 0 0 false 0 None) st' = 2.
Proof.
  destruct (generator_step_frequency 5 100 3 true
              (fun _ => Ok tt) (fun _ => Ok tt) [tt; tt; tt; tt] 12
              (GANTrain.State 0 0 false 0 None)) as (_ & _ & _ & H).
  - lia.
  - lia.
  - reflexivity.
  - destruct H as (st' & E & _ & HG).
    + split; intros; reflexivity.
    + exists st'. split; [exact E|]. exact HG.
Defined.

(** ** The beta schedule *)

Section BetaFacts.
Import Beta.

Lemma cycle_length_of_returns spec dcl : returns (cycle_length_of spec dcl).
Proof.
unfold cycle_length_of, returns.
destruct (has_key spec "beta_cycle_length") eqn:E; [|eauto].
apply has_key_true in E. destruct E as [v Hv].
rewrite (getitem_lookup _ _ _ Hv). eauto.
Qed.

Lemma linspace_nonneg start stop num :
0 <= num ->
exists l, linspace start stop num = Ok l /\ length l = Z.to_nat num.
Proof.
intros Hn. unfold linspace.
replace (num <? 0) with false by (symmetry; apply Z.ltb_ge; lia).
eexists. split; [reflexivity|].
destruct (1 <? num) eqn:E.
- apply Z.ltb_lt in E.
  rewrite length_app, length_take, length_map, length_seq. simpl. lia.
- rewrite length_map, length_seq. reflexivity.
Qed.

Lemma linspace_negative start stop num :
num < 0 -> linspace start stop num = Raise ValueError.
Proof.
intros Hn. unfold linspace.
replace (num <? 0) with true by (symmetry; apply Z.ltb_lt; lia).
reflexivity.
Qed.

(** With two samples or more, the first is [start] and the last is exactly
  [stop]. *)
Lemma linspace_ends start stop num l :
2 <= num -> linspace start stop num = Ok l ->
(exists x, head l = Some x /\ (x == start)%Q) /\ last l = Some stop.
Proof.
intros Hn. unfold linspace.
replace (num <? 0) with false by (symmetry; apply Z.ltb_ge; lia).
replace (1 <? num) with true by (symmetry; apply Z.ltb_lt; lia).
intros [= <-]. split.
- destruct (Z.to_nat num) as [|[|n]] eqn:E; [lia|lia|].
  simpl. eexists. split; [reflexivity|]. ring.
- apply last_snoc.
Qed.

Lemma ones_nonneg n : 0 <= n -> ones n = Ok (replicate (Z.to_nat n) 1%Q).
Proof.
intros Hn. unfold ones.
replace (n <? 0) with false by (symmetry; apply Z.ltb_ge; lia).
reflexivity.
Qed.

Lemma tile_snoc {T} (a : list T) k :
concat (replicate (S k) a) = concat (replicate k a) ++ a.
Proof.
induction k as [|k IH].
- simpl. rewrite app_nil_r. reflexivity.
- change (concat (replicate (S (S k)) a))
    with (a ++ concat (replicate (S k) a)).
  rewrite IH at 1. rewrite app_assoc. reflexivity.
Qed.

(** A tiled array repeats with the length of the tile. *)
Lemma tile_periodic (a : list Q) reps i x y :
tile a reps !! i = Some x -> tile a reps !! (i + length a)%nat = Some y ->
x = y.
Proof.
unfold tile. generalize (Z.to_nat reps) as k. clear reps.
induction k as [|k IH]; intros Hx Hy.
- simpl in Hx. rewrite lookup_nil in Hx. discriminate.
- change (concat (replicate (S k) a)) with (a ++ concat (replicate k a)) in Hy.
  rewrite lookup_app_r in Hy by lia.
  replace (i + length a - length a)%nat with i in Hy by lia.
  rewrite tile_snoc in Hx.
  rewrite (lookup_app_l_Some _ _ _ _ Hy) in Hx. congruence.
Qed.

Lemma length_tile a reps :
length (tile a reps) = (Z.to_nat reps * length a)%nat.
Proof.
unfold tile. generalize (Z.to_nat reps) as k.
induction k as [|k IH]; simpl; [reflexivity|].
rewrite length_app, IH. reflexivity.
Qed.

Lemma length_scale a c : length (scale a c) = length a.
Proof. unfold scale. apply length_map. Qed.

Lemma scale_lookup a c i y :
scale a c !! i = Some y -> exists x, a !! i = Some x /\ y = (x * c)%Q.
Proof.
unfold scale. change (map (fun x => (x * c)%Q) a) with ((fun x => (x * c)%Q) <$> a).
rewrite list_lookup_fmap. destruct (a !! i) as [x|]; simpl; [|discriminate].
intros [= <-]. eauto.
Qed.

(** *** The three schedules, as the code computes them *)

Section Schedules.
Variables (spec : gmap string pyval) (beta_max : Q) (dcl e : Z).
Hypothesis Hepochs : spec !! "epochs" = Some (VInt e).

Lemma constant_schedule :
spec !! "beta_schedule" = Some (VStr "constant") -> 0 <= e ->
set_beta_schedule spec beta_max dcl =
Ok (Some (scale (replicate (Z.to_nat e) 1%Q) beta_max)).
Proof.
intros Hs He. unfold set_beta_schedule.
rewrite (getitem_lookup _ _ _ Hepochs). simpl.
destruct (cycle_length_of_returns spec dcl) as [c ->]. simpl.
rewrite (has_key_lookup _ _ _ Hs), Hs. simpl.
rewrite ones_nonneg by exact He. reflexivity.
Qed.

Lemma linear_schedule :
spec !! "beta_schedule" = Some (VStr "linear") ->
set_beta_schedule spec beta_max dcl =
l ← linspace 0 beta_max e; Ok (Some l).
Proof.
intros Hs. unfold set_beta_schedule.
rewrite (getitem_lookup _ _ _ Hepochs). simpl.
destruct (cycle_length_of_returns spec dcl) as [c ->]. simpl.
rewrite (has_key_lookup _ _ _ Hs), Hs. reflexivity.
Qed.

Lemma cyclic_schedule s c :
spec !! "beta_schedule" = Some (VStr s) ->
String.eqb "linear" s = false -> contains "cyclic" s = true ->
cycle_length_of spec dcl = Ok (VInt c) -> c <> 0 ->
set_beta_schedule spec beta_max dcl =
base ← linspace 0 1 c;
Ok (Some (scale (tile base (Z.max (Z.quot e c) 1)) beta_max)).
Proof.
intros Hs Hl Hc Hcl Hc0. unfold set_beta_schedule.
rewrite (getitem_lookup _ _ _ Hepochs). simpl.
rewrite Hcl. simpl.
rewrite (has_key_lookup _ _ _ Hs), Hs.
cbn [mbind result_bind is_str has_cyclic as_int]. rewrite Hl, Hc.
unfold int_div.
replace (c =? 0) with false by (symmetry; apply Z.eqb_neq; lia).
reflexivity.
Qed.

End Schedules.

End BetaFacts.

Section BetaClaims.
Import Beta.

Lemma not_linear_of_cyclic s :
contains "cyclic" s = true -> String.eqb "linear" s = false.
Proof.
intros Hc. destruct (String.eqb "linear" s) eqn:E; [|reflexivity].
apply String.eqb_eq in E. subst s. vm_compute in Hc. discriminate.
Qed.

(** C9: a specification with a non-negative integer [epochs], a schedule
  name of one of the three kinds and an integer cycle length of at least
  1 gets a schedule.  Under [constant] it has one value per epoch and all
  of them are [beta_max]; under [linear] it has one value per epoch and,
  with two epochs or more, starts at 0 and ends at [beta_max]; under a
  name containing [cyclic] it has [max (epochs / cycle_length) 1] cycles of
  [cycle_length] values, and the value at [i + cycle_length] is the value
  at [i] for every [i] with [i + cycle_length] in range. *)
Theorem beta_schedule_values (spec : gmap string pyval) (beta_max : Q)
  (dcl e c : Z) (s : string) :
spec !! "epochs" = Some (VInt e) -> 0 <= e ->
spec !! "beta_schedule" = Some (VStr s) ->
cycle_length_of spec dcl = Ok (VInt c) -> 1 <= c ->
s = "linear" \/ contains "cyclic" s = true \/ s = "constant" ->
exists l,
  set_beta_schedule spec beta_max dcl = Ok (Some l) /\
  (s = "constant" ->
     Z.of_nat (length l) = e /\ Forall (fun x => (x == beta_max)%Q) l) /\
  (s = "linear" ->
     Z.of_nat (length l) = e /\
     (2 <= e ->
      (exists x, head l = Some x /\ (x == 0)%Q) /\ last l = Some beta_max)) /\
  (contains "cyclic" s = true ->
     Z.of_nat (length l) = Z.max (Z.quot e c) 1 * c /\
     forall (i : nat), (i + Z.to_nat c < length l)%nat ->
       exists x, l !! i = Some x /\ l !! (i + Z.to_nat c)%nat = Some x).
Proof.
intros He He0 Hs Hcl Hc [-> | [Hcyc | ->]].
- (* linear *)
  destruct (linspace_nonneg 0 beta_max e He0) as (l & Hl & Hlen).
  exists l. split.
  + rewrite (linear_schedule spec beta_max dcl e He Hs), Hl. reflexivity.
  + split; [intros [=]|]. split.
    * intros _. split; [lia|].
      intros H2. exact (linspace_ends 0 beta_max e l H2 Hl).
    * intros H. vm_compute in H. discriminate.
- (* cyclic *)
  destruct (linspace_nonneg 0 1 c ltac:(lia)) as (base & Hb & Hlen).
  exists (scale (tile base (Z.max (Z.quot e c) 1)) beta_max). split.
  + rewrite (cyclic_schedule spec beta_max dcl e He s c Hs
               (not_linear_of_cyclic s Hcyc) Hcyc Hcl ltac:(lia)), Hb.
    reflexivity.
  + split; [intros ->; vm_compute in Hcyc; discriminate|].
    split; [intros ->; vm_compute in Hcyc; discriminate|].
    intros _. split.
    * rewrite length_scale, length_tile, Hlen. lia.
    * intros i Hi.
      destruct (lookup_lt_is_Some_2
                  (scale (tile base (Z.max (Z.quot e c) 1)) beta_max) i
                  ltac:(lia)) as [x Hx].
      destruct (lookup_lt_is_Some_2
                  (scale (tile base (Z.max (Z.quot e c) 1)) beta_max)
                  (i + Z.to_nat c) Hi) as [y Hy].
      exists x. split; [exact Hx|]. rewrite Hy. f_equal.
      apply scale_lookup in Hx. destruct Hx as (x0 & Hx0 & ->).
      apply scale_lookup in Hy. destruct Hy as (y0 & Hy0 & ->).
      rewrite <- Hlen in Hy0.
      rewrite (tile_periodic _ _ _ _ _ Hx0 Hy0). reflexivity.
- (* constant *)
  exists (scale (replicate (Z.to_nat e) 1%Q) beta_max). split.
  + exact (constant_schedule spec beta_max dcl e He Hs He0).
  + split.
    * intros _. split.
      -- rewrite length_scale, length_replicate. lia.
      -- unfold scale. apply Forall_map, Forall_replicate. simpl. ring.
    * split; [intros [=]|]. intros H. vm_compute in H. discriminate.
Qed.

(** Under [linear] and [constant] the schedule has one value per epoch. *)
Lemma linear_constant_length (spec : gmap string pyval) beta_max dcl e s :
spec !! "epochs" = Some (VInt e) -> 0 <= e ->
spec !! "beta_schedule" = Some (VStr s) ->
s = "linear" \/ s = "constant" ->
exists l, set_beta_schedule spec beta_max dcl = Ok (Some l) /\
          Z.of_nat (length l) = e.
Proof.
intros He He0 Hs [-> | ->].
- destruct (linspace_nonneg 0 beta_max e He0) as (l & Hl & Hlen).
  exists l. split; [|lia].
  rewrite (linear_schedule spec beta_max dcl e He Hs), Hl. reflexivity.
- eexists. split; [exact (constant_schedule spec beta_max dcl e He Hs He0)|].
  rewrite length_scale, length_replicate. lia.
Qed.

(** Under a cyclic name the length is a whole number of cycles, at least
  one, whatever the number of epochs. *)
Lemma cyclic_length (spec : gmap string pyval) beta_max dcl e c s :
spec !! "epochs" = Some (VInt e) ->
spec !! "beta_schedule" = Some (VStr s) -> contains "cyclic" s = true ->
cycle_length_of spec dcl = Ok (VInt c) -> 1 <= c ->
exists l, set_beta_schedule spec beta_max dcl = Ok (Some l) /\
          Z.of_nat (length l) = Z.max (Z.quot e c) 1 * c.
Proof.
intros He Hs Hcyc Hcl Hc.
destruct (linspace_nonneg 0 1 c ltac:(lia)) as (base & Hb & Hlen).
eexists. split.
- rewrite (cyclic_schedule spec beta_max dcl e He s c Hs
             (not_linear_of_cyclic s Hcyc) Hcyc Hcl ltac:(lia)), Hb.
  reflexivity.
- rewrite length_scale, length_tile, Hlen. lia.
Qed.

(** *** Range of the values, for a non-negative [beta_max] *)

Lemma linspace_sample_in_range (b : Q) (num : Z) (i : nat) :
(0 <= b)%Q -> (i = 0%nat \/ (2 <= num /\ Z.of_nat i <= num - 1)%Z) ->
in_range b (0 + inject_Z (Z.of_nat i) * ((b - 0) / inject_Z (num - 1)))%Q.
Proof.
intros Hb [-> | [Hn Hi]]; unfold in_range.
- assert (E : (0 + inject_Z (Z.of_nat 0) * ((b - 0) / inject_Z (num - 1))
               == 0)%Q) by (simpl; ring).
  rewrite E. split; [apply Qle_refl | exact Hb].
- assert (HD : (0 < inject_Z (num - 1))%Q).
  { change 0%Q with (inject_Z 0). rewrite <- Zlt_Qlt. lia. }
  assert (HI : (0 <= inject_Z (Z.of_nat i))%Q).
  { change 0%Q with (inject_Z 0). rewrite <- Zle_Qle. lia. }
  assert (HID : (inject_Z (Z.of_nat i) <= inject_Z (num - 1))%Q).
  { rewrite <- Zle_Qle. lia. }
  set (D := inject_Z (num - 1)) in *. set (I := inject_Z (Z.of_nat i)) in *.
  assert (Hs : ((b - 0) / D * D == b)%Q) by (field; Lqa.lra).
  assert (Hs0 : (0 <= (b - 0) / D)%Q).
  { apply Qle_shift_div_l; [exact HD|]. Lqa.lra. }
  set (s := ((b - 0) / D)%Q) in *.
  split; Lqa.nra.
Qed.

Lemma linspace_in_range (b : Q) (num : Z) l :
(0 <= b)%Q -> linspace 0 b num = Ok l -> Forall (in_range b) l.
Proof.
intros Hb. unfold linspace.
destruct (num <? 0) eqn:E0; [discriminate|]. apply Z.ltb_ge in E0.
intros [= <-].
assert (Hy : 1 <= num ->
             Forall (in_range b)
               (map (fun i => (0 + inject_Z (Z.of_nat i)
                               * ((b - 0) / inject_Z (num - 1)))%Q)
                    (seq 0 (Z.to_nat num)))).
{ intros H1. apply Forall_map, Forall_forall. intros i Hi.
  apply elem_of_seq in Hi. simpl.
  apply linspace_sample_in_range; [exact Hb|].
  destruct (decide (num = 1)) as [->|Hne]; [left; simpl in Hi; lia|].
  right. lia. }
destruct (1 <? num) eqn:E1.
- apply Z.ltb_lt in E1. apply Forall_app. split.
  + apply Forall_take. apply Hy. lia.
  + apply Forall_singleton. split; [exact Hb | apply Qle_refl].
- apply Z.ltb_ge in E1.
  destruct (decide (num = 0)) as [->|Hne]; [constructor|].
  apply Hy. lia.
Qed.

Lemma scale_in_range (a : list Q) (c : Q) :
(0 <= c)%Q -> Forall (in_range 1) a -> Forall (in_range c) (scale a c).
Proof.
intros Hc Ha. unfold scale. apply Forall_map.
eapply Forall_impl; [exact Ha|]. simpl. unfold in_range.
intros x [H0 H1]. split; Lqa.nra.
Qed.

Lemma tile_in_range (P : Q -> Prop) a reps :
Forall P a -> Forall P (tile a reps).
Proof.
intros Ha. unfold tile. apply Forall_concat, Forall_replicate. exact Ha.
Qed.

(** Under each of the three schedules and a non-negative [beta_max], every
  value lies between 0 and [beta_max]. *)
Lemma schedule_in_range (spec : gmap string pyval) (beta_max : Q)
  (dcl e c : Z) (s : string) :
(0 <= beta_max)%Q ->
spec !! "epochs" = Some (VInt e) -> 0 <= e ->
spec !! "beta_schedule" = Some (VStr s) ->
cycle_length_of spec dcl = Ok (VInt c) -> 1 <= c ->
s = "linear" \/ contains "cyclic" s = true \/ s = "constant" ->
exists l, set_beta_schedule spec beta_max dcl = Ok (Some l) /\
          Forall (in_range beta_max) l.
Proof.
intros Hb He He0 Hs Hcl Hc [-> | [Hcyc | ->]].
- destruct (linspace_nonneg 0 beta_max e He0) as (l & Hl & _).
  exists l. split.
  + rewrite (linear_schedule spec beta_max dcl e He Hs), Hl. reflexivity.
  + exact (linspace_in_range beta_max e l Hb Hl).
- destruct (linspace_nonneg 0 1 c ltac:(lia)) as (base & Hbase & _).
  eexists. split.
  + rewrite (cyclic_schedule spec beta_max dcl e He s c Hs
               (not_linear_of_cyclic s Hcyc) Hcyc Hcl ltac:(lia)), Hbase.
    reflexivity.
  + apply scale_in_range; [exact Hb|]. apply tile_in_range.
    apply (linspace_in_range 1 c base); [discriminate | exact Hbase].
- eexists. split.
  + exact (constant_schedule spec beta_max dcl e He Hs He0).
  + apply scale_in_range; [exact Hb|]. apply Forall_replicate.
    split; discriminate.
Qed.

(** A negative weight leaves the range empty: the linear schedule over two
  epochs ends at [beta_max] itself. *)
Example negative_beta_max_out_of_range :
exists l,
  set_beta_schedule
    (<["epochs" := VInt 2]> (<["beta_schedule" := VStr "linear"]> ∅))
    (-1) 5 = Ok (Some l) /\
  ~ Forall (in_range (-1)) l.
Proof.
eexists. split; [vm_compute; reflexivity|].
intros H. apply Forall_cons in H. destruct H as [[_ H] _].
vm_compute in H. apply H. reflexivity.
Qed.

(** C3, at the failing input: seven epochs under the cyclic schedule with
  the default cycle length of five give a schedule of five values, and
  the lookup that [VAE.train] makes in its sixth epoch is out of range. *)
Theorem cyclic_schedule_shorter_than_epochs :
exists l,
  VAE_beta_schedule
    (<["epochs" := VInt 7]> (<["beta_schedule" := VStr "cyclic"]> ∅))
  = Ok (Some l) /\
  length l = 5%nat /\
  schedule_at l 5 = Raise IndexError.
Proof.
eexists. split; [vm_compute; reflexivity|]. split; reflexivity.
Qed.

End BetaClaims.

(** Ten epochs under the cyclic schedule with cycles of five. *)
Lemma beta_schedule_values_witness :
  exists l,
    Beta.set_beta_schedule
      (<["epochs" := VInt 10]> (<["beta_schedule" := VStr "cyclic"]> ∅))
      (1 # 2) 5 = Ok (Some l) /\
    Z.of_nat (length l) = 10 /\
    forall (i : nat), (i + 5 < length l)%nat ->
      exists x, l !! i = Some x /\ l !! (i + 5)%nat = Some x.
Proof.
  destruct (beta_schedule_values
              (<["epochs" := VInt 10]> (<["beta_schedule" := VStr "cyclic"]> ∅))
              (1 # 2) 5 10 5 "cyclic") as (l & Hl & _ & _ & Hp).
  - reflexivity.
  - lia.
  - reflexivity.
  - reflexivity.
  - lia.
  - right. left. reflexivity.
  - exists l. split; [exact Hl|]. exact (Hp eq_refl).
Defined.

(** ** square_loss *)

Section LossFacts.
Import Loss.

(** The standard deviation handed to [square_loss] never reaches
  [square_loss_elem]: the result is the one for [sd = 1]. *)
Lemma square_loss_ignores_sd x_pred x_true sd sd' :
square_loss x_pred x_true sd = square_loss x_pred x_true sd'.
Proof. reflexivity. Qed.

Lemma square_loss_is_unit_scaled x_pred x_true sd :
square_loss x_pred x_true sd = square_loss_scaled x_pred x_true 1.
Proof. reflexivity. Qed.

(** C4, at the failing input: one pixel, prediction 1, target 0 and a
  standard deviation of 2.  The code returns -1/2; the squared error
  scaled by the standard deviation is -1/8. *)
Theorem square_loss_unscaled_at_sd_2 :
square_loss [[[[1%Q]]]] [[[[0%Q]]]] 2 = [(- (1 # 2))%Q] /\
square_loss_scaled [[[[1%Q]]]] [[[[0%Q]]]] 2 = [(- (1 # 8))%Q] /\
~ vec_eq (square_loss [[[[1%Q]]]] [[[[0%Q]]]] 2)
         (square_loss_scaled [[[[1%Q]]]] [[[[0%Q]]]] 2).
Proof.
split; [reflexivity|]. split; [reflexivity|].
intros H. apply Forall2_cons_1 in H. destruct H as [H _].
vm_compute in H. discriminate.
Qed.

End LossFacts.

(** ** create_masked_logp *)

Section MaskedLogpFacts.
Import Qcanon MaskedLogp.

Lemma fmul_one (x : fval) : fmul x (Fin 1) = x.
Proof.
destruct x; try reflexivity.
simpl. rewrite Qcmult_1_r. reflexivity.
Qed.

Lemma broadcast_dim_fits (a t : nat) :
a = t \/ a = 1%nat -> broadcast_dim t a = Some t.
Proof.
intros H. unfold broadcast_dim.
destruct (t =? a)%nat eqn:E1; [reflexivity|].
apply Nat.eqb_neq in E1.
destruct (t =? 1)%nat eqn:E2; [apply Nat.eqb_eq in E2; lia|].
destruct (a =? 1)%nat eqn:E3; [reflexivity|].
apply Nat.eqb_neq in E3. lia.
Qed.

Lemma broadcast_dim_cases (a b s : nat) :
broadcast_dim a b = Some s ->
(a = s \/ a = 1%nat) /\ (b = s \/ b = 1%nat).
Proof.
unfold broadcast_dim.
destruct (a =? b)%nat eqn:E1.
- apply Nat.eqb_eq in E1. intros [= <-]. lia.
- destruct (a =? 1)%nat eqn:E2.
  + apply Nat.eqb_eq in E2. intros [= <-]. lia.
  + destruct (b =? 1)%nat eqn:E3; [|discriminate].
    apply Nat.eqb_eq in E3. intros [= <-]. lia.
Qed.

Lemma bidx_self (s i : nat) : (i < s)%nat -> bidx s i = i.
Proof.
intros H. unfold bidx. destruct (s =? 1)%nat eqn:E; [|reflexivity].
apply Nat.eqb_eq in E. lia.
Qed.

Lemma bidx_lt (a s i : nat) :
a = s \/ a = 1%nat -> (i < s)%nat -> (bidx a i < a)%nat.
Proof.
intros H Hi. unfold bidx. destruct (a =? 1)%nat eqn:E.
- apply Nat.eqb_eq in E. lia.
- apply Nat.eqb_neq in E. lia.
Qed.

Lemma sum_axis_ext (n : nat) (f g : nat -> fval) :
(forall i, (i < n)%nat -> f i = g i) -> sum_axis n f = sum_axis n g.
Proof.
intros H. unfold sum_axis. f_equal. apply map_ext_in.
intros i Hi. apply in_seq in Hi. apply H. lia.
Qed.

(** The sums over an array depend on its shape and on its entries in
  range only. *)
Lemma reduce_sum_123_ext (t u : tensor fval) :
dim0 t = dim0 u -> dim1 t = dim1 u -> dim2 t = dim2 u -> dim3 t = dim3 u ->
(forall i j k l, in_range t i j k l -> entry t i j k l = entry u i j k l) ->
reduce_sum_123 t = reduce_sum_123 u.
Proof.
intros H0 H1 H2 H3 H. unfold reduce_sum_123.
rewrite <- H0, <- H1, <- H2, <- H3.
apply map_ext_in. intros i Hi. apply in_seq in Hi.
apply sum_axis_ext. intros j Hj.
apply sum_axis_ext. intros k Hk.
apply sum_axis_ext. intros l Hl.
apply H. unfold in_range. lia.
Qed.

(** Against a loss that the batch fits into, the keep-mask of an
  all-false mask acts as the scalar 1. *)
Lemma times_keep_all_false (data t : tensor fval) mask :
mask_all false data mask -> fits data t ->
exists kept,
  times_keep t (is_used (MaskedArray data (Some mask))) = Ok kept /\
  reduce_sum_123 kept = reduce_sum_123 (map_tensor (fun x => fmul x (Fin 1)) t).
Proof.
intros Hm (F0 & F1 & F2 & F3).
unfold times_keep, is_used, broadcast2. cbn [dim0 dim1 dim2 dim3 entry].
rewrite (broadcast_dim_fits _ _ F0), (broadcast_dim_fits _ _ F1),
        (broadcast_dim_fits _ _ F2), (broadcast_dim_fits _ _ F3).
eexists. split; [reflexivity|].
apply reduce_sum_123_ext; try reflexivity.
intros i j k l (Hi & Hj & Hk & Hl). cbn [dim0 dim1 dim2 dim3] in *.
cbn [entry map_tensor].
rewrite (bidx_self _ _ Hi), (bidx_self _ _ Hj), (bidx_self _ _ Hk),
        (bidx_self _ _ Hl).
rewrite Hm; [reflexivity|].
repeat split; eapply bidx_lt; eassumption.
Qed.

Lemma all_false_mask_agrees {L} (generative_net : L -> tensor fval)
  (log_prior_fn : L -> list fval) (data : tensor fval) mask
  (loss_elemwise_fn : tensor fval -> tensor fval -> result (tensor fval))
  (final_activation_fn : option (tensor fval -> tensor fval))
  (temperature : fval) (z : L) :
mask_all false data mask ->
(forall t,
   loss_elemwise_fn data
     match final_activation_fn with
     | Some f => f (generative_net z)
     | None => generative_net z
     end = Ok t -> fits data t) ->
create_masked_logp generative_net log_prior_fn (MaskedArray data (Some mask))
  loss_elemwise_fn final_activation_fn temperature z
= create_masked_logp generative_net log_prior_fn (Plain data)
  loss_elemwise_fn final_activation_fn temperature z.
Proof.
intros Hm Hfit. unfold create_masked_logp. cbn [raw_data].
destruct (loss_elemwise_fn data _) as [t|e] eqn:E; [|reflexivity].
cbn [mbind result_bind].
destruct (times_keep_all_false data t mask Hm (Hfit t eq_refl))
  as (kept & -> & Hk).
cbn [mbind result_bind is_used times_keep]. rewrite Hk. reflexivity.
Qed.

(** The loss of an entry-wise loss function has the shape of the batch
  on every axis where the batch is longer than 1. *)
Lemma elementwise_fits (f : fval -> fval -> fval) (data x t : tensor fval) :
elementwise f data x = Ok t -> fits data t.
Proof.
unfold elementwise, broadcast2.
destruct (broadcast_dim (dim0 data) (dim0 x)) as [d0|] eqn:E0; [|discriminate].
destruct (broadcast_dim (dim1 data) (dim1 x)) as [d1|] eqn:E1; [|discriminate].
destruct (broadcast_dim (dim2 data) (dim2 x)) as [d2|] eqn:E2; [|discriminate].
destruct (broadcast_dim (dim3 data) (dim3 x)) as [d3|] eqn:E3; [|discriminate].
intros [= <-]. unfold fits. cbn [dim0 dim1 dim2 dim3].
apply broadcast_dim_cases in E0, E1, E2, E3. tauto.
Qed.

(** A masked array without a mask gives the closure of the plain batch. *)
Lemma nomask_is_unmasked {L} (generative_net : L -> tensor fval)
  (log_prior_fn : L -> list fval) (data : tensor fval)
  (loss_elemwise_fn : tensor fval -> tensor fval -> result (tensor fval))
  (final_activation_fn : option (tensor fval -> tensor fval))
  (temperature : fval) (z : L) :
create_masked_logp generative_net log_prior_fn (MaskedArray data None)
  loss_elemwise_fn final_activation_fn temperature z
= create_masked_logp generative_net log_prior_fn (Plain data)
  loss_elemwise_fn final_activation_fn temperature z.
Proof. reflexivity. Qed.

(** C5 as amended: a masked batch with nothing masked out (the mask of a
  NumPy masked array is true where an entry is excluded, so this is the
  all-false mask) gives the closure of the plain batch, whenever the
  batch fits into the element-wise loss, so that multiplying by the
  keep-mask does not stretch the loss; and it does for every loss that
  is computed entry by entry. *)
Theorem all_false_mask_is_unmasked {L} (generative_net : L -> tensor fval)
  (log_prior_fn : L -> list fval) (data : tensor fval) mask
  (loss_elemwise_fn : tensor fval -> tensor fval -> result (tensor fval))
  (final_activation_fn : option (tensor fval -> tensor fval))
  (temperature : fval) (z : L) :
mask_all false data mask ->
((forall t,
    loss_elemwise_fn data
      match final_activation_fn with
      | Some f => f (generative_net z)
      | None => generative_net z
      end = Ok t -> fits data t) ->
 create_masked_logp generative_net log_prior_fn (MaskedArray data (Some mask))
   loss_elemwise_fn final_activation_fn temperature z
 = create_masked_logp generative_net log_prior_fn (Plain data)
   loss_elemwise_fn final_activation_fn temperature z) /\
(forall f,
   create_masked_logp generative_net log_prior_fn
     (MaskedArray data (Some mask))
     (elementwise f) final_activation_fn temperature z
   = create_masked_logp generative_net log_prior_fn (Plain data)
     (elementwise f) final_activation_fn temperature z).
Proof.
intros Hm. split.
- intros Hfit. apply all_false_mask_agrees; assumption.
- intros f. apply all_false_mask_agrees; [exact Hm|].
  intros t Ht. exact (elementwise_fits f _ _ t Ht).
Qed.

End MaskedLogpFacts.

(** One masked image of one pixel with nothing masked out, a generator
    that outputs two images, squared error, temperature 1 and a flat
    prior: the batch is broadcast against the two images. *)
Lemma all_false_mask_is_unmasked_witness :
  let sq := fun a b : MaskedLogp.fval =>
    MaskedLogp.fmul (MaskedLogp.fadd a (MaskedLogp.fneg b))
                    (MaskedLogp.fadd a (MaskedLogp.fneg b)) in
  let one := MaskedLogp.cast 1 in
  let zero := MaskedLogp.cast 0 in
  let two_images := MaskedLogp.Tensor 2 1 1 1
                      (fun i _ _ _ => MaskedLogp.cast (Z.of_nat i)) in
  MaskedLogp.create_masked_logp (fun _ : unit => two_images)
    (fun _ => [zero; zero])
    (MaskedLogp.MaskedArray (MaskedLogp.single one)
                            (Some (fun _ _ _ _ => false)))
    (MaskedLogp.elementwise sq) None one tt
  = MaskedLogp.create_masked_logp (fun _ : unit => two_images)
    (fun _ => [zero; zero])
    (MaskedLogp.Plain (MaskedLogp.single one))
    (MaskedLogp.elementwise sq) None one tt.
Proof.
  intros sq one zero two_images.
  apply (all_false_mask_is_unmasked (fun _ : unit => two_images)
           (fun _ => [zero; zero]) (MaskedLogp.single one)
           (fun _ _ _ _ => false)
           (MaskedLogp.elementwise sq) None one tt).
  intros i j k l _. reflexivity.
Defined.


(** C5 as stated fails: on one pixel with the all-true mask the masked
    closure drops the only term of the likelihood and returns the prior,
    0, while the plain closure returns -1.  And the all-false mask agrees
    with the plain batch only if the batch fits into the loss: with a
    batch of two pixels and a loss of one entry, the keep-mask stretches
    the loss to two entries, and the masked closure returns -2 where the
    plain one returns -1. *)
Lemma masked_closure_differs :
  let sq := fun a b : MaskedLogp.fval =>
    MaskedLogp.fmul (MaskedLogp.fadd a (MaskedLogp.fneg b))
                    (MaskedLogp.fadd a (MaskedLogp.fneg b)) in
  let one := MaskedLogp.cast 1 in
  let zero := MaskedLogp.cast 0 in
  let pixel := MaskedLogp.single one in
  let pair := MaskedLogp.Tensor 1 1 2 1 (fun _ _ _ _ => one) in
  (MaskedLogp.mask_all true pixel (fun _ _ _ _ => true) /\
   MaskedLogp.create_masked_logp (fun _ : unit => MaskedLogp.single zero)
     (fun _ => [zero])
     (MaskedLogp.MaskedArray pixel (Some (fun _ _ _ _ => true)))
     (MaskedLogp.elementwise sq) None one tt = Ok [zero] /\
   MaskedLogp.create_masked_logp (fun _ : unit => MaskedLogp.single zero)
     (fun _ => [zero]) (MaskedLogp.Plain pixel)
     (MaskedLogp.elementwise sq) None one tt = Ok [MaskedLogp.cast (-1)] /\
   zero <> MaskedLogp.cast (-1)) /\
  (MaskedLogp.mask_all false pair (fun _ _ _ _ => false) /\
   MaskedLogp.create_masked_logp (fun _ : unit => MaskedLogp.single zero)
     (fun _ => [zero])
     (MaskedLogp.MaskedArray pair (Some (fun _ _ _ _ => false)))
     (fun _ _ => Ok (MaskedLogp.single one)) None one tt
   = Ok [MaskedLogp.cast (-2)] /\
   MaskedLogp.create_masked_logp (fun _ : unit => MaskedLogp.single zero)
     (fun _ => [zero]) (MaskedLogp.Plain pair)
     (fun _ _ => Ok (MaskedLogp.single one)) None one tt
   = Ok [MaskedLogp.cast (-1)] /\
   MaskedLogp.cast (-2) <> MaskedLogp.cast (-1)).
Proof.
  intros sq one zero pixel pair.
  assert (Hval : forall a b : Qcanon.Qc,
            (Qcanon.this a == Qcanon.this b)%Q ->
            Ok [MaskedLogp.Fin a] = Ok [MaskedLogp.Fin b]).
  { intros a b H. apply Qcanon.Qc_is_canon in H. rewrite H. reflexivity. }
  split; [|split].
  - split; [intros i j k l _; reflexivity|].
    split; [apply Hval; reflexivity|].
    split; [apply Hval; reflexivity|].
    intros H. inversion H.
  - intros i j k l _. reflexivity.
  - split; [apply Hval; reflexivity|].
    split; [apply Hval; reflexivity|].
    intros H. inversion H.
Qed.

(** ** log_cb_constant *)

Section ContinuousBernoulliFacts.
Import ContinuousBernoulli.
Local Open Scope R_scope.

Lemma close_value_half : close_value (/ 2) = ln 2.
Proof.
unfold close_value.
replace (1 + (1 - 2 * / 2) ^ 2 / 3) with 1 by field.
rewrite ln_1. lra.
Qed.

Lemma clip_by_value_bounds x lo hi :
lo <= hi -> lo <= clip_by_value x lo hi <= hi.
Proof.
intros H. unfold clip_by_value, Rmin, Rmax.
destruct (Rle_dec x lo); destruct (Rle_dec _ hi); lra.
Qed.

Lemma clip_by_value_inside x lo hi :
lo <= x <= hi -> clip_by_value x lo hi = x.
Proof.
intros H. unfold clip_by_value, Rmin, Rmax.
destruct (Rle_dec x lo); destruct (Rle_dec _ hi); lra.
Qed.

Lemma clip_by_value_low x lo hi :
lo <= hi -> x <= lo -> clip_by_value x lo hi = lo.
Proof.
intros H Hx. unfold clip_by_value, Rmin, Rmax.
destruct (Rle_dec x lo); destruct (Rle_dec _ hi); lra.
Qed.

Lemma clip_by_value_high x lo hi :
lo <= hi -> hi <= x -> clip_by_value x lo hi = hi.
Proof.
intros H Hx. unfold clip_by_value, Rmin, Rmax.
destruct (Rle_dec x lo); destruct (Rle_dec _ hi); lra.
Qed.

Lemma far_mask_true eps x : far_mask eps x = true <-> eps <= Rabs (x - / 2).
Proof.
unfold far_mask. destruct (Rge_dec (Rabs (x - / 2)) eps) as [H|H].
- split; [intros _; lra | reflexivity].
- split; [discriminate | intros H'; lra].
Qed.

Lemma far_mask_false eps x : far_mask eps x = false <-> Rabs (x - / 2) < eps.
Proof.
unfold far_mask. destruct (Rge_dec (Rabs (x - / 2)) eps) as [H|H].
- split; [discriminate | intros H'; lra].
- split; [intros _; lra | reflexivity].
Qed.

(** Away from one half and strictly inside the unit interval, every
  logarithm and the division of the far formula are defined. *)
Lemma far_finite_inside eps x :
0 < eps -> eps <= x <= 1 - eps -> eps <= Rabs (x - / 2) -> far_finite x.
Proof.
intros He Hx Hfar. unfold far_finite.
split; [lra|]. split; [lra|].
unfold Rabs in Hfar. destruct (Rcase_abs (x - / 2)) as [Hlt|Hge].
- (* x below one half *)
  split; [lra|].
  apply Rdiv_lt_0_compat; [|lra].
  assert (ln x < ln (1 - x)) by (apply ln_increasing; lra). lra.
- (* x above one half *)
  split; [lra|].
  assert (ln (1 - x) < ln x) by (apply ln_increasing; lra).
  replace ((ln (1 - x) - ln x) / (1 - 2 * x))
    with ((ln x - ln (1 - x)) / (2 * x - 1)) by (field; lra).
  apply Rdiv_lt_0_compat; lra.
Qed.

Lemma log_cb_constant_far eps x :
far_mask eps (clip_by_value x eps (1 - eps)) = true ->
log_cb_constant [x] eps = far_value (clip_by_value x eps (1 - eps)).
Proof.
intros H. unfold log_cb_constant. simpl. rewrite H. simpl. lra.
Qed.

Lemma log_cb_constant_close eps x :
far_mask eps (clip_by_value x eps (1 - eps)) = false ->
log_cb_constant [x] eps = close_value (clip_by_value x eps (1 - eps)).
Proof.
intros H. unfold log_cb_constant. simpl. rewrite H. simpl. lra.
Qed.

(** C10, over the reals, for a clipping bound [0 < eps <= 1/4] (the code's
  is 1e-5): at one half the close formula is [ln 2], and so is the
  constant of the single entry one half; an entry at or beyond the
  clipping bounds is clipped onto them and lands in the far branch; and
  wherever the far branch is taken after clipping, the far formula is
  finite and is the constant of that entry. *)
Theorem log_cb_constant_branches (eps x : R) :
0 < eps -> eps <= / 4 ->
close_value (/ 2) = ln 2 /\
log_cb_constant [/ 2] eps = ln 2 /\
(x <= eps \/ 1 - eps <= x ->
   far_mask eps (clip_by_value x eps (1 - eps)) = true) /\
(far_mask eps (clip_by_value x eps (1 - eps)) = true ->
   far_finite (clip_by_value x eps (1 - eps)) /\
   log_cb_constant [x] eps = far_value (clip_by_value x eps (1 - eps))).
Proof.
intros He He4.
split; [exact close_value_half|]. split; [|split].
- rewrite log_cb_constant_close.
  + rewrite clip_by_value_inside by lra. exact close_value_half.
  + rewrite clip_by_value_inside by lra. apply far_mask_false.
    replace (/ 2 - / 2) with 0 by lra. rewrite Rabs_R0. exact He.
- intros [Hx|Hx]; apply far_mask_true.
  + rewrite clip_by_value_low by lra.
    rewrite Rabs_left by lra. lra.
  + rewrite clip_by_value_high by lra.
    rewrite Rabs_right by lra. lra.
- intros Hfar. split.
  + apply (far_finite_inside eps).
    * exact He.
    * apply clip_by_value_bounds. lra.
    * apply far_mask_true. exact Hfar.
  + apply log_cb_constant_far. exact Hfar.
Qed.

End ContinuousBernoulliFacts.

(** The code's clipping bound and an entry equal to 0. *)
Lemma log_cb_constant_branches_witness :
  ContinuousBernoulli.far_finite
    (ContinuousBernoulli.clip_by_value 0 (/ 100000) (1 - / 100000))%R.
Proof.
  destruct (log_cb_constant_branches (/ 100000) 0)%R as (_ & _ & Hb & Hf).
  - lra.
  - lra.
  - apply Hf. apply Hb. left. lra.
Defined.

(** * Further properties *)

(** ** sample_training and test_batch *)

Section SamplingMore.
Import Sampling Batches.
Context {A : Type}.

(** [sample_training] always asks for [n / batch_size + 1] minibatches: a
    dataset with no more than [n / batch_size] of them makes it raise
    [StopIteration], also when these minibatches hold [n] examples or more
    between them. *)
Theorem sample_training_runs_dry (d : dataset A) (n bs : Z) :
  0 <= n -> 1 <= bs ->
  element_batch_size d = Some bs ->
  Z.of_nat (length (batches d)) <= n / bs ->
  sample_training d n = Raise StopIteration.
Proof.
  intros Hn Hbs Hsz Hlen.
  assert (Hq : Z.quot n bs = n / bs) by (apply Z.quot_div_nonneg; lia).
  unfold sample_training, as_numpy_iterator, int_div. rewrite Hsz.
  replace (bs =? 0) with false by (symmetry; apply Z.eqb_neq; lia).
  simpl. rewrite Hq, pull_short by lia. reflexivity.
Qed.

Lemma take_concat_take (B : list (list A)) (bs k1 k2 n : nat) :
  Forall (fun b => length b = bs) B ->
  (k1 <= k2)%nat -> (k1 <= length B)%nat -> (n <= k1 * bs)%nat ->
  take n (concat (take k2 B)) = take n (concat (take k1 B)).
Proof.
  intros Hall Hk Hk1 Hn.
  assert (E : take k2 B = take k1 B ++ take (k2 - k1) (drop k1 B)).
  { rewrite <- (take_drop k1 B) at 1. rewrite take_app.
    rewrite length_take. replace (k1 `min` length B)%nat with k1 by lia.
    rewrite take_take. replace (k2 `min` k1)%nat with k1 by lia.
    reflexivity. }
  rewrite E, concat_app, take_app_le; [reflexivity|].
  rewrite (length_concat_fixed bs).
  - rewrite length_take.
    replace (k1 `min` length B)%nat with k1 by lia. exact Hn.
  - apply Forall_take. exact Hall.
Qed.

(** Asking for fewer examples gives a prefix of what asking for more
    gives: both calls start a fresh pass over the dataset. *)
Theorem sample_training_prefix (d : dataset A) (n m bs : Z) :
  0 <= n -> n <= m -> 1 <= bs ->
  element_batch_size d = Some bs ->
  Forall (fun b => Z.of_nat (length b) = bs) (batches d) ->
  m / bs + 1 <= Z.of_nat (length (batches d)) ->
  exists xs ys,
    sample_training d n = Ok xs /\ sample_training d m = Ok ys /\
    xs = take (Z.to_nat n) ys /\ Z.of_nat (length xs) = n.
Proof.
  intros Hn Hnm Hbs Hsz Hall Hlen.
  assert (Hqn : Z.quot n bs = n / bs) by (apply Z.quot_div_nonneg; lia).
  assert (Hqm : Z.quot m bs = m / bs) by (apply Z.quot_div_nonneg; lia).
  assert (Hdn : 0 <= n / bs) by (apply Z.div_pos; lia).
  assert (Hdm : n / bs <= m / bs) by (apply Z.div_le_mono; lia).
  assert (Hall' : Forall (fun b : list A => length b = Z.to_nat bs) (batches d)).
  { eapply Forall_impl; [exact Hall|]. simpl. intros b Hb. lia. }
  assert (Hgen : forall k, 0 <= k -> k / bs + 1 <= Z.of_nat (length (batches d)) ->
            sample_training d k =
            Ok (take (Z.to_nat k)
                  (concat (take (Z.to_nat (k / bs + 1)) (batches d))))).
  { intros k Hk Hkl.
    assert (Hqk : Z.quot k bs = k / bs) by (apply Z.quot_div_nonneg; lia).
    assert (0 <= k / bs) by (apply Z.div_pos; lia).
    unfold sample_training, as_numpy_iterator, int_div. rewrite Hsz.
    replace (bs =? 0) with false by (symmetry; apply Z.eqb_neq; lia).
    simpl. rewrite Hqk, pull_take by lia. simpl.
    unfold vstack.
    destruct (take (Z.to_nat (k / bs + 1)) (batches d)) as [|b0 rest] eqn:E.
    - apply (f_equal length) in E. rewrite length_take in E. simpl in E. lia.
    - simpl. unfold slice_to.
      replace (0 <=? k) with true by (symmetry; apply Z.leb_le; lia).
      reflexivity. }
  assert (Hge : forall k, 0 <= k -> k <= (k / bs + 1) * bs).
  { intros k Hk. pose proof (Z.mod_pos_bound k bs ltac:(lia)).
    pose proof (Z.div_mod k bs ltac:(lia)). nia. }
  eexists _, _. split; [apply Hgen; lia|]. split; [apply Hgen; lia|].
  split.
  - rewrite take_take. replace (Z.to_nat n `min` Z.to_nat m)%nat
      with (Z.to_nat n) by lia.
    symmetry. apply (take_concat_take _ (Z.to_nat bs)); try lia.
    + exact Hall'.
    + pose proof (Hge n Hn). nia.
  - rewrite length_take, (length_concat_fixed (Z.to_nat bs)).
    + rewrite length_take. pose proof (Hge n Hn). nia.
    + apply Forall_take. exact Hall'.
Qed.

(** Fewer examples than a minibatch holds: [sample_training] returns the
    first examples of the minibatch that [test_batch] returns. *)
Theorem sample_training_of_test_batch (d : dataset A) (n bs : Z) (b : list A) :
  0 <= n -> n < bs ->
  element_batch_size d = Some bs ->
  test_batch (Some d) = Ok b ->
  sample_training d n = Ok (take (Z.to_nat n) b).
Proof.
  intros Hn Hbs Hsz Hb.
  unfold test_batch, as_numpy_iterator, next in Hb.
  unfold sample_training, as_numpy_iterator, int_div. rewrite Hsz.
  replace (bs =? 0) with false by (symmetry; apply Z.eqb_neq; lia).
  simpl. rewrite Z.quot_small by lia. simpl.
  destruct (batches d) as [|b0 rest]; simpl in Hb; [discriminate|].
  injection Hb as ->. simpl. rewrite app_nil_r. unfold slice_to.
  replace (0 <=? n) with true by (symmetry; apply Z.leb_le; lia).
  reflexivity.
Qed.

End SamplingMore.

Lemma sample_training_runs_dry_witness :
  Sampling.sample_training
    (Sampling.Dataset (Some 2) [[1; 2]; [3; 4]]%nat) 4 = Raise StopIteration.
Proof.
  apply (sample_training_runs_dry _ 4 2).
  - lia.
  - lia.
  - reflexivity.
  - vm_compute. discriminate.
Defined.

Lemma sample_training_prefix_witness :
  exists xs ys,
    Sampling.sample_training
      (Sampling.Dataset (Some 2) [[1; 2]; [3; 4]; [5; 6]]%nat) 1 = Ok xs /\
    Sampling.sample_training
      (Sampling.Dataset (Some 2) [[1; 2]; [3; 4]; [5; 6]]%nat) 4 = Ok ys /\
    xs = take 1 ys.
Proof.
  destruct (sample_training_prefix
              (Sampling.Dataset (Some 2) [[1; 2]; [3; 4]; [5; 6]]%nat) 1 4 2)
    as (xs & ys & H1 & H2 & H3 & _).
  - lia.
  - lia.
  - lia.
  - reflexivity.
  - repeat constructor.
  - vm_compute. discriminate.
  - exists xs, ys. repeat split; assumption.
Defined.

Lemma sample_training_of_test_batch_witness :
  Sampling.sample_training
    (Sampling.Dataset (Some 3) [[1; 2; 3]; [4; 5; 6]]%nat) 2 = Ok [1; 2]%nat.
Proof.
  apply (sample_training_of_test_batch _ 2 3 [1; 2; 3]%nat).
  - lia.
  - lia.
  - reflexivity.
  - reflexivity.
Defined.

(** ** save and load_pretrained *)

Section PersistenceMore.
Import Persistence Pretrained.

(** The world that [save] leaves, in closed form. *)
Lemma save_world ask self prefix overwrite w :
  fst (save ask self prefix overwrite w) =
  from_option
    (fun g w1 => World (<[generative_path prefix := g]> (files w1))
                   (trace w1
                    ++ (if exists_ w1 (generative_path prefix)
                        then [Remove (generative_path prefix)] else [])
                    ++ [Write (generative_path prefix) g]))
    (fun x => x) (self !! "generative_net")
    (from_option
       (fun i w0 => World (<[inference_path prefix := i]> (files w0))
                      (trace w0
                       ++ (if exists_ w0 (inference_path prefix)
                           then [Remove (inference_path prefix)] else [])
                       ++ [Write (inference_path prefix) i]))
       (fun x => x) (self !! "inference_net") w).
Proof.
  unfold save.
  destruct (self !! "generative_net") as [g|] eqn:Hg;
  destruct (self !! "inference_net") as [i|] eqn:Hi;
  repeat match goal with
  | H : self !! ?a = Some _ |- _ =>
      rewrite (proj2 (hasattr_true self a)) by (rewrite H; eauto); clear H
  | H : self !! ?a = None |- _ =>
      rewrite (proj2 (hasattr_false self a)) by exact H; clear H
  end; cbn [negb orb fst snd from_option];
  rewrite ?save_net_present; reflexivity.
Qed.

Lemma save_result ask self prefix overwrite w :
  snd (save ask self prefix overwrite w) =
  if hasattr self "generative_net" || hasattr self "inference_net"
  then Ok tt else Raise ValueError.
Proof.
  unfold save.
  destruct (hasattr self "generative_net" || hasattr self "inference_net");
    reflexivity.
Qed.

(** Neither the [overwrite] argument nor the answer to Keras' overwrite
    question changes anything: [save] removes a file before it writes
    it. *)
Theorem save_ignores_overwrite ask ask' self prefix overwrite overwrite' w :
  save ask self prefix overwrite w = save ask' self prefix overwrite' w.
Proof.
  apply injective_projections.
  - rewrite !save_world. reflexivity.
  - rewrite !save_result. reflexivity.
Qed.

Lemma save_files ask self prefix overwrite w :
  files (fst (save ask self prefix overwrite w)) =
  from_option (fun g => <[generative_path prefix := g]>) (fun x => x)
    (self !! "generative_net")
    (from_option (fun i => <[inference_path prefix := i]>) (fun x => x)
       (self !! "inference_net") (files w)).
Proof.
  rewrite save_world.
  destruct (self !! "generative_net"), (self !! "inference_net"); reflexivity.
Qed.

(** [save] touches no file but the artifact of a network the model has,
    and no file that existed before is missing afterwards. *)
Theorem save_changes_only_artifacts ask self prefix overwrite w (q : string) :
  (files (fst (save ask self prefix overwrite w)) !! q <> files w !! q ->
     (q = inference_path prefix /\ is_Some (self !! "inference_net")) \/
     (q = generative_path prefix /\ is_Some (self !! "generative_net"))) /\
  (is_Some (files w !! q) ->
     is_Some (files (fst (save ask self prefix overwrite w)) !! q)).
Proof.
  rewrite save_files.
  destruct (self !! "generative_net") as [g|], (self !! "inference_net") as [i|];
    cbn [from_option]; split.
  - intros H.
    destruct (decide (q = generative_path prefix)) as [->|Hg]; [right; eauto|].
    destruct (decide (q = inference_path prefix)) as [->|Hi]; [left; eauto|].
    rewrite !lookup_insert_ne in H by congruence. congruence.
  - intros H. rewrite !lookup_insert_is_Some'. auto.
  - intros H.
    destruct (decide (q = generative_path prefix)) as [->|Hg]; [right; eauto|].
    rewrite !lookup_insert_ne in H by congruence. congruence.
  - intros H. rewrite !lookup_insert_is_Some'. auto.
  - intros H.
    destruct (decide (q = inference_path prefix)) as [->|Hi]; [left; eauto|].
    rewrite !lookup_insert_ne in H by congruence. congruence.
  - intros H. rewrite !lookup_insert_is_Some'. auto.
  - intros H. congruence.
  - auto.
Qed.

(** Saving again right away leaves the same files and the same result. *)
Theorem save_twice ask self prefix overwrite w :
  let w1 := fst (save ask self prefix overwrite w) in
  files (fst (save ask self prefix overwrite w1)) = files w1 /\
  snd (save ask self prefix overwrite w1) = snd (save ask self prefix overwrite w).
Proof.
  intros w1. subst w1. split; [|rewrite !save_result; reflexivity].
  pose proof (paths_differ prefix) as Hne.
  rewrite !save_files.
  destruct (self !! "generative_net") as [g|], (self !! "inference_net") as [i|];
    cbn [from_option]; try reflexivity.
  - apply map_eq. intros k.
    destruct (decide (k = generative_path prefix)) as [->|Hg'].
    + rewrite !lookup_insert_eq. reflexivity.
    + rewrite !(lookup_insert_ne _ (generative_path prefix)) by congruence.
      destruct (decide (k = inference_path prefix)) as [->|Hi'].
      * rewrite !lookup_insert_eq. reflexivity.
      * rewrite !(lookup_insert_ne _ (inference_path prefix)) by congruence.
        rewrite !(lookup_insert_ne _ (generative_path prefix)) by congruence.
        rewrite !(lookup_insert_ne _ (inference_path prefix)) by congruence.
        reflexivity.
  - rewrite insert_insert_eq. reflexivity.
  - rewrite insert_insert_eq. reflexivity.
Qed.


(** A model that was saved with its generator only: loading both paths
    back stops at the inference network, unless a file was already there,
    and keeps the generator that was loaded. *)
Theorem load_after_partial_save ask self prefix overwrite w self0 g :
  self !! "generative_net" = Some g ->
  self !! "inference_net" = None ->
  files w !! inference_path prefix = None ->
  load_pretrained self0 (Some (generative_path prefix))
    (Some (inference_path prefix)) (fst (save ask self prefix overwrite w))
  = (<["generative_net" := g]> self0,
     Failed (OSError (inference_path prefix))).
Proof.
  intros Hg Hi Hw. pose proof (paths_differ prefix) as Hne.
  unfold load_pretrained, load_model. rewrite save_files, Hg, Hi.
  cbn [from_option].
  rewrite lookup_insert_eq.
  rewrite lookup_insert_ne by congruence. rewrite Hw. reflexivity.
Qed.

End PersistenceMore.


Lemma load_after_partial_save_witness :
  Pretrained.load_pretrained ∅
    (Some (Persistence.generative_path "m"))
    (Some (Persistence.inference_path "m"))
    (fst (Persistence.save (fun _ => false)
            (<["generative_net" := VObj "G"]> ∅)
            "m" true (Persistence.World ∅ [])))
  = (<["generative_net" := VObj "G"]> ∅,
     Failed (OSError (Persistence.inference_path "m"))).
Proof.
  apply load_after_partial_save; reflexivity.
Defined.

(** ** GAN.train from any value of the discriminator counter *)

Section GANLogFacts.
Import GANTrain GANLog.

Lemma update_bound_since g d0 s :
  1 <= g -> bound_since g d0 s -> bound_since g d0 (update g s).
Proof.
  intros Hg Hs. unfold bound_since. rewrite update_D.
  rewrite update_cases by exact Hg.
  rewrite (div_succ (D_iterations s) g Hg).
  destruct ((D_iterations s + 1) mod g =? 0); simpl; [reflexivity|].
  rewrite Z.add_0_r. exact Hs.
Qed.

Section Loop.
Context {X : Type}.
Variables (g loss_update d0 : Z).
Variable plot_after_epoch : bool.
Variables plot_sample sample : state -> result unit.
Hypothesis Hg : 1 <= g.
Hypothesis Hlu : loss_update <> 0.
Hypothesis Hend : end_of_epoch_returns plot_after_epoch plot_sample sample.

Lemma minibatch_counts j (x : X) s :
  d0 + j <= D_iterations s -> bound_since g d0 s ->
  exists s', minibatch (Ok g) loss_update j x s = Ok s' /\
             same_optimizers s' (update g s) /\ bound_since g d0 s' /\
             loss_records s' =
             (loss_records s + (if logs_at g loss_update j then 1 else 0))%nat /\
             sample_history s' = sample_history s.
Proof.
  intros Hj Hb. unfold minibatch, py_mod.
  replace (loss_update =? 0) with false by (symmetry; apply Z.eqb_neq; lia).
  cbn [mbind result_bind].
  pose proof (update_bound_since g d0 s Hg Hb) as Hb'.
  assert (Hrec : loss_records (update g s) = loss_records s).
  { rewrite update_cases by exact Hg. destruct (_ =? 0); reflexivity. }
  assert (Hsam : sample_history (update g s) = sample_history s).
  { rewrite update_cases by exact Hg. destruct (_ =? 0); reflexivity. }
  fold (logs_at g loss_update j).
  destruct (logs_at g loss_update j) eqn:E.
  - unfold logs_at in E. apply andb_true_iff in E. destruct E as [_ E].
    apply Z.ltb_lt in E.
    rewrite Hb'.
    + eexists. split; [reflexivity|]. split; [repeat split|].
      split; [exact Hb'|]. split; [simpl; rewrite Hrec; lia | exact Hsam].
    + rewrite update_D.
      assert ((d0 + 1 * g) / g <= (D_iterations s + 1) / g)
        by (apply Z.div_le_mono; lia).
      rewrite Z.div_add in H by lia. lia.
  - eexists. split; [reflexivity|]. split; [repeat split|].
    split; [exact Hb'|]. split; [rewrite Hrec; lia | exact Hsam].
Qed.

Lemma bound_since_same s t :
  same_optimizers s t -> bound_since g d0 s -> bound_since g d0 t.
Proof.
  intros (HD & _ & HB) H. unfold bound_since in *. rewrite <- HD, <- HB. exact H.
Qed.

Lemma epoch_from_counts (data : list X) : forall j s,
  d0 + j <= D_iterations s -> bound_since g d0 s ->
  exists s', epoch_from (Ok g) loss_update j data s = Ok s' /\
             same_optimizers s' (updates g (length data) s) /\
             bound_since g d0 s' /\
             loss_records s' =
             (loss_records s + records_from g loss_update j (length data))%nat /\
             sample_history s' = sample_history s.
Proof.
  induction data as [|x rest IH]; intros j s Hj Hb.
  - exists s. repeat split; [exact Hb | simpl; lia].
  - destruct (minibatch_counts j x s Hj Hb) as (s1 & E1 & S1 & B1 & R1 & H1).
    destruct (IH (j + 1) s1) as (s2 & E2 & S2 & B2 & R2 & H2).
    + destruct S1 as (HD & _). rewrite HD, update_D. lia.
    + exact B1.
    + exists s2. split; [|split; [|split; [exact B2|split]]].
      * cbn [epoch_from]. rewrite E1. cbn [mbind result_bind]. exact E2.
      * simpl length. unfold updates. rewrite Nat.iter_succ_r.
        destruct S2 as (a & b & c).
        destruct (updates_same g (length rest) _ _ S1) as (a' & b' & c').
        unfold updates in *. repeat split; congruence.
      * rewrite R2, R1. simpl. lia.
      * congruence.
Qed.

(** The end of an epoch, when plotting and sampling return. *)
Lemma end_of_epoch_counts s :
  exists s', end_of_epoch plot_after_epoch plot_sample sample s = Ok s' /\
             same_optimizers s' s /\ loss_records s' = loss_records s /\
             sample_history s' = Some (S (default 0%nat (sample_history s))).
Proof.
  destruct Hend as [Hplot Hsample].
  unfold end_of_epoch, add_to_sample_history.
  assert (Hp : (if plot_after_epoch then plot_sample s else Ok tt) = Ok tt).
  { destruct plot_after_epoch; [apply Hplot|]; reflexivity. }
  rewrite Hp. cbn [mbind result_bind]. rewrite Hsample.
  cbn [mbind result_bind].
  eexists. split; [reflexivity|]. repeat split.
Qed.

Lemma epochs_loop_counts (data : list X) (e : nat) : forall s,
  d0 <= D_iterations s -> bound_since g d0 s ->
  exists s', epochs_loop (Ok g) loss_update plot_after_epoch plot_sample
               sample e data s = Ok s' /\
             same_optimizers s' (updates g (e * length data) s) /\
             loss_records s' =
             (loss_records s
              + e * records_from g loss_update 0 (length data))%nat.
Proof.
  induction e as [|e IH]; intros s Hs Hb.
  - exists s. repeat split. simpl. lia.
  - destruct (epoch_from_counts data 0 s ltac:(lia) Hb)
      as (s1 & E1 & S1 & B1 & R1 & _).
    destruct (end_of_epoch_counts s1) as (s1' & E1' & S1' & R1' & _).
    assert (S1'' : same_optimizers s1' (updates g (length data) s)).
    { destruct S1 as (a & b & c), S1' as (a' & b' & c').
      repeat split; congruence. }
    destruct (IH s1') as (s2 & E2 & S2 & R2).
    + destruct S1'' as (HD & _). rewrite HD, updates_D. lia.
    + apply (bound_since_same s1); [|exact B1].
      destruct S1' as (a' & b' & c'). repeat split; congruence.
    + exists s2. split; [|split].
      * simpl. unfold epoch. rewrite E1. cbn [mbind result_bind].
        rewrite E1'. cbn [mbind result_bind]. exact E2.
      * simpl Nat.mul. unfold updates. rewrite Nat.add_comm, Nat.iter_add.
        destruct S2 as (a & b & c).
        destruct (updates_same g (e * length data) _ _ S1'') as (a' & b' & c').
        unfold updates in *. repeat split; congruence.
      * rewrite R2, R1', R1. simpl. lia.
Qed.

End Loop.

(** What a whole call of [train] does to the trainer, whatever the
    counters were before, when the plot and the sample drawn at the end
    of each epoch return. *)
Lemma train_returns {X} (spec : gmap string pyval) (g loss_update e : Z)
    (plot_after_epoch : bool) (plot_sample sample : state -> result unit)
    (data : list X) (st : state) :
  spec !! "epochs" = Some (VInt e) ->
  spec !! "gen_train_steps" = Some (VInt g) ->
  1 <= g -> loss_update <> 0 ->
  end_of_epoch_returns plot_after_epoch plot_sample sample ->
  exists st',
    train spec loss_update None plot_after_epoch plot_sample sample data st
      = Ok st' /\
    D_iterations st' =
      D_iterations st + Z.of_nat (Z.to_nat e * length data) /\
    G_iterations st' =
      G_iterations st
      + (D_iterations st + Z.of_nat (Z.to_nat e * length data)) / g
      - D_iterations st / g /\
    loss_records st' =
      (Z.to_nat e * records_from g loss_update 0 (length data))%nat.
Proof.
  intros He Hgs Hg Hlu Hend. unfold train, Epochs.resolve_epochs.
  cbn [is_none andb]. rewrite (has_key_lookup _ _ _ He).
  rewrite (getitem_lookup _ _ _ He). cbn [mbind result_bind as_int].
  rewrite (getitem_lookup _ _ _ Hgs). cbn [mbind result_bind as_int].
  set (st0 := State (D_iterations st) (G_iterations st) false 0
                    (sample_history st)).
  destruct (epochs_loop_counts g loss_update (D_iterations st)
              plot_after_epoch plot_sample sample Hg Hlu Hend data
              (Z.to_nat e) st0) as (st' & E' & (HD & HG & _) & HR).
  - simpl. lia.
  - unfold bound_since. simpl. lia.
  - exists st'. split; [exact E'|]. split; [|split].
    + rewrite HD, updates_D. reflexivity.
    + rewrite HG, updates_G by exact Hg. reflexivity.
    + rewrite HR. reflexivity.
Qed.

(** A call of [train] on a trainer whose discriminator optimizer has
    already made [d0] updates, with a plot and a sample that return at
    the end of each epoch, returns, and trains the generator once for
    each multiple of [gen_train_steps] that the counter passes: the
    schedule of the generator continues across calls, it does not start
    again. *)
Theorem train_continues_generator_schedule {X} (spec : gmap string pyval)
    (g loss_update e : Z) (plot_after_epoch : bool)
    (plot_sample sample : state -> result unit)
    (data : list X) (st : state) :
  spec !! "epochs" = Some (VInt e) ->
  spec !! "gen_train_steps" = Some (VInt g) ->
  1 <= g -> loss_update <> 0 ->
  end_of_epoch_returns plot_after_epoch plot_sample sample ->
  let N := Z.of_nat (Z.to_nat e * length data) in
  exists st',
    train spec loss_update None plot_after_epoch plot_sample sample data st
      = Ok st' /\
    D_iterations st' = D_iterations st + N /\
    generator_steps st st' =
      (D_iterations st + N) / g - D_iterations st / g.
Proof.
  intros He Hgs Hg Hlu Hend N.
  destruct (train_returns spec g loss_update e plot_after_epoch plot_sample
              sample data st He Hgs Hg Hlu Hend)
    as (st' & E & HD & HG & _).
  exists st'. split; [exact E|]. split; [exact HD|].
  unfold generator_steps. rewrite HG. fold N. lia.
Qed.

(** The loss history that [train] leaves, when the plot and the sample
    drawn at the end of each epoch return, has one record for each epoch
    and each minibatch index [j] of the epoch with [j % loss_update == 0]
    and [j > gen_train_steps]; records of earlier calls are gone. *)
Theorem train_loss_records {X} (spec : gmap string pyval)
    (g loss_update e : Z) (plot_after_epoch : bool)
    (plot_sample sample : state -> result unit)
    (data : list X) (st : state) :
  spec !! "epochs" = Some (VInt e) ->
  spec !! "gen_train_steps" = Some (VInt g) ->
  1 <= g -> loss_update <> 0 ->
  end_of_epoch_returns plot_after_epoch plot_sample sample ->
  exists st',
    train spec loss_update None plot_after_epoch plot_sample sample data st
      = Ok st' /\
    loss_records st' =
      (Z.to_nat e * records_from g loss_update 0 (length data))%nat.
Proof.
  intros He Hgs Hg Hlu Hend.
  destruct (train_returns spec g loss_update e plot_after_epoch plot_sample
              sample data st He Hgs Hg Hlu Hend)
    as (st' & E & _ & _ & HR).
  exists st'. split; [exact E | exact HR].
Qed.

Lemma records_from_short g loss_update j (n : nat) :
  j + Z.of_nat n <= g + 1 -> records_from g loss_update j n = 0%nat.
Proof.
  revert j. induction n as [|n IH]; intros j Hj; [reflexivity|].
  simpl. rewrite IH by lia. unfold logs_at.
  replace (g <? j) with false by (symmetry; apply Z.ltb_ge; lia).
  rewrite andb_false_r. reflexivity.
Qed.

(** With no more than [gen_train_steps + 1] minibatches in an epoch, and
    a plot and a sample that return at the end of each epoch, the loss
    history stays empty, however many epochs are run. *)
Theorem train_short_epochs_record_nothing {X} (spec : gmap string pyval)
    (g loss_update e : Z) (plot_after_epoch : bool)
    (plot_sample sample : state -> result unit)
    (data : list X) (st : state) :
  spec !! "epochs" = Some (VInt e) ->
  spec !! "gen_train_steps" = Some (VInt g) ->
  1 <= g -> loss_update <> 0 ->
  end_of_epoch_returns plot_after_epoch plot_sample sample ->
  Z.of_nat (length data) <= g + 1 ->
  exists st',
    train spec loss_update None plot_after_epoch plot_sample sample data st
      = Ok st' /\
    loss_records st' = 0%nat.
Proof.
  intros He Hgs Hg Hlu Hend Hshort.
  destruct (train_returns spec g loss_update e plot_after_epoch plot_sample
              sample data st He Hgs Hg Hlu Hend)
    as (st' & E & _ & _ & HR).
  exists st'. split; [exact E|].
  rewrite HR, records_from_short by lia. lia.
Qed.

(** When the plot at the end of an epoch raises, so does [train], as soon
    as there is one epoch to run and its minibatches go through. *)
Lemma train_raises_with_plot {X} (spec : gmap string pyval)
    (g loss_update e : Z) (sample : state -> result unit) (err : exn)
    (data : list X) (st : state) :
  spec !! "epochs" = Some (VInt e) ->
  spec !! "gen_train_steps" = Some (VInt g) ->
  1 <= g -> loss_update <> 0 -> 1 <= e ->
  train spec loss_update None true (fun _ => Raise err) sample data st
  = Raise err.
Proof.
  intros He Hgs Hg Hlu He1. unfold train, Epochs.resolve_epochs.
  cbn [is_none andb]. rewrite (has_key_lookup _ _ _ He).
  rewrite (getitem_lookup _ _ _ He). cbn [mbind result_bind as_int].
  rewrite (getitem_lookup _ _ _ Hgs). cbn [mbind result_bind as_int].
  set (st0 := State (D_iterations st) (G_iterations st) false 0
                    (sample_history st)).
  unfold train_loop.
  destruct (Z.to_nat e) as [|n] eqn:En; [lia|].
  cbn [epochs_loop]. unfold epoch.
  destruct (epoch_from_counts g loss_update (D_iterations st) Hg Hlu
              data 0 st0) as (s1 & E1 & _).
  - simpl. lia.
  - unfold bound_since. simpl. lia.
  - rewrite E1. reflexivity.
Qed.

End GANLogFacts.

Lemma train_continues_generator_schedule_witness :
  exists st',
    GANTrain.train
      (<["epochs" := VInt 1]> (<["gen_train_steps" := VInt 5]> ∅)) 100 None
      true (fun _ => Ok tt) (fun _ => Ok tt)
      [tt; tt; tt] (GANTrain.State 3 0 false 0 None) = Ok st' /\
    GANTrain.generator_steps (GANTrain.State 3 0 false 0 None) st' = 1.
Proof.
  destruct (train_continues_generator_schedule
              (<["epochs" := VInt 1]> (<["gen_train_steps" := VInt 5]> ∅))
              5 100 1 true (fun _ => Ok tt) (fun _ => Ok tt)
              [tt; tt; tt] (GANTrain.State 3 0 false 0 None))
    as (st' & E & _ & HG).
  - reflexivity.
  - reflexivity.
  - lia.
  - lia.
  - split; intros; reflexivity.
  - exists st'. split; [exact E | exact HG].
Defined.

Lemma train_loss_records_witness :
  exists st',
    GANTrain.train
      (<["epochs" := VInt 2]> (<["gen_train_steps" := VInt 1]> ∅)) 2 None
      true (fun _ => Ok tt) (fun _ => Ok tt)
      [tt; tt; tt; tt; tt] (GANTrain.State 0 0 false 0 None) = Ok st' /\
    GANTrain.loss_records st' = 4%nat.
Proof.
  destruct (train_loss_records
              (<["epochs" := VInt 2]> (<["gen_train_steps" := VInt 1]> ∅))
              1 2 2 true (fun _ => Ok tt) (fun _ => Ok tt)
              [tt; tt; tt; tt; tt] (GANTrain.State 0 0 false 0 None))
    as (st' & E & HR).
  - reflexivity.
  - reflexivity.
  - lia.
  - lia.
  - split; intros; reflexivity.
  - exists st'. split; [exact E | exact HR].
Defined.

Lemma train_short_epochs_record_nothing_witness :
  exists st',
    GANTrain.train
      (<["epochs" := VInt 3]> (<["gen_train_steps" := VInt 5]> ∅)) 1 None
      true (fun _ => Ok tt) (fun _ => Ok tt)
      [tt; tt; tt; tt] (GANTrain.State 0 0 false 0 None) = Ok st' /\
    GANTrain.loss_records st' = 0%nat.
Proof.
  apply (train_short_epochs_record_nothing _ 5 1 3).
  - reflexivity.
  - reflexivity.
  - lia.
  - lia.
  - split; intros; reflexivity.
  - simpl. lia.
Defined.

(** ** More on the beta schedule *)

Section BetaMore.
Import Beta.

(** Under a cyclic name every epoch of [range(epochs)] finds its value in
    the schedule exactly when the number of epochs is a multiple of the
    cycle length or smaller than it. *)
Theorem cyclic_schedule_covers_epochs (spec : gmap string pyval)
    (beta_max : Q) (dcl e c : Z) (s : string) :
  spec !! "epochs" = Some (VInt e) -> 0 <= e ->
  spec !! "beta_schedule" = Some (VStr s) -> contains "cyclic" s = true ->
  cycle_length_of spec dcl = Ok (VInt c) -> 1 <= c ->
  exists l,
    set_beta_schedule spec beta_max dcl = Ok (Some l) /\
    ((forall k : nat, (k < Z.to_nat e)%nat -> returns (schedule_at l k)) <->
     (e mod c = 0 \/ e < c)).
Proof.
  intros He He0 Hs Hcyc Hcl Hc.
  destruct (cyclic_length spec beta_max dcl e c s He Hs Hcyc Hcl Hc)
    as (l & Hl & Hlen).
  exists l. split; [exact Hl|].
  rewrite Z.quot_div_nonneg in Hlen by lia.
  pose proof (Z.div_mod e c ltac:(lia)) as Hdm.
  pose proof (Z.mod_pos_bound e c ltac:(lia)) as Hr.
  assert (Hq : 0 <= e / c) by (apply Z.div_pos; lia).
  assert (Hcover : (forall k : nat, (k < Z.to_nat e)%nat ->
                      returns (schedule_at l k)) <->
                   e <= Z.of_nat (length l)).
  { split.
    - intros H. destruct (decide (e <= Z.of_nat (length l))) as [|Hn]; [assumption|].
      destruct (H (length l) ltac:(lia)) as [x Hx].
      unfold schedule_at in Hx. rewrite lookup_ge_None_2 in Hx by lia.
      discriminate.
    - intros H k Hk. unfold schedule_at, returns.
      destruct (lookup_lt_is_Some_2 l k ltac:(lia)) as [x ->]. eauto. }
  rewrite Hcover, Hlen. split.
  - intros H. destruct (decide (e / c = 0)) as [E0|E0].
    + right. rewrite E0 in Hdm. lia.
    + left. replace (Z.max (e / c) 1) with (e / c) in H by lia. nia.
  - intros [H|H].
    + assert (e = c * (e / c)) by lia. nia.
    + rewrite Z.div_small by lia. lia.
Qed.

(** The values of the linear schedule: the value of epoch [i] is
    [i * beta_max / (epochs - 1)]. *)
Theorem linear_schedule_values (spec : gmap string pyval) (beta_max : Q)
    (dcl e : Z) :
  spec !! "epochs" = Some (VInt e) -> 2 <= e ->
  spec !! "beta_schedule" = Some (VStr "linear") ->
  exists l,
    set_beta_schedule spec beta_max dcl = Ok (Some l) /\
    Z.of_nat (length l) = e /\
    forall (i : nat) x,
      l !! i = Some x ->
      (x == inject_Z (Z.of_nat i) * beta_max / inject_Z (e - 1))%Q.
Proof.
  intros He He2 Hs.
  rewrite (linear_schedule spec beta_max dcl e He Hs).
  unfold linspace.
  replace (e <? 0) with false by (symmetry; apply Z.ltb_ge; lia).
  replace (1 <? e) with true by (symmetry; apply Z.ltb_lt; lia).
  eexists. split; [reflexivity|]. split.
  - rewrite length_app, length_take, length_map, length_seq. simpl. lia.
  - intros i x Hx.
    assert (HD : ~ (inject_Z (e - 1) == 0)%Q).
    { intros H. apply (Qeq_bool_neq (inject_Z (e - 1)) 0);
        [|exact H]. unfold Qeq_bool. simpl.
      apply Z.eqb_neq. lia. }
    destruct (decide (i < Z.to_nat e - 1)%nat) as [Hi|Hi].
    + rewrite lookup_app_l in Hx
        by (rewrite length_take, length_map, length_seq; lia).
      rewrite lookup_take_lt in Hx by lia.
      change (map ?f ?l) with (f <$> l) in Hx.
      rewrite list_lookup_fmap, lookup_seq_lt in Hx by lia.
      simpl in Hx. injection Hx as <-. field. exact HD.
    + apply lookup_lt_Some in Hx as Hlt.
      rewrite length_app, length_take, length_map, length_seq in Hlt.
      simpl in Hlt.
      assert (i = Z.to_nat e - 1)%nat by lia. subst i.
      rewrite lookup_app_r in Hx
        by (rewrite length_take, length_map, length_seq; lia).
      rewrite length_take, length_map, length_seq in Hx.
      replace (Z.to_nat e - 1 - (Z.to_nat e - 1) `min` Z.to_nat e)%nat
        with 0%nat in Hx by lia.
      simpl in Hx. injection Hx as <-.
      replace (Z.of_nat (Z.to_nat e - 1)) with (e - 1) by lia.
      field. exact HD.
Qed.

(** A cycle length of 1 makes the cyclic schedule constantly 0, whatever
    [beta_max] is. *)
Theorem cyclic_schedule_of_length_one (spec : gmap string pyval)
    (beta_max : Q) (dcl e : Z) (s : string) :
  spec !! "epochs" = Some (VInt e) ->
  spec !! "beta_schedule" = Some (VStr s) -> contains "cyclic" s = true ->
  cycle_length_of spec dcl = Ok (VInt 1) ->
  exists l,
    set_beta_schedule spec beta_max dcl = Ok (Some l) /\
    Z.of_nat (length l) = Z.max e 1 /\
    Forall (fun x => (x == 0)%Q) l.
Proof.
  intros He Hs Hcyc Hcl.
  eexists. split; [|split].
  - rewrite (cyclic_schedule spec beta_max dcl e He s 1 Hs
               (not_linear_of_cyclic s Hcyc) Hcyc Hcl ltac:(lia)).
    reflexivity.
  - rewrite length_scale, length_tile, Z.quot_1_r. simpl. lia.
  - unfold scale. apply Forall_map. apply tile_in_range.
    apply Forall_singleton. simpl. ring.
Qed.

(** A schedule name that is neither [linear] nor [constant] and does not
    contain [cyclic] is accepted silently: nothing is raised and no
    schedule is set. *)
Theorem unknown_schedule_sets_nothing (spec : gmap string pyval)
    (beta_max : Q) (dcl : Z) (v : pyval) (s : string) :
  spec !! "epochs" = Some v ->
  spec !! "beta_schedule" = Some (VStr s) ->
  s <> "linear" -> s <> "constant" -> contains "cyclic" s = false ->
  set_beta_schedule spec beta_max dcl = Ok None.
Proof.
  intros He Hs Hl Hc Hcyc. unfold set_beta_schedule.
  rewrite (getitem_lookup _ _ _ He). cbn [mbind result_bind].
  destruct (cycle_length_of_returns spec dcl) as [c ->].
  cbn [mbind result_bind].
  rewrite (has_key_lookup _ _ _ Hs), (getitem_lookup _ _ _ Hs).
  cbn [mbind result_bind is_str has_cyclic].
  replace (String.eqb "linear" s) with false
    by (symmetry; apply String.eqb_neq; congruence).
  rewrite Hcyc.
  replace (String.eqb "constant" s) with false
    by (symmetry; apply String.eqb_neq; congruence).
  reflexivity.
Qed.

End BetaMore.

Lemma schedule_in_range_witness :
  exists l,
    Beta.set_beta_schedule
      (<["epochs" := VInt 4]> (<["beta_schedule" := VStr "linear"]> ∅))
      (1 # 2) 5 = Ok (Some l) /\
    Forall (Beta.in_range (1 # 2)) l.
Proof.
  apply (schedule_in_range _ (1 # 2) 5 4 5 "linear").
  - discriminate.
  - reflexivity.
  - lia.
  - reflexivity.
  - reflexivity.
  - lia.
  - left. reflexivity.
Defined.

Lemma linear_constant_length_witness :
  exists l,
    Beta.set_beta_schedule
      (<["epochs" := VInt 4]> (<["beta_schedule" := VStr "constant"]> ∅))
      (1 # 2) 5 = Ok (Some l) /\
    Z.of_nat (length l) = 4.
Proof.
  apply (linear_constant_length _ (1 # 2) 5 4 "constant").
  - reflexivity.
  - lia.
  - reflexivity.
  - right. reflexivity.
Defined.

Lemma cyclic_length_witness :
  exists l,
    Beta.set_beta_schedule
      (<["epochs" := VInt 7]> (<["beta_schedule" := VStr "cyclic"]> ∅))
      1 5 = Ok (Some l) /\
    Z.of_nat (length l) = Z.max (Z.quot 7 5) 1 * 5.
Proof.
  apply (cyclic_length _ 1 5 7 5 "cyclic").
  - reflexivity.
  - reflexivity.
  - reflexivity.
  - reflexivity.
  - lia.
Defined.

Lemma cyclic_schedule_covers_epochs_witness :
  exists l,
    Beta.set_beta_schedule
      (<["epochs" := VInt 10]> (<["beta_schedule" := VStr "cyclic"]> ∅))
      1 5 = Ok (Some l) /\
    forall k : nat, (k < 10)%nat -> returns (Beta.schedule_at l k).
Proof.
  destruct (cyclic_schedule_covers_epochs
              (<["epochs" := VInt 10]> (<["beta_schedule" := VStr "cyclic"]> ∅))
              1 5 10 5 "cyclic") as (l & Hl & Hiff).
  - reflexivity.
  - lia.
  - reflexivity.
  - reflexivity.
  - reflexivity.
  - lia.
  - exists l. split; [exact Hl|]. apply Hiff. left. reflexivity.
Defined.

Lemma linear_schedule_values_witness :
  exists l,
    Beta.set_beta_schedule
      (<["epochs" := VInt 3]> (<["beta_schedule" := VStr "linear"]> ∅))
      1 5 = Ok (Some l) /\
    Z.of_nat (length l) = 3.
Proof.
  destruct (linear_schedule_values
              (<["epochs" := VInt 3]> (<["beta_schedule" := VStr "linear"]> ∅))
              1 5 3) as (l & Hl & Hlen & _).
  - reflexivity.
  - lia.
  - reflexivity.
  - exists l. split; assumption.
Defined.

Lemma cyclic_schedule_of_length_one_witness :
  exists l,
    Beta.set_beta_schedule
      (<["epochs" := VInt 3]>
         (<["beta_schedule" := VStr "cyclic"]>
            (<["beta_cycle_length" := VInt 1]> ∅)))
      2 5 = Ok (Some l) /\
    Forall (fun x => (x == 0)%Q) l.
Proof.
  destruct (cyclic_schedule_of_length_one
              (<["epochs" := VInt 3]>
                 (<["beta_schedule" := VStr "cyclic"]>
                    (<["beta_cycle_length" := VInt 1]> ∅)))
              2 5 3 "cyclic") as (l & Hl & _ & Hz).
  - reflexivity.
  - reflexivity.
  - reflexivity.
  - reflexivity.
  - exists l. split; assumption.
Defined.

Lemma unknown_schedule_sets_nothing_witness :
  Beta.set_beta_schedule
    (<["epochs" := VInt 3]> (<["beta_schedule" := VStr "cosine"]> ∅)) 1 5
  = Ok None.
Proof.
  apply (unknown_schedule_sets_nothing _ 1 5 (VInt 3) "cosine").
  - reflexivity.
  - reflexivity.
  - discriminate.
  - discriminate.
  - reflexivity.
Defined.

(** ** VAE.train *)

Section VAETrainFacts.
Import VAETrain.
Context {M X S : Type}.
Variable cag : M -> X -> Q -> M * Q.
Variable sample : M -> bool -> S.
Variable plot_sample : M -> bool -> result unit.
Variable spec : gmap string pyval.
Variable dataset : list X.
Variable beta : Q.
Variable beta_schedule : option (list Q).
Variable n_batches : Z.

Local Abbreviation run_epoch :=
  (run_epoch cag sample plot_sample spec dataset beta beta_schedule n_batches).
Local Abbreviation run_epochs :=
  (run_epochs cag sample plot_sample spec dataset beta beta_schedule n_batches).
Local Abbreviation train :=
  (train cag sample plot_sample spec dataset beta beta_schedule n_batches).

(** The loss array is large enough for the minibatches that are left. *)
Lemma epoch_steps_returns (data : list X) : forall i b m a,
  (i + length data <= length a)%nat ->
  exists m' a', epoch_steps cag i data b m a = (m', Ok a') /\
                length a' = length a.
Proof.
  induction data as [|x rest IH]; intros i b m a Hlen.
  - exists m, a. split; reflexivity.
  - simpl in *. destruct (cag m x b) as [m1 loss].
    unfold setitem.
    replace (i <? length a)%nat with true by (symmetry; apply Nat.ltb_lt; lia).
    destruct (IH (Datatypes.S i) b m1 (<[i := loss]> a)) as (m' & a' & E & L).
    + rewrite length_insert. lia.
    + exists m', a'. split; [exact E|]. rewrite L. apply length_insert.
Qed.

(** One minibatch more than the array has entries: the step is made, then
    the assignment fails. *)
Lemma epoch_steps_overflow (data : list X) : forall i b m a,
  (length a < i + length data)%nat -> (i <= length a)%nat ->
  exists m', epoch_steps cag i data b m a = (m', Raise IndexError).
Proof.
  induction data as [|x rest IH]; intros i b m a Hlen Hi.
  - simpl in Hlen. lia.
  - simpl in *. destruct (cag m x b) as [m1 loss].
    unfold setitem. destruct (i <? length a)%nat eqn:E.
    + apply Nat.ltb_lt in E.
      apply IH; rewrite length_insert; lia.
    + eauto.
Qed.

Lemma train_single_epoch_returns b m :
  n_batches = Z.of_nat (length dataset) ->
  exists m' a', train_single_epoch cag dataset n_batches b m = (m', Ok a') /\
                length a' = length dataset.
Proof.
  intros Hn. unfold train_single_epoch, zeros.
  replace (n_batches <? 0) with false by (symmetry; apply Z.ltb_ge; lia).
  destruct (epoch_steps_returns dataset 0 b m
              (replicate (Z.to_nat n_batches) 0%Q)) as (m' & a' & E & L).
  - rewrite length_replicate. lia.
  - exists m', a'. split; [exact E|]. rewrite L, length_replicate. lia.
Qed.

Section Healthy.
(** A trainer in working order: the batch count is the dataset's, the
    dataset is not empty, the specification names the likelihood and the
    model, plotting (when asked for) does not fail and the save interval is
    not zero. *)
Variables (plot_after_epoch : bool) (save_interval : Z) (lk name : string).
Hypothesis Hn : n_batches = Z.of_nat (length dataset).
Hypothesis Hdata : dataset <> [].
Hypothesis Hlk : spec !! "likelihood" = Some (VStr lk).
Hypothesis Hname : spec !! "name" = Some (VStr name).
Hypothesis Hplot :
  plot_after_epoch = true -> forall m b, plot_sample m b = Ok tt.
Hypothesis Hsi : save_interval <> 0.

Lemma run_epoch_returns (k : nat) (st : state) :
  match beta_schedule with
  | Some l => (k < length l)%nat
  | None => True
  end ->
  exists st',
    run_epoch plot_after_epoch save_interval k st = (st', Ok tt) /\
    beta_current st' = Some (match beta_schedule with
                             | Some l => default beta (l !! k)
                             | None => beta
                             end) /\
    (exists epoch_loss, loss_history st' = loss_history st ++ epoch_loss /\
                        length epoch_loss = length dataset) /\
    sample_history st' =
      Some (default [] (sample_history st)
            ++ [sample (net st') (contains "bernoulli" lk)]) /\
    checkpoints st' =
      checkpoints st
      ++ (if Z.of_nat k mod save_interval =? 0
          then [(SAVED_MODELS_DIR +:+ name, net st')] else []).
Proof.
  intros Hk. unfold VAETrain.run_epoch.
  set (b := match beta_schedule with
            | Some l => default beta (l !! k)
            | None => beta
            end).
  assert (Hb : match beta_schedule with
               | Some l => Beta.schedule_at l k
               | None => Ok beta
               end = Ok b).
  { subst b. destruct beta_schedule as [l|]; [|reflexivity].
    unfold Beta.schedule_at.
    destruct (lookup_lt_is_Some_2 l k Hk) as [v ->]. reflexivity. }
  rewrite Hb. cbn [net].
  destruct (train_single_epoch_returns b (net st) Hn) as (m & a & E & L).
  rewrite E.
  assert (Hlast : exists v, last_item a = Ok v).
  { unfold last_item. destruct (last a) as [v|] eqn:El; [eauto|].
    apply last_None in El. subst a. destruct dataset; [congruence|discriminate]. }
  destruct Hlast as [v ->].
  rewrite (getitem_lookup _ _ _ Hlk). cbn [mbind result_bind py_in].
  assert (Hp : (if plot_after_epoch
                then plot_sample m (contains "bernoulli" lk) else Ok tt) = Ok tt).
  { destruct plot_after_epoch; [apply Hplot|]; reflexivity. }
  rewrite Hp. unfold GANTrain.py_mod.
  replace (save_interval =? 0) with false by (symmetry; apply Z.eqb_neq; lia).
  destruct (Z.of_nat k mod save_interval =? 0).
  - unfold checkpoint. rewrite (getitem_lookup _ _ _ Hname). cbn.
    eexists. split; [reflexivity|]. cbn.
    split; [reflexivity|]. split; [eauto|]. split; reflexivity.
  - eexists. split; [reflexivity|]. cbn.
    split; [reflexivity|]. split; [eauto|].
    split; [reflexivity|]. rewrite app_nil_r. reflexivity.
Qed.

Lemma checkpoint_epochs_from (k r : nat) :
  List.filter (fun j => Z.of_nat j mod save_interval =? 0) (seq k (Datatypes.S r))
  = (if Z.of_nat k mod save_interval =? 0 then [k] else [])
    ++ List.filter (fun j => Z.of_nat j mod save_interval =? 0)
         (seq (Datatypes.S k) r).
Proof. simpl. destruct (_ =? 0); reflexivity. Qed.

Lemma run_epochs_returns (r : nat) : forall (k : nat) (st : state),
  match beta_schedule with
  | Some l => (k + r <= length l)%nat
  | None => True
  end ->
  exists st',
    run_epochs plot_after_epoch save_interval k r st = (st', Ok tt) /\
    length (loss_history st') =
      (length (loss_history st) + r * length dataset)%nat /\
    (exists new, loss_history st' = loss_history st ++ new) /\
    samples_kept st' = (samples_kept st + r)%nat /\
    (exists new, default [] (sample_history st')
                 = default [] (sample_history st) ++ new) /\
    map fst (checkpoints st') =
      map fst (checkpoints st)
      ++ map (fun _ => SAVED_MODELS_DIR +:+ name)
           (List.filter (fun j => Z.of_nat j mod save_interval =? 0) (seq k r)).
Proof.
  induction r as [|r IH]; intros k st Hk.
  - exists st. split; [reflexivity|]. split; [lia|].
    split; [exists []; rewrite app_nil_r; reflexivity|].
    split; [lia|]. split; [exists []; rewrite app_nil_r; reflexivity|].
    simpl. rewrite app_nil_r. reflexivity.
  - destruct (run_epoch_returns k st) as (st1 & E1 & _ & (el & HL & Hel) & HS & HC).
    { destruct beta_schedule; [lia | exact I]. }
    destruct (IH (Datatypes.S k) st1) as (st2 & E2 & L2 & (n2 & P2) & S2 & (s2 & Q2) & C2).
    { destruct beta_schedule; [lia | exact I]. }
    exists st2. split.
    + cbn [VAETrain.run_epochs]. rewrite E1. exact E2.
    + split; [rewrite L2, HL, length_app, Hel; lia|].
      split; [exists (el ++ n2); rewrite P2, HL, app_assoc; reflexivity|].
      split.
      { rewrite S2. unfold samples_kept. rewrite HS. cbn.
        rewrite length_app. simpl. lia. }
      split.
      { rewrite Q2, HS. cbn. eexists. rewrite <- app_assoc.
        reflexivity. }
      rewrite C2, HC, checkpoint_epochs_from, map_app, <- app_assoc.
      f_equal. rewrite map_app. f_equal.
      destruct (Z.of_nat k mod save_interval =? 0); reflexivity.
Qed.

(** A healthy trainer with a schedule that covers the epochs (or with
    none) runs all its epochs: the loss history gains one loss per
    minibatch and epoch after the losses it had, the sample history gains
    one entry per epoch after the entries it had, and a checkpoint is
    written under the model's name for each epoch number divisible by the
    save interval, epoch 0 first. *)
Theorem train_runs_all_epochs (e : Z) (st : state) :
  spec !! "epochs" = Some (VInt e) ->
  match beta_schedule with
  | Some l => e <= Z.of_nat (length l)
  | None => True
  end ->
  exists st',
    train None plot_after_epoch save_interval st = (st', Ok tt) /\
    length (loss_history st') =
      (length (loss_history st) + Z.to_nat e * length dataset)%nat /\
    (exists new, loss_history st' = loss_history st ++ new) /\
    samples_kept st' = (samples_kept st + Z.to_nat e)%nat /\
    (exists new, default [] (sample_history st')
                 = default [] (sample_history st) ++ new) /\
    map fst (checkpoints st') =
      map fst (checkpoints st)
      ++ map (fun _ => SAVED_MODELS_DIR +:+ name)
           (checkpoint_epochs save_interval (Z.to_nat e)).
Proof.
  intros He Hs. unfold VAETrain.train, Epochs.resolve_epochs.
  cbn [is_none andb]. rewrite (has_key_lookup _ _ _ He).
  rewrite (getitem_lookup _ _ _ He). cbn [mbind result_bind as_int].
  apply run_epochs_returns.
  destruct beta_schedule; [lia | exact I].
Qed.


End Healthy.

(** An empty dataset: the first epoch has no loss to report, and
    [epoch_loss[-1]] raises [IndexError] before anything is recorded. *)
Theorem train_on_empty_dataset (e : Z) (plot_after_epoch : bool)
    (save_interval : Z) (st : state) :
  spec !! "epochs" = Some (VInt e) -> 1 <= e ->
  dataset = [] -> n_batches = 0 ->
  match beta_schedule with
  | Some l => l <> []
  | None => True
  end ->
  exists st',
    train None plot_after_epoch save_interval st = (st', Raise IndexError) /\
    net st' = net st /\ loss_history st' = loss_history st /\
    sample_history st' = sample_history st /\
    checkpoints st' = checkpoints st.
Proof.
  intros He He1 Hd Hn Hs. unfold VAETrain.train, Epochs.resolve_epochs.
  cbn [is_none andb]. rewrite (has_key_lookup _ _ _ He).
  rewrite (getitem_lookup _ _ _ He). cbn [mbind result_bind as_int].
  destruct (Z.to_nat e) as [|r] eqn:Er; [lia|].
  cbn [VAETrain.run_epochs]. unfold VAETrain.run_epoch.
  assert (Hb : exists b, match beta_schedule with
                         | Some l => Beta.schedule_at l 0
                         | None => Ok beta
                         end = Ok b).
  { destruct beta_schedule as [[|b0 l]|]; [congruence| |]; eauto. }
  destruct Hb as [b ->].
  unfold train_single_epoch. rewrite Hn, Hd. cbn.
  eexists. split; [reflexivity|]. cbn. repeat split.
Qed.

End VAETrainFacts.

(** Three epochs over two minibatches, a checkpoint every second epoch;
    the model is the number of gradient steps made. *)
Lemma train_runs_all_epochs_witness :
  exists st',
    VAETrain.train (fun (m : nat) (_ : unit) (b : Q) => (Datatypes.S m, b))
      (fun m _ => m) (fun _ _ => Ok tt)
      (<["epochs" := VInt 3]>
         (<["likelihood" := VStr "bernoulli"]> (<["name" := VStr "m"]> ∅)))
      [tt; tt] 1 None 2 None true 2
      (VAETrain.State 0%nat None [] None [])
    = (st', Ok tt) /\
    VAETrain.samples_kept st' = 3%nat /\
    length (VAETrain.loss_history st') = 6%nat /\
    map fst (VAETrain.checkpoints st')
    = ["../data/saved_models/m"; "../data/saved_models/m"].
Proof.
  destruct (train_runs_all_epochs
              (fun (m : nat) (_ : unit) (b : Q) => (Datatypes.S m, b))
              (fun m _ => m) (fun _ _ => Ok tt)
              (<["epochs" := VInt 3]>
                 (<["likelihood" := VStr "bernoulli"]>
                    (<["name" := VStr "m"]> ∅)))
              [tt; tt] 1 None 2 true 2 "bernoulli" "m"
              eq_refl ltac:(discriminate) eq_refl eq_refl
              (fun _ _ _ => eq_refl) ltac:(lia) 3
              (VAETrain.State 0%nat None [] None []) eq_refl I)
    as (st' & E & L & _ & K & _ & C).
  exists st'. split; [exact E|]. split; [exact K|]. split; [exact L|]. exact C.
Defined.


(** One epoch asked on a dataset without minibatches. *)
Lemma train_on_empty_dataset_witness :
  exists st',
    VAETrain.train (fun (m : nat) (_ : unit) (b : Q) => (Datatypes.S m, b))
      (fun m _ => m) (fun _ _ => Ok tt)
      (<["epochs" := VInt 1]> ∅) [] 1 None 0 None true 2
      (VAETrain.State 0%nat None [] None [])
    = (st', Raise IndexError) /\
    VAETrain.loss_history st' = [].
Proof.
  destruct (train_on_empty_dataset
              (fun (m : nat) (_ : unit) (b : Q) => (Datatypes.S m, b))
              (fun m _ => m) (fun _ _ => Ok tt)
              (<["epochs" := VInt 1]> ∅) [] 1 None 0 1 true 2
              (VAETrain.State 0%nat None [] None []))
    as (st' & E & _ & L & _).
  - reflexivity.
  - lia.
  - reflexivity.
  - reflexivity.
  - exact I.
  - exists st'. split; [exact E | exact L].
Defined.

(** ** More on create_masked_logp *)

Section MaskedLogpMore.
Import Qcanon MaskedLogp MaskedData.

Lemma fmul_finite_zero (x : fval) :
  is_finite x = true -> fmul x (cast 0) = Fin (Q2Qc 0).
Proof.
  destruct x; try discriminate. intros _.
  unfold cast. cbn [fmul]. f_equal. apply Qcmult_0_r.
Qed.

Lemma fadd_zero_l (x : fval) : fadd (Fin (Q2Qc 0)) x = x.
Proof.
  destruct x; try reflexivity. cbn [fadd]. f_equal. apply Qcplus_0_l.
Qed.

Lemma sum_axis_zero (n : nat) (f : nat -> fval) :
  (forall i, (i < n)%nat -> f i = Fin (Q2Qc 0)) ->
  sum_axis n f = Fin (Q2Qc 0).
Proof.
  intros H.
  rewrite (sum_axis_ext n f (fun _ => Fin (Q2Qc 0)) H).
  unfold sum_axis. induction (seq 0 n) as [|a l IH]; [reflexivity|].
  cbn [map fsum foldr] in *. unfold fsum in IH. rewrite IH.
  apply fadd_zero_l.
Qed.

(** With every entry masked out and a finite loss, every kept loss is 0. *)
Lemma times_keep_all_true (data t : tensor fval) mask :
  mask_all true data mask -> fits data t -> all_finite t ->
  exists kept,
    times_keep t (is_used (MaskedArray data (Some mask))) = Ok kept /\
    reduce_sum_123 kept = map (fun _ => Fin (Q2Qc 0)) (seq 0 (dim0 t)).
Proof.
  intros Hm (F0 & F1 & F2 & F3) Hfin.
  unfold times_keep, is_used, broadcast2. cbn [dim0 dim1 dim2 dim3 entry].
  rewrite (broadcast_dim_fits _ _ F0), (broadcast_dim_fits _ _ F1),
          (broadcast_dim_fits _ _ F2), (broadcast_dim_fits _ _ F3).
  eexists. split; [reflexivity|].
  unfold reduce_sum_123. cbn [dim0 dim1 dim2 dim3 entry].
  apply map_ext_in. intros i Hi. apply in_seq in Hi.
  apply sum_axis_zero. intros j Hj.
  apply sum_axis_zero. intros k Hk.
  apply sum_axis_zero. intros l Hl.
  rewrite (bidx_self (dim0 t) i) by lia.
  rewrite (bidx_self _ _ Hj), (bidx_self _ _ Hk), (bidx_self _ _ Hl).
  rewrite Hm.
  - apply fmul_finite_zero. apply Hfin. unfold in_range. lia.
  - repeat split; eapply bidx_lt; try eassumption. lia.
Qed.

Lemma zero_likelihood_gives_prior (temperature : fval) (idx : list nat) :
  is_finite temperature = true ->
  forall prior : list fval,
  length prior = length idx ->
  add_vectors
    (map (fmul temperature) (map fneg (map (fun _ => Fin (Q2Qc 0)) idx)))
    prior
  = Ok prior.
Proof.
  intros HT prior Hlen. unfold add_vectors.
  rewrite !length_map, <- Hlen, Nat.eqb_refl. f_equal.
  destruct temperature as [tq| | |]; try discriminate.
  revert prior Hlen. induction idx as [|a idx IH]; intros prior Hlen.
  - destruct prior; [reflexivity | discriminate].
  - destruct prior as [|p prior]; [discriminate|].
    cbn [map zip_with fneg fmul]. rewrite IH by (simpl in Hlen; lia).
    f_equal.
    replace (tq * - Q2Qc 0) with (Q2Qc 0) by ring.
    apply fadd_zero_l.
Qed.

(** With every entry masked out (a mask that is true everywhere), a loss
    without infinities and NaN and a finite temperature, the closure
    returns the prior alone, whatever the data and the network. *)
Theorem all_true_mask_gives_prior {L} (generative_net : L -> tensor fval)
    (log_prior_fn : L -> list fval) (data : tensor fval) mask
    (loss_elemwise_fn : tensor fval -> tensor fval -> result (tensor fval))
    (final_activation_fn : option (tensor fval -> tensor fval))
    (temperature : fval) (z : L) (t : tensor fval) :
  mask_all true data mask ->
  loss_elemwise_fn data
    match final_activation_fn with
    | Some f => f (generative_net z)
    | None => generative_net z
    end = Ok t ->
  fits data t ->
  all_finite t ->
  is_finite temperature = true ->
  length (log_prior_fn z) = dim0 t ->
  create_masked_logp generative_net log_prior_fn
    (MaskedArray data (Some mask))
    loss_elemwise_fn final_activation_fn temperature z
  = Ok (log_prior_fn z).
Proof.
  intros Hm Ht Hfit Hfin HT Hlen. unfold create_masked_logp. cbn [raw_data].
  rewrite Ht. cbn [mbind result_bind].
  destruct (times_keep_all_true data t mask Hm Hfit Hfin) as (kept & -> & Hk).
  cbn [mbind result_bind]. rewrite Hk.
  apply zero_likelihood_gives_prior; [exact HT|].
  rewrite length_seq. exact Hlen.
Qed.

(** A NaN under the mask is not masked out: it reaches the result. *)
Lemma masked_NaN_spreads :
  create_masked_logp (fun _ : unit => single NaN) (fun _ => [cast 0])
    (MaskedArray (single (cast 1)) (Some (fun _ _ _ _ => true)))
    (fun _ x => Ok x) None (cast 1) tt
  = Ok [NaN].
Proof. reflexivity. Qed.

(** For a loss computed entry by entry whose entries under the mask are
    finite, the values stored under the mask never reach the
    log-probability: any constant that keeps those entries of the loss
    finite may replace them. *)
Theorem masked_values_do_not_matter {L} (generative_net : L -> tensor fval)
    (log_prior_fn : L -> list fval) (data : tensor fval) mask (c : fval)
    (f : fval -> fval -> fval)
    (final_activation_fn : option (tensor fval -> tensor fval))
    (temperature : fval) (z : L) :
  (forall t,
     elementwise f data
       match final_activation_fn with
       | Some g => g (generative_net z)
       | None => generative_net z
       end = Ok t -> finite_under_mask mask data t) ->
  (forall t,
     elementwise f (filled c data mask)
       match final_activation_fn with
       | Some g => g (generative_net z)
       | None => generative_net z
       end = Ok t -> finite_under_mask mask data t) ->
  create_masked_logp generative_net log_prior_fn
    (MaskedArray (filled c data mask) (Some mask)) (elementwise f)
    final_activation_fn temperature z
  = create_masked_logp generative_net log_prior_fn
    (MaskedArray data (Some mask)) (elementwise f)
    final_activation_fn temperature z.
Proof.
  intros H1 H2. unfold create_masked_logp. cbn [raw_data].
  set (x := match final_activation_fn with
            | Some g => g (generative_net z)
            | None => generative_net z
            end) in *.
  unfold elementwise, broadcast2 in *.
  cbn [filled dim0 dim1 dim2 dim3] in *.
  destruct (broadcast_dim (dim0 data) (dim0 x)) as [d0|] eqn:E0;
    [|reflexivity].
  destruct (broadcast_dim (dim1 data) (dim1 x)) as [d1|] eqn:E1;
    [|reflexivity].
  destruct (broadcast_dim (dim2 data) (dim2 x)) as [d2|] eqn:E2;
    [|reflexivity].
  destruct (broadcast_dim (dim3 data) (dim3 x)) as [d3|] eqn:E3;
    [|reflexivity].
  specialize (H1 _ eq_refl). specialize (H2 _ eq_refl).
  apply broadcast_dim_cases in E0, E1, E2, E3.
  cbn [mbind result_bind times_keep is_used].
  unfold broadcast2. cbn [filled dim0 dim1 dim2 dim3 entry].
  rewrite (broadcast_dim_fits _ _ (proj1 E0)), (broadcast_dim_fits _ _ (proj1 E1)),
          (broadcast_dim_fits _ _ (proj1 E2)), (broadcast_dim_fits _ _ (proj1 E3)).
  cbn [mbind result_bind].
  match goal with
  | |- add_vectors (map _ (map _ (reduce_sum_123 ?a))) _
       = add_vectors (map _ (map _ (reduce_sum_123 ?b))) _ =>
      assert (Hsum : reduce_sum_123 a = reduce_sum_123 b);
      [|rewrite Hsum; reflexivity]
  end.
  apply reduce_sum_123_ext; try reflexivity.
  intros i j k l (Hi & Hj & Hk & Hl). cbn [dim0 dim1 dim2 dim3] in *.
  cbn [entry].
  rewrite (bidx_self _ _ Hi), (bidx_self _ _ Hj), (bidx_self _ _ Hk),
          (bidx_self _ _ Hl).
  destruct (mask (bidx (dim0 data) i) (bidx (dim1 data) j)
                 (bidx (dim2 data) k) (bidx (dim3 data) l)) eqn:Em.
  - assert (Hr : in_range (Tensor d0 d1 d2 d3 (fun _ _ _ _ => NaN)) i j k l)
      by (repeat split; assumption).
    pose proof (H1 i j k l Hr Em) as F1.
    pose proof (H2 i j k l Hr Em) as F2.
    cbn [entry filled] in F1, F2. rewrite Em in F2.
    change (cast (1 - Z.b2z true)) with (cast 0).
    rewrite (fmul_finite_zero _ F1), (fmul_finite_zero _ F2). reflexivity.
  - reflexivity.
Qed.

End MaskedLogpMore.

Lemma all_true_mask_gives_prior_witness :
  let sq := fun a b : MaskedLogp.fval =>
    MaskedLogp.fmul (MaskedLogp.fadd a (MaskedLogp.fneg b))
                    (MaskedLogp.fadd a (MaskedLogp.fneg b)) in
  MaskedLogp.create_masked_logp
    (fun _ : unit => MaskedLogp.single (MaskedLogp.cast 0))
    (fun _ => [MaskedLogp.cast (-3)])
    (MaskedLogp.MaskedArray (MaskedLogp.single (MaskedLogp.cast 7))
                            (Some (fun _ _ _ _ => true)))
    (MaskedLogp.elementwise sq) None (MaskedLogp.cast 2) tt
  = Ok [MaskedLogp.cast (-3)].
Proof.
  intros sq.
  apply (all_true_mask_gives_prior
           (fun _ : unit => MaskedLogp.single (MaskedLogp.cast 0))
           (fun _ => [MaskedLogp.cast (-3)])
           (MaskedLogp.single (MaskedLogp.cast 7)) (fun _ _ _ _ => true)
           (MaskedLogp.elementwise sq) None (MaskedLogp.cast 2) tt
           (MaskedLogp.Tensor 1 1 1 1 (fun _ _ _ _ =>
              sq (MaskedLogp.cast 7) (MaskedLogp.cast 0)))).
  - intros i j k l _. reflexivity.
  - reflexivity.
  - repeat split; left; reflexivity.
  - intros i j k l _. reflexivity.
  - reflexivity.
  - reflexivity.
Defined.

(** A masked pixel whose stored value makes the loss finite: 5 or 0 under
    the mask give the same log-probability. *)
Lemma masked_values_do_not_matter_witness :
  let sq := fun a b : MaskedLogp.fval =>
    MaskedLogp.fmul (MaskedLogp.fadd a (MaskedLogp.fneg b))
                    (MaskedLogp.fadd a (MaskedLogp.fneg b)) in
  let data := MaskedLogp.Tensor 1 1 2 1
                (fun _ _ k _ => MaskedLogp.cast (Z.of_nat k + 4)) in
  let mask := fun (_ _ k _ : nat) => (k =? 1)%nat in
  MaskedLogp.create_masked_logp
    (fun _ : unit => MaskedLogp.single (MaskedLogp.cast 1))
    (fun _ => [MaskedLogp.cast 0])
    (MaskedLogp.MaskedArray (MaskedData.filled (MaskedLogp.cast 0) data mask)
                            (Some mask))
    (MaskedLogp.elementwise sq) None (MaskedLogp.cast 1) tt
  = MaskedLogp.create_masked_logp
    (fun _ : unit => MaskedLogp.single (MaskedLogp.cast 1))
    (fun _ => [MaskedLogp.cast 0])
    (MaskedLogp.MaskedArray data (Some mask))
    (MaskedLogp.elementwise sq) None (MaskedLogp.cast 1) tt.
Proof.
  intros sq data mask.
  apply (masked_values_do_not_matter
           (fun _ : unit => MaskedLogp.single (MaskedLogp.cast 1))
           (fun _ => [MaskedLogp.cast 0]) data mask (MaskedLogp.cast 0) sq
           None (MaskedLogp.cast 1) tt).
  - intros t Ht. injection Ht as <-. intros i j k l _ _. reflexivity.
  - intros t Ht. injection Ht as <-. intros i j k l _ Hm.
    cbn [MaskedLogp.entry MaskedData.filled]. simpl in Hm.
    cbn [MaskedLogp.dim0 MaskedLogp.dim1 MaskedLogp.dim2 MaskedLogp.dim3
         data MaskedLogp.bidx] in *.
    unfold mask in *. simpl. rewrite Hm. reflexivity.
Defined.

(** ** More on log_cb_constant, and cb_loss *)

Section CBLossFacts.
Import ContinuousBernoulli CBLoss.
Local Open Scope R_scope.

Lemma sum_R_app (a b : list R) : sum_R (a ++ b) = sum_R a + sum_R b.
Proof.
  induction a as [|x a IH]; simpl; [lra|]. rewrite IH. lra.
Qed.

(** Each entry is counted once, in one of the two branches. *)
Lemma log_cb_constant_by_entry (xs : list R) (eps : R) :
  log_cb_constant xs eps = sum_R (map (entry_constant eps) xs).
Proof.
  unfold log_cb_constant. induction xs as [|x xs IH]; simpl; [lra|].
  unfold entry_constant at 1.
  destruct (far_mask eps (clip_by_value x eps (1 - eps))); simpl; lra.
Qed.

(** The constant of a batch is the sum of the constants of its parts. *)
Theorem log_cb_constant_app (xs ys : list R) (eps : R) :
  log_cb_constant (xs ++ ys) eps
  = log_cb_constant xs eps + log_cb_constant ys eps.
Proof.
  rewrite !log_cb_constant_by_entry, map_app, sum_R_app. reflexivity.
Qed.

Lemma clip_by_value_mirror (x eps : R) :
  eps <= / 2 ->
  clip_by_value (1 - x) eps (1 - eps) = 1 - clip_by_value x eps (1 - eps).
Proof.
  intros He. unfold clip_by_value, Rmax.
  destruct (Rle_dec (1 - x) eps), (Rle_dec x eps); unfold Rmin;
    repeat match goal with
    | |- context [Rle_dec ?a ?b] => destruct (Rle_dec a b)
    end; lra.
Qed.

Lemma far_mask_mirror (eps c : R) : far_mask eps (1 - c) = far_mask eps c.
Proof.
  unfold far_mask.
  replace (1 - c - / 2) with (- (c - / 2)) by lra.
  rewrite Rabs_Ropp. reflexivity.
Qed.

Lemma close_value_mirror (c : R) : close_value (1 - c) = close_value c.
Proof.
  unfold close_value. f_equal. f_equal. f_equal. field.
Qed.

Lemma far_value_mirror (c : R) :
  1 - 2 * c <> 0 -> far_value (1 - c) = far_value c.
Proof.
  intros H. unfold far_value. f_equal.
  replace (1 - (1 - c)) with c by lra. field. lra.
Qed.

Lemma entry_constant_mirror (eps x : R) :
  0 < eps -> eps <= / 2 ->
  entry_constant eps (1 - x) = entry_constant eps x.
Proof.
  intros He0 He. unfold entry_constant.
  rewrite clip_by_value_mirror by exact He.
  rewrite far_mask_mirror.
  destruct (far_mask eps (clip_by_value x eps (1 - eps))) eqn:E.
  - apply far_value_mirror. apply far_mask_true in E.
    intros H0.
    replace (clip_by_value x eps (1 - eps) - / 2) with 0 in E by lra.
    rewrite Rabs_R0 in E. lra.
  - apply close_value_mirror.
Qed.

(** The constant does not change when every entry [x] is replaced by
    [1 - x]. *)
Theorem log_cb_constant_mirror (xs : list R) (eps : R) :
  0 < eps -> eps <= / 2 ->
  log_cb_constant (map (fun x => 1 - x) xs) eps = log_cb_constant xs eps.
Proof.
  intros He0 He. rewrite !log_cb_constant_by_entry, map_map.
  f_equal. apply map_ext. intros x. apply entry_constant_mirror; assumption.
Qed.

Lemma flatten_app (t1 t2 : tensor4R) :
  flatten (t1 ++ t2) = flatten t1 ++ flatten t2.
Proof. unfold flatten. rewrite map_app, concat_app. reflexivity. Qed.

Lemma zip_with_app_same {A B C} (f : A -> B -> C) (a1 a2 : list A)
    (b1 b2 : list B) :
  length a1 = length b1 ->
  zip_with f (a1 ++ a2) (b1 ++ b2) = zip_with f a1 b1 ++ zip_with f a2 b2.
Proof.
  revert b1. induction a1 as [|x a1 IH]; intros [|y b1] H;
    simpl in *; try discriminate; [reflexivity|].
  rewrite IH by lia. reflexivity.
Qed.

(** The normalizing constant that [cb_loss] subtracts is the one of the
    whole batch: each example of a batch loses, beyond its own loss, the
    constants of all the other examples. *)
Theorem cb_loss_shares_constant (xl1 xl2 xt1 xt2 : tensor4R) :
  length xl1 = length xt1 ->
  cb_loss (xl1 ++ xl2) (xt1 ++ xt2)
  = map (fun v => v - log_cb_constant (flatten (map4R sigmoid xl2)) default_eps)
      (cb_loss xl1 xt1)
    ++
    map (fun v => v - log_cb_constant (flatten (map4R sigmoid xl1)) default_eps)
      (cb_loss xl2 xt2).
Proof.
  intros Hlen. unfold cb_loss, wrapped_cross_ent, map4R, reduce_sum_123R.
  rewrite zip_with_app_same by exact Hlen.
  rewrite !map_app, flatten_app, !log_cb_constant_by_entry.
  rewrite (map_app (entry_constant default_eps)), sum_R_app, !map_map.
  f_equal; apply map_ext; intros ex; lra.
Qed.

End CBLossFacts.

Lemma log_cb_constant_mirror_witness :
  ContinuousBernoulli.log_cb_constant (map (fun x => 1 - x)%R [/ 4]%R)
    (/ 100000)%R
  = ContinuousBernoulli.log_cb_constant [/ 4]%R (/ 100000)%R.
Proof.
  apply log_cb_constant_mirror; lra.
Defined.

Lemma cb_loss_shares_constant_witness :
  CBLoss.cb_loss ([[[[0%R]]]] ++ [[[[1%R]]]]) ([[[[1%R]]]] ++ [[[[0%R]]]])
  = map (fun v => v - ContinuousBernoulli.log_cb_constant
                       (CBLoss.flatten (CBLoss.map4R CBLoss.sigmoid [[[[1%R]]]]))
                       CBLoss.default_eps)%R
      (CBLoss.cb_loss [[[[0%R]]]] [[[[1%R]]]])
    ++
    map (fun v => v - ContinuousBernoulli.log_cb_constant
                       (CBLoss.flatten (CBLoss.map4R CBLoss.sigmoid [[[[0%R]]]]))
                       CBLoss.default_eps)%R
      (CBLoss.cb_loss [[[[1%R]]]] [[[[0%R]]]]).
Proof.
  apply cb_loss_shares_constant. reflexivity.
Defined.

(** ** More on square_loss *)

Section LossMore.
Import Loss.

Lemma Forall_zip_with_all {A B C} (P : C -> Prop) (f : A -> B -> C) :
  (forall a b, P (f a b)) -> forall l k, Forall P (zip_with f l k).
Proof.
  intros H. induction l as [|a l IH]; intros [|b k]; simpl; constructor; auto.
Qed.

Lemma zip_with_diag {A C} (f : A -> A -> C) (l : list A) :
  zip_with f l l = map (fun a => f a a) l.
Proof. induction l as [|a l IH]; simpl; [|rewrite IH]; reflexivity. Qed.

Lemma sum_list_nonneg (a : list Q) :
  Forall (fun x => (0 <= x)%Q) a -> (0 <= sum_list a)%Q.
Proof.
  induction 1 as [|x a Hx Ha IH]; [apply Qle_refl|].
  change (sum_list (x :: a)) with (x + sum_list a)%Q.
  apply (Qplus_le_compat 0 x 0 (sum_list a)); assumption.
Qed.

Lemma sum_list_zero (a : list Q) :
  Forall (fun x => (x == 0)%Q) a -> (sum_list a == 0)%Q.
Proof.
  induction 1 as [|x a Hx Ha IH]; simpl; [reflexivity|].
  rewrite Hx, IH. reflexivity.
Qed.

Lemma reduce_sum_123_zero (t : tensor4) :
  Forall (Forall (Forall (Forall (fun x => (x == 0)%Q)))) t ->
  Forall (fun x => (x == 0)%Q) (reduce_sum_123 t).
Proof.
  intros HF. unfold reduce_sum_123.
  apply Forall_map. eapply Forall_impl; [exact HF|]. simpl.
  intros ex Hex. apply sum_list_zero.
  apply Forall_map. eapply Forall_impl; [exact Hex|]. simpl.
  intros row Hrow. apply sum_list_zero.
  apply Forall_map. eapply Forall_impl; [exact Hrow|]. simpl.
  intros cs Hcs. apply sum_list_zero. exact Hcs.
Qed.

Lemma square_term_nonneg (p t : Q) : (0 <= (p - t) ^ 2 / (2 * 1 ^ 2))%Q.
Proof.
  apply Qle_shift_div_l; [reflexivity|].
  rewrite Qmult_0_l. apply Qpower.Qsqr_nonneg.
Qed.

(** The value [square_loss] returns for an example is never positive, and
    it is 0 for every example when the prediction is the target. *)
Theorem square_loss_nonpositive (x_pred x_true : tensor4) (sd : Q) :
  Forall (fun v => (v <= 0)%Q) (square_loss x_pred x_true sd) /\
  Forall (fun v => (v == 0)%Q) (square_loss x_true x_true sd).
Proof.
  unfold square_loss, square_loss_elem, map2_4, reduce_sum_123. split.
  - apply Forall_map, Forall_map.
    eapply Forall_impl;
      [apply (Forall_zip_with_all
                (Forall (Forall (Forall (fun x => (0 <= x)%Q)))))|].
    + intros a b. apply Forall_zip_with_all. intros a1 b1.
      apply Forall_zip_with_all. intros a2 b2.
      apply Forall_zip_with_all. intros p t. apply square_term_nonneg.
    + simpl. intros ex Hex.
      assert (0 <= sum_list (map (fun row => sum_list (map sum_list row)) ex))%Q.
      { apply sum_list_nonneg, Forall_map.
        eapply Forall_impl; [exact Hex|]. simpl. intros row Hrow.
        apply sum_list_nonneg, Forall_map.
        eapply Forall_impl; [exact Hrow|]. simpl. intros cs Hcs.
        apply sum_list_nonneg. exact Hcs. }
      Lqa.lra.
  - apply Forall_map.
    eapply Forall_impl; [apply reduce_sum_123_zero|].
    + rewrite zip_with_diag. apply Forall_map, Forall_forall. intros a3 _.
      rewrite zip_with_diag. apply Forall_map, Forall_forall. intros a2 _.
      rewrite zip_with_diag. apply Forall_map, Forall_forall. intros a1 _.
      rewrite zip_with_diag. apply Forall_map, Forall_forall. intros a _.
      simpl. unfold Qdiv. ring.
    + simpl. intros v Hv. rewrite Hv. reflexivity.
Qed.

End LossMore.

(** ** inception_score *)

Section ScoresFacts.
Import Scores.
Variable call_net : pyval -> pyval -> outcome pyval.
Variable prior : pyval -> pyval -> pyval.
Variable sigmoid : pyval -> pyval.

(** [inception_score] never returns a score and never stores one: the
    prior is not sampled (the number [n], when it is not [None], is handed
    to the network as if it were the latent batch), and if the network
    accepts it, the call ends in a [NameError] for [qq].  The only trace
    it leaves is an empty [scores] dictionary on a model that had none. *)
Theorem inception_score_never_returns (self : gmap string pyval)
    (classifier_path : pyval) (n : pyval) :
  let r := inception_score call_net prior sigmoid self classifier_path n in
  (forall v, snd r <> Done v) /\
  (n <> VNone -> is_Some (self !! "generative_net") ->
     snd r = match call_net (default VNone (self !! "generative_net")) n with
             | Done _ => Failed (NameError "qq")
             | Failed f => Failed f
             end) /\
  fst r !! "scores" = Some (default (VDict ∅) (self !! "scores")) /\
  (forall a, a <> "scores" -> fst r !! a = self !! a).
Proof.
  unfold inception_score. split; [|split; [|split]].
  - intros v. destruct (sample _ _ _ _ _ _ _); simpl; discriminate.
  - intros Hn [net Hnet].
    set (self1 := if hasattr self "scores" then self
                  else <["scores" := VDict ∅]> self).
    assert (Hnet1 : self1 !! "generative_net" = Some net).
    { subst self1. destruct (hasattr self "scores"); [exact Hnet|].
      rewrite lookup_insert_ne by discriminate. exact Hnet. }
    assert (E : sample call_net prior sigmoid self1 n (VInt 100) false
                = call_net net n).
    { unfold sample, decode, getattr. rewrite Hnet1.
      destruct n; try congruence; destruct (call_net net _); reflexivity. }
    rewrite Hnet. cbn. rewrite E. destruct (call_net net n); reflexivity.
  - destruct (hasattr self "scores") eqn:Hs.
    + apply hasattr_true in Hs. destruct Hs as [v Hv].
      destruct (sample _ _ _ _ _ _ _); simpl; rewrite Hv; reflexivity.
    + apply hasattr_false in Hs.
      destruct (sample _ _ _ _ _ _ _); simpl;
        rewrite lookup_insert_eq, Hs; reflexivity.
  - intros a Ha.
    destruct (hasattr self "scores");
      destruct (sample _ _ _ _ _ _ _); simpl; try reflexivity;
      rewrite lookup_insert_ne by congruence; reflexivity.
Qed.

End ScoresFacts.

(** ** VAE.__init__ *)

Section VAEInitFacts.
Import VAEInit.
Variable create_generator : action.
Variable create_inference : pyval -> action.
Variable Adam : pyval -> outcome pyval.
Variable cardinality : pyval -> outcome pyval.

Lemma then_done (a b : action) s s' :
  then_ a b s = (s', Done tt) ->
  exists s1, a s = (s1, Done tt) /\ b s1 = (s', Done tt).
Proof.
  unfold then_. destruct (a s) as [s1 [[]|f]]; intros H; [eauto | discriminate].
Qed.

Lemma with_value_done {A} (o : outcome A) (k : A -> action) s s' :
  with_value o k s = (s', Done tt) ->
  exists v, o = Done v /\ k v s = (s', Done tt).
Proof.
  unfold with_value. destruct o as [v|f]; intros H; [eauto | discriminate].
Qed.

Lemma set_beta_schedule_no_epochs (d : gmap string pyval) q dcl :
  d !! "epochs" = None ->
  Beta.set_beta_schedule d q dcl = Raise (KeyError "epochs").
Proof.
  intros H. unfold Beta.set_beta_schedule. simpl. rewrite H. reflexivity.
Qed.

Lemma set_schedule_done (d : gmap string pyval) s s' :
  set_schedule d s = (s', Done tt) -> is_Some (d !! "epochs").
Proof.
  unfold set_schedule. intros H.
  destruct (d !! "epochs") as [e|] eqn:He; [eauto|].
  destruct (s !! "beta") as [b|]; [|discriminate].
  destruct (as_num b) as [q|e].
  - rewrite (set_beta_schedule_no_epochs d q 5 He) in H. discriminate.
  - rewrite (set_beta_schedule_no_epochs d 0 5 He) in H. discriminate.
Qed.

(** The constructor computes the beta schedule from [spec['epochs']] even
    when no schedule is asked for, so a VAE that was constructed has
    [epochs] in its specification: [train()] without an argument passes
    the check on [epochs], and only an explicit argument can make that
    check raise. *)
Theorem constructed_VAE_has_epochs (d : gmap string pyval) (dataset : pyval)
    (self : gmap string pyval) :
  VAE_new create_generator create_inference Adam cardinality
    [VDict d; dataset] = (self, Done tt) ->
  is_Some (d !! "epochs") /\
  returns (Epochs.resolve_epochs None d) /\
  forall v, Epochs.resolve_epochs (Some v) d = Raise ValueError.
Proof.
  intros H. unfold VAE_new in H.
  apply then_done in H. destruct H as (s0 & _ & H).
  unfold VAE_init_body in H.
  apply then_done in H. destruct H as (s1 & _ & H).
  apply then_done in H. destruct H as (s2 & _ & H).
  apply then_done in H. destruct H as (s3 & _ & H).
  apply with_value_done in H. destruct H as (settings & _ & H).
  apply with_value_done in H. destruct H as (optimizer & _ & H).
  apply then_done in H. destruct H as (s4 & _ & H).
  apply then_done in H. destruct H as (s5 & _ & H).
  apply then_done in H. destruct H as (s6 & _ & H).
  apply then_done in H. destruct H as (s7 & _ & H).
  apply then_done in H. destruct H as (s8 & Hsched & _).
  apply set_schedule_done in Hsched.
  split; [exact Hsched|]. split.
  - apply resolve_epochs_returns. split; [reflexivity | exact Hsched].
  - intros v. reflexivity.
Qed.

Section Networks.
(** Network construction that succeeds, and a specification with the
    entries read before the optimizer is chosen. *)
Variables (g i : pyval) (d : gmap string pyval) (dataset : pyval).
Variables (n : Z) (dims settings optimizer : pyval).
Hypothesis Hcg :
  forall s, create_generator s = (<["generative_net" := g]> s, Done tt).
Hypothesis Hci :
  forall shape s, create_inference shape s
                  = (<["inference_net" := i]> s, Done tt).
Hypothesis Hld : d !! "latent_dim" = Some (VInt n).
Hypothesis Hdims : d !! "image_dims" = Some dims.
Hypothesis Hsettings : d !! "opt_kwargs" = Some settings.
Hypothesis Hopt : d !! "optimizer" = Some optimizer.

(** The instance when the optimizer is chosen. *)
Lemma VAE_new_upto_optimizer (rest : pyval -> pyval -> action) :
  then_ (lift (Construction.GenerativeModel_init [VDict d; dataset]))
    (then_ create_generator
    (then_ (fun self =>
              match self !! "latent_dim" with
              | None => (self, Failed (AttributeError "latent_dim"))
              | Some ld => with_value (lift_result (times_two ld))
                             create_inference self
              end)
    (then_ (set "log_prior_fn" (VObj "log_prior_fn"))
    (with_value (lift_result (getitem (VDict d) "opt_kwargs")) (fun st =>
     with_value (lift_result (getitem (VDict d) "optimizer")) (fun o =>
       rest st o)))))) ∅
  = rest settings optimizer
      (<["log_prior_fn" := VObj "log_prior_fn"]>
        (<["inference_net" := i]>
          (<["generative_net" := g]>
            (<["image_dims" := dims]>
              (<["latent_dim" := VInt n]>
                (<["dataset" := dataset]>
                  (<["spec" := VDict d]> ∅))))))).
Proof.
  unfold then_ at 1. unfold lift, Construction.GenerativeModel_init,
    andthen, setattr, setattr_from.
  rewrite !(getitem_lookup _ _ _ Hld), !(getitem_lookup _ _ _ Hdims).
  cbn [lift_result].
  unfold then_ at 1. rewrite Hcg.
  unfold then_ at 1.
  rewrite lookup_insert_ne by discriminate.
  rewrite lookup_insert_ne by discriminate.
  rewrite lookup_insert_eq.
  cbn [times_two lift_result with_value]. rewrite Hci.
  unfold then_ at 1. unfold set at 1.
  rewrite (getitem_lookup _ _ _ Hsettings), (getitem_lookup _ _ _ Hopt).
  reflexivity.
Qed.

(** Once the networks are built: an optimizer other than ['adam'] ends the
    construction with [NotImplementedError] whatever the likelihood entry
    is, even a missing one; with ['adam'], a likelihood name outside
    ['bernoulli'], ['continuous_bernoulli'] and ['normal'] ends it with
    [ValueError]. *)
Theorem VAE_new_refuses_configuration :
  (Beta.is_str "adam" optimizer = false ->
   snd (VAE_new create_generator create_inference Adam cardinality
          [VDict d; dataset]) = Failed (Base NotImplementedError)) /\
  (forall opt lk,
     optimizer = VStr "adam" -> Adam settings = Done opt ->
     d !! "likelihood" = Some (VStr lk) ->
     lk <> "bernoulli" -> lk <> "continuous_bernoulli" -> lk <> "normal" ->
     snd (VAE_new create_generator create_inference Adam cardinality
            [VDict d; dataset]) = Failed (Base ValueError)).
Proof.
  unfold VAE_new, VAE_init_body. split.
  - intros Hna.
    rewrite (VAE_new_upto_optimizer (fun st o => then_ _ _)).
    rewrite Hna. reflexivity.
  - intros opt lk Heq HA Hlk H1 H2 H3.
    rewrite (VAE_new_upto_optimizer (fun st o => then_ _ _)).
    rewrite Heq.
    cbn [Beta.is_str String.eqb Ascii.eqb Bool.eqb].
    unfold then_ at 1. rewrite HA. cbn [with_value set].
    unfold then_ at 1.
    assert (Hb : forall s, exists s', set_beta d s = (s', Done tt)).
    { intros s. unfold set_beta. destruct (has_key d "vae_beta") eqn:E.
      - apply has_key_true in E. destruct E as [v Hv].
        rewrite (getitem_lookup _ _ _ Hv). cbn. eauto.
      - cbn. eauto. }
    match goal with
    | |- context [set_beta d ?s] => destruct (Hb s) as [s' ->]
    end.
    unfold then_ at 1. unfold set_loglike.
    rewrite (getitem_lookup _ _ _ Hlk). cbn [lift_result with_value Beta.is_str].
    replace (String.eqb "bernoulli" lk) with false
      by (symmetry; apply String.eqb_neq; congruence).
    replace (String.eqb "continuous_bernoulli" lk) with false
      by (symmetry; apply String.eqb_neq; congruence).
    replace (String.eqb "normal" lk) with false
      by (symmetry; apply String.eqb_neq; congruence).
    reflexivity.
Qed.

End Networks.

End VAEInitFacts.

(** A specification with everything the constructor reads, networks that
    build and a dataset of ten minibatches. *)
Lemma constructed_VAE_has_epochs_witness :
  returns (Epochs.resolve_epochs None
    (<["latent_dim" := VInt 8]>
      (<["image_dims" := VList [VInt 28; VInt 28; VInt 1]]>
        (<["opt_kwargs" := VDict ∅]>
          (<["optimizer" := VStr "adam"]>
            (<["likelihood" := VStr "bernoulli"]>
              (<["epochs" := VInt 1]> ∅))))))).
Proof.
  match goal with
  | |- returns (Epochs.resolve_epochs None ?d) => set (d0 := d)
  end.
  destruct (VAEInit.VAE_new
              (fun s => (<["generative_net" := VObj "G"]> s, Done tt))
              (fun _ s => (<["inference_net" := VObj "I"]> s, Done tt))
              (fun _ => Done (VObj "Adam")) (fun _ => Done (VInt 10))
              [VDict d0; VObj "dataset"]) as [self o] eqn:E.
  assert (Ho : o = Done tt).
  { change o with (snd (self, o)). rewrite <- E. vm_compute. reflexivity. }
  subst o.
  exact (proj1 (proj2 (constructed_VAE_has_epochs _ _ _ _ d0 _ self E))).
Defined.

(** The same construction with the optimizer ['sgd'] and no likelihood. *)
Lemma VAE_new_refuses_configuration_witness :
  snd (VAEInit.VAE_new
         (fun s => (<["generative_net" := VObj "G"]> s, Done tt))
         (fun _ s => (<["inference_net" := VObj "I"]> s, Done tt))
         (fun _ => Done (VObj "Adam")) (fun _ => Done (VInt 10))
         [VDict (<["latent_dim" := VInt 8]>
                  (<["image_dims" := VList [VInt 28; VInt 28; VInt 1]]>
                    (<["opt_kwargs" := VDict ∅]>
                      (<["optimizer" := VStr "sgd"]> ∅))));
          VObj "dataset"])
  = Failed (Base NotImplementedError).
Proof.
  apply (VAE_new_refuses_configuration
           (fun s => (<["generative_net" := VObj "G"]> s, Done tt))
           (fun _ s => (<["inference_net" := VObj "I"]> s, Done tt))
           (fun _ => Done (VObj "Adam")) (fun _ => Done (VInt 10))
           (VObj "G") (VObj "I") _ (VObj "dataset") 8
           (VList [VInt 28; VInt 28; VInt 1]) (VDict ∅) (VStr "sgd")).
  - reflexivity.
  - reflexivity.
  - reflexivity.
  - reflexivity.
  - reflexivity.
  - reflexivity.
  - reflexivity.
Defined.

(** ** create_generator *)

Section NetworksFacts.
Import VAEInit Networks.
Variable bld : string -> pyval -> pyval -> gmap string pyval -> outcome pyval.
Variable files : gmap string string.
Variable fix_batch_shape : string -> pyval -> outcome string.
Variable model_from_json : string -> outcome pyval.

Lemma registered_name_lookup (name : string) :
  name ∈ builder_names ->
  contains "json" name = false /\
  builder_mapping bld !! name = Some (bld name).
Proof.
  unfold builder_names. intros H.
  repeat (apply elem_of_cons in H; destruct H as [->|H]);
    [split; reflexivity .. | apply elem_of_nil in H; destruct H].
Qed.

Lemma unregistered_name_lookup (name : string) :
  name ∉ builder_names -> builder_mapping bld !! name = None.
Proof.
  intros H. unfold builder_mapping. apply not_elem_of_list_to_map_1.
  unfold builder_names in *. simpl. exact H.
Qed.

(** A generator named after one of the six registered builders is built by
    that builder from the latent dimension, the image dimensions and the
    keyword arguments of the specification, whatever files exist under
    [SPECS_DIR]: no registered name is mistaken for a JSON file.  A name
    that is not registered and does not contain [json] raises a
    [KeyError] for that name and leaves the model as it was. *)
Theorem create_generator_by_name (self d k : gmap string pyval)
    (name : string) (latent_dim image_dims : pyval) :
  self !! "spec" = Some (VDict d) ->
  self !! "latent_dim" = Some latent_dim ->
  self !! "image_dims" = Some image_dims ->
  d !! "generative_net" = Some (VStr name) ->
  d !! "generative_net_kwargs" = Some (VDict k) ->
  (name ∈ builder_names ->
   create_generator bld files fix_batch_shape model_from_json self
   = match bld name latent_dim image_dims k with
     | Done net => (<["generative_net" := net]> self, Done tt)
     | Failed f => (self, Failed f)
     end) /\
  (name ∉ builder_names -> contains "json" name = false ->
   create_generator bld files fix_batch_shape model_from_json self
   = (self, Failed (Base (KeyError name)))).
Proof.
  intros Hspec Hld Hdims Hname Hkw.
  unfold create_generator, new_generator, Scores.getattr.
  rewrite Hspec. cbn [obind].
  rewrite (getitem_lookup _ _ _ Hname). cbn [lift_result obind py_in].
  split.
  - intros Hin. destruct (registered_name_lookup name Hin) as [Hj Hb].
    rewrite Hj, Hb, (getitem_lookup _ _ _ Hkw), Hld, Hdims.
    cbn [lift_result obind]. reflexivity.
  - intros Hout Hj.
    rewrite Hj, (unregistered_name_lookup name Hout). reflexivity.
Qed.

End NetworksFacts.

Lemma create_generator_by_name_witness :
  Networks.create_generator (fun name _ _ _ => Done (VObj name)) ∅
    (fun s _ => Done s) (fun s => Done (VObj s))
    (<["spec" := VDict (<["generative_net" := VStr "conv_decoder"]>
                          (<["generative_net_kwargs" := VDict ∅]> ∅))]>
       (<["latent_dim" := VInt 8]> (<["image_dims" := VList []]> ∅)))
  = (<["generative_net" := VObj "conv_decoder"]>
       (<["spec" := VDict (<["generative_net" := VStr "conv_decoder"]>
                             (<["generative_net_kwargs" := VDict ∅]> ∅))]>
          (<["latent_dim" := VInt 8]> (<["image_dims" := VList []]> ∅))),
     Done tt).
Proof.
  refine (proj1 (create_generator_by_name
                   (fun name _ _ _ => Done (VObj name)) ∅
                   (fun s _ => Done s) (fun s => Done (VObj s))
                   _ _ ∅ "conv_decoder" (VInt 8) (VList []) _ _ _ _ _) _).
  - reflexivity.
  - reflexivity.
  - reflexivity.
  - reflexivity.
  - reflexivity.
  - unfold Networks.builder_names. apply elem_of_cons. left. reflexivity.
Defined.
